(** * Portfolio admin server: document cache and asset lifecycle

    A shallow embedding of the admin routes of [app.js]: the held
    reference [portfolioData], the persisted document, the calls issued
    against the database and the image host, and the helpers
    [extractPublicId] and [deleteCloudinaryAsset].

    Conventions of the embedding.
    - A JavaScript string is a [string] of bytes (its UTF-8 encoding).
    - A value that may be [undefined] is an [option]; [None] is
      [undefined].
    - A JavaScript number that is compared with an array length or with
      an identifier is an integer [Z]; [NaN] is [None].  The conversion
      of a text to a number rounds to the nearest double, ties to even.
    - White space is the ECMAScript white space and line terminator set,
      each character in its UTF-8 encoding.
    - Requests run one at a time, on a held reference that is loaded:
      the server listens only once [connectDBAndLoadData] has set it.
    - [save] writes the whole held document or rejects; [findById]
      returns the stored document.
    - The upload middleware has run when a handler starts; its outcome
      is an input of the handler, and [hostUploads] is what it has
      stored in the image host by then.  The log [calls] records the
      calls the handlers themselves issue.  Console output is left
      out. *)

From Stdlib Require Import String Ascii List ZArith Bool Lia.
Import ListNotations.
Local Open Scope string_scope.
Local Open Scope Z_scope.

(* ================================================================== *)
(** ** JavaScript string primitives used by the routes *)
(* ================================================================== *)

Module Js.

(** [s.startsWith(p)], also the test of a literal in a regular
    expression at the current position. *)
Fixpoint startsWith (p s : string) : bool :=
  match p, s with
  | EmptyString, _ => true
  | String a p', String b s' => Ascii.eqb a b && startsWith p' s'
  | String _ _, EmptyString => false
  end.

(** The text after the first [length p] characters. *)
Fixpoint drop (n : nat) (s : string) : string :=
  match n, s with
  | O, _ => s
  | S n', String _ s' => drop n' s'
  | S _, EmptyString => EmptyString
  end.

(** The first [n] characters. *)
Fixpoint take (n : nat) (s : string) : string :=
  match n, s with
  | O, _ => EmptyString
  | S n', String a s' => String a (take n' s')
  | S _, EmptyString => EmptyString
  end.

(** The text that follows the leftmost occurrence of [p] in [s]. *)
Fixpoint afterFirst (p s : string) : option string :=
  if startsWith p s then Some (drop (String.length p) s)
  else match s with
       | EmptyString => None
       | String _ s' => afterFirst p s'
       end.

(** [s.includes(p)] *)
Definition includes (p s : string) : bool :=
  match afterFirst p s with Some _ => true | None => false end.

(** [s.lastIndexOf(c)] for a one-character [c]; [-1] when absent. *)
Fixpoint lastIndexOf (c : ascii) (s : string) : Z :=
  match s with
  | EmptyString => -1
  | String a s' =>
      let r := lastIndexOf c s' in
      if 0 <=? r then r + 1
      else if Ascii.eqb a c then 0 else -1
  end.

(** [s.indexOf]-style clamp of an index argument into [0 .. length]. *)
Definition clampIndex (s : string) (i : Z) : nat :=
  Z.to_nat (Z.min (Z.max 0 i) (Z.of_nat (String.length s))).

(** [s.substring(a, b)]: both arguments are clamped into the string and
    swapped when out of order. *)
Definition substring (s : string) (a b : Z) : string :=
  let a' := clampIndex s a in
  let b' := clampIndex s b in
  let lo := Nat.min a' b' in
  let hi := Nat.max a' b' in
  take (hi - lo) (drop lo s).

Definition isDigit (c : ascii) : bool :=
  let n := nat_of_ascii c in (48 <=? n)%nat && (n <=? 57)%nat.

(** White space and line terminators of ECMAScript, by the length of
    their UTF-8 encoding.  One byte: U+0009 to U+000D and U+0020. *)
Definition isWhite (c : ascii) : bool :=
  let n := nat_of_ascii c in
  ((9 <=? n)%nat && (n <=? 13)%nat) || (n =? 32)%nat.

(** Two bytes: U+00A0, encoded [C2 A0]. *)
Definition isWhite2 (a b : ascii) : bool :=
  (nat_of_ascii a =? 194)%nat && (nat_of_ascii b =? 160)%nat.

(** Three bytes: U+1680 [E1 9A 80]; U+2000 to U+200A, U+2028, U+2029 and
    U+202F [E2 80 80..8A, A8, A9, AF]; U+205F [E2 81 9F]; U+3000
    [E3 80 80]; U+FEFF [EF BB BF]. *)
Definition isWhite3 (a b c : ascii) : bool :=
  let x := nat_of_ascii a in
  let y := nat_of_ascii b in
  let z := nat_of_ascii c in
  ((x =? 225) && (y =? 154) && (z =? 128))%nat
  || ((x =? 226) && (y =? 128)
      && (((128 <=? z) && (z <=? 138)) || (z =? 168) || (z =? 169)
          || (z =? 175)))%nat
  || ((x =? 226) && (y =? 129) && (z =? 159))%nat
  || ((x =? 227) && (y =? 128) && (z =? 128))%nat
  || ((x =? 239) && (y =? 187) && (z =? 191))%nat.

(** The text after the white-space character [s] starts with, if it
    starts with one. *)
Definition leadingWhite (s : string) : option string :=
  match s with
  | String a s1 =>
      if isWhite a then Some s1
      else match s1 with
           | String b s2 =>
               if isWhite2 a b then Some s2
               else match s2 with
                    | String c s3 => if isWhite3 a b c then Some s3 else None
                    | EmptyString => None
                    end
           | EmptyString => None
           end
  | EmptyString => None
  end.

(** Whether [s] is one white-space character and nothing else. *)
Definition isWhiteChar (s : string) : bool :=
  match leadingWhite s with
  | Some EmptyString => true
  | _ => false
  end.

(** Value of a character as a digit of radix [r] ([r] at most 16). *)
Definition digitVal (r : Z) (c : ascii) : option Z :=
  let n := Z.of_nat (nat_of_ascii c) in
  let v := if (48 <=? n) && (n <=? 57) then Some (n - 48)
           else if (97 <=? n) && (n <=? 102) then Some (n - 87)
           else if (65 <=? n) && (n <=? 70) then Some (n - 55)
           else None in
  match v with
  | Some d => if d <? r then Some d else None
  | None => None
  end.

(** Longest prefix of radix-[r] digits of [s], read with accumulator
    [acc]; returns the value, the number of digits read, and the rest. *)
Fixpoint readDigits (r : Z) (s : string) (acc : Z) (k : nat)
  : Z * nat * string :=
  match s with
  | EmptyString => (acc, k, s)
  | String c s' =>
      match digitVal r c with
      | Some d => readDigits r s' (acc * r + d) (S k)
      | None => (acc, k, s)
      end
  end.

(** Removes leading white space. *)
Fixpoint trimStart (s : string) : string :=
  match s with
  | String a s1 =>
      if isWhite a then trimStart s1
      else match s1 with
           | String b s2 =>
               if isWhite2 a b then trimStart s2
               else match s2 with
                    | String c s3 =>
                        if isWhite3 a b c then trimStart s3 else s
                    | EmptyString => s
                    end
           | EmptyString => s
           end
  | EmptyString => s
  end.

(** Removes trailing white space: what is left of the rest, with the
    character in front of it, unless that is one white-space character. *)
Fixpoint trimEnd (s : string) : string :=
  match s with
  | EmptyString => EmptyString
  | String c s' =>
      let t := String c (trimEnd s') in
      if isWhiteChar t then EmptyString else t
  end.

(** [s.trim()] *)
Definition trim (s : string) : string := trimEnd (trimStart s).

(** Splits off an optional sign; [true] is a minus sign. *)
Definition readSign (s : string) : bool * string :=
  match s with
  | String "-" s' => (true, s')
  | String "+" s' => (false, s')
  | _ => (false, s)
  end.

(** Nearest integer to [p / q], ties to the even one, for [0 <= p] and
    [0 < q]. *)
Definition roundHalfEven (p q : Z) : Z :=
  let k := p / q in
  let r := p mod q in
  if 2 * r <? q then k
  else if q <? 2 * r then k + 1
  else if Z.even k then k else k + 1.

(** [floor (log2 (p / q))] for positive [p] and [q]. *)
Definition binade (p q : Z) : Z :=
  let e := Z.log2 p - Z.log2 q in
  if (if 0 <=? e then q * 2 ^ e <=? p else q <=? p * 2 ^ (- e))
  then e else e - 1.

(** The double nearest to [p / q], ties to even, for [0 <= p] and
    [0 < q]: [Some (m, s)] is the double [m * 2 ^ s], with [m] of at most
    53 bits and [s] at least [-1074], and [None] is an infinity. *)
Definition nearestDouble (p q : Z) : option (Z * Z) :=
  if p =? 0 then Some (0, 0)
  else
    let s := Z.max (binade p q - 52) (-1074) in
    let m := if 0 <=? s then roundHalfEven p (q * 2 ^ s)
             else roundHalfEven (p * 2 ^ (- s)) q in
    if (0 <=? s) && (2 ^ 1024 <=? m * 2 ^ s) then None else Some (m, s).

(** The value [parseInt] returns for the digits read as [v]: the nearest
    double, which is [v] itself below [2 ^ 53].  Past the largest double
    the code has an infinity where [v] is kept here: both are beyond
    every array length. *)
Definition roundInteger (v : Z) : Z :=
  match nearestDouble v 1 with
  | Some (m, s) => if 0 <=? s then m * 2 ^ s else v
  | None => v
  end.

(** [parseInt(s)] with no radix argument; [None] is [NaN].  Leading
    white space and a sign are skipped, a [0x] prefix selects radix 16,
    and the longest run of digits is read. *)
Definition parseInt (s : string) : option Z :=
  let '(neg, body) := readSign (trimStart s) in
  let '(radix, digits) :=
    if startsWith "0x" body || startsWith "0X" body
    then (16, drop 2 body) else (10, body) in
  match readDigits radix digits 0 0 with
  | (_, O, _) => None
  | (v, S _, _) => Some (if neg then - roundInteger v else roundInteger v)
  end.

(** A number as far as comparison with an integer needs it: [NaN], an
    infinity, or the exact decimal value [m * 10 ^ e]. *)
Inductive Number : Type :=
| NaN
| Infinity (negative : bool)
| Exact (m e : Z).

(** A whole-string literal of radix [r] (after a [0x], [0o] or [0b]). *)
Definition readRadixLiteral (r : Z) (s : string) : Number :=
  match readDigits r s 0 0 with
  | (v, S _, EmptyString) => Exact v 0
  | _ => NaN
  end.

(** The exponent part of a decimal literal, if [s] is one or is empty. *)
Definition readExponent (s : string) : option Z :=
  match s with
  | EmptyString => Some 0
  | String c s' =>
      if Ascii.eqb c "e" || Ascii.eqb c "E" then
        let '(neg, ds) := readSign s' in
        match readDigits 10 ds 0 0 with
        | (v, S _, EmptyString) => Some (if neg then - v else v)
        | _ => None
        end
      else None
  end.

(** Signed decimal literal: digits, optional fraction, optional
    exponent, with at least one digit before the exponent. *)
Definition readDecimalLiteral (s : string) : Number :=
  let '(neg, body) := readSign s in
  if String.eqb body "Infinity" then Infinity neg
  else
    let '(i, ki, r1) := readDigits 10 body 0 0 in
    let '(m, kf, r2) :=
      match r1 with
      | String "." r => readDigits 10 r i 0
      | _ => (i, O, r1)
      end in
    match (ki + kf)%nat, readExponent r2 with
    | S _, Some x => Exact (if neg then - m else m) (x - Z.of_nat kf)
    | _, _ => NaN
    end.

(** [Number(s)], the conversion [==] applies to a string operand. *)
Definition StringToNumber (s : string) : Number :=
  let t := trim s in
  if String.eqb t "" then Exact 0 0
  else if startsWith "0x" t || startsWith "0X" t
  then readRadixLiteral 16 (drop 2 t)
  else if startsWith "0o" t || startsWith "0O" t
  then readRadixLiteral 8 (drop 2 t)
  else if startsWith "0b" t || startsWith "0B" t
  then readRadixLiteral 2 (drop 2 t)
  else readDecimalLiteral t.

(** Whether a converted string equals the integer [n]: the string
    stands for the double nearest to its decimal value, and that double
    is compared with [n].  A value that rounds to zero equals [0] under
    either sign. *)
Definition numberEqZ (x : Number) (n : Z) : bool :=
  match x with
  | Exact m e =>
      let p := Z.abs m * 10 ^ Z.max e 0 in
      let q := 10 ^ Z.max (- e) 0 in
      match nearestDouble p q with
      | Some (k, s) =>
          let v := Z.sgn m * k in
          if 0 <=? s then v * 2 ^ s =? n else v =? n * 2 ^ (- s)
      | None => false
      end
  | _ => false
  end.

Definition hexDigit (n : nat) : ascii :=
  match String.get n "0123456789ABCDEF" with
  | Some c => c
  | None => "0"%char
  end.

(** Characters [encodeURIComponent] leaves as they are. *)
Definition isUnreserved (c : ascii) : bool :=
  let n := nat_of_ascii c in
  ((48 <=? n)%nat && (n <=? 57)%nat)
  || ((65 <=? n)%nat && (n <=? 90)%nat)
  || ((97 <=? n)%nat && (n <=? 122)%nat)
  || includes (String c EmptyString) "-_.!~*'()".

(** [encodeURIComponent(s)]: every other byte becomes [%XX]. *)
Fixpoint encodeURIComponent (s : string) : string :=
  match s with
  | EmptyString => EmptyString
  | String c s' =>
      let n := nat_of_ascii c in
      (if isUnreserved c then String c EmptyString
       else String "%" (String (hexDigit (n / 16))
                          (String (hexDigit (n mod 16)) EmptyString)))
      ++ encodeURIComponent s'
  end.

(** [s.split(c)] for a one-character separator. *)
Fixpoint split (c : ascii) (s : string) : list string :=
  match s with
  | EmptyString => [EmptyString]
  | String a s' =>
      match split c s' with
      | x :: xs => if Ascii.eqb a c then EmptyString :: x :: xs
                   else String a x :: xs
      | [] => [String a EmptyString]
      end
  end.

End Js.

(* ================================================================== *)
(** ** The portfolio document *)
(* ================================================================== *)

(** The [id] field of a stored record: absent on records created before
    identifiers existed, a number on old numbered records, a string on
    current ones. *)
Inductive Id : Type :=
| IdAbsent
| IdNumber (n : Z)
| IdString (s : string).

(** [v === s] for a string [s]: a string equal to [s]. *)
Definition strictEq (v : Id) (s : string) : bool :=
  match v with
  | IdString t => String.eqb t s
  | _ => false
  end.

(** [v == s] for a string [s]: strings compare as strings, a number
    compares with [Number(s)], [undefined] equals no string. *)
Definition looseEq (v : Id) (s : string) : bool :=
  match v with
  | IdAbsent => false
  | IdNumber n => Js.numberEqZ (Js.StringToNumber s) n
  | IdString t => String.eqb t s
  end.

Record Slide : Type := mkSlide {
  slide_title : option string;
  slide_description : option string;
  slide_link : option string;
  slide_buttonText : option string;
  slide_url : option string }.

Record About : Type := mkAbout {
  about_summary : option string;
  about_fullStory : option string;
  about_skills : list string;
  about_photoUrl : option string }.

Record ProjectSummary : Type := mkProjectSummary {
  ps_title : option string;
  ps_paragraph1 : option string;
  ps_paragraph2 : option string;
  ps_buttonLink : option string;
  ps_image : option string }.

Record Education : Type := mkEducation {
  edu_id : Id;
  edu_imageUrl : option string;
  edu_title : option string;
  edu_institution : option string;
  edu_years : option string }.

Record Certificate : Type := mkCertificate {
  cert_id : Id;
  cert_title : option string;
  cert_issuer : option string;
  cert_pdfUrl : option string }.

Record Photo : Type := mkPhoto {
  photo_id : Id;
  photo_url : option string;
  photo_caption : option string }.

Record Project : Type := mkProject {
  proj_id : Id;
  proj_title : option string;
  proj_description : option string;
  proj_githubLink : option string;
  proj_images : list string }.

Record FooterInfo : Type := mkFooterInfo {
  footer_name : option string;
  footer_line1 : option string;
  footer_line2 : option string;
  footer_githubLink : option string;
  footer_emailLink : option string;
  footer_phoneLink : option string;
  footer_linkedinLink : option string }.

(** The document kept under the fixed key ['portfolio_data']. *)
Record Doc : Type := mkDoc {
  carousel : list Slide;
  about : About;
  projectSummary : ProjectSummary;
  education : list Education;
  certificates : list Certificate;
  gallery : list Photo;
  projects : list Project;
  footerInfo : option FooterInfo }.

(* ================================================================== *)
(** ** Array primitives *)
(* ================================================================== *)

Section Arrays.
Context {A : Type}.

(** [l.find(p)] *)
Fixpoint find (p : A -> bool) (l : list A) : option A :=
  match l with
  | [] => None
  | x :: r => if p x then Some x else find p r
  end.

(** [l.findIndex(p)]; [-1] when no element satisfies [p]. *)
Fixpoint findIndex (p : A -> bool) (l : list A) : Z :=
  match l with
  | [] => -1
  | x :: r => if p x then 0
              else let i := findIndex p r in
                   if i =? -1 then -1 else i + 1
  end.

(** [l[i]]; [None] is [undefined]. *)
Definition at_ (l : list A) (i : Z) : option A :=
  if i <? 0 then None else nth_error l (Z.to_nat i).

(** Removes the element at position [n]. *)
Fixpoint removeNth (n : nat) (l : list A) : list A :=
  match n, l with
  | _, [] => []
  | O, _ :: r => r
  | S n', x :: r => x :: removeNth n' r
  end.

(** [l.splice(i, 1)]: a negative start counts from the end, a start
    past the end removes nothing. *)
Definition splice1 (i : Z) (l : list A) : list A :=
  let len := Z.of_nat (length l) in
  let start := if i <? 0 then Z.max (len + i) 0 else Z.min i len in
  removeNth (Z.to_nat start) l.

(** Assignment through [l[i].field = ...]: the element at [n] is
    replaced by [f] of it. *)
Fixpoint updateNth (n : nat) (f : A -> A) (l : list A) : list A :=
  match n, l with
  | _, [] => []
  | O, x :: r => f x :: r
  | S n', x :: r => x :: updateNth n' f r
  end.

(** Assignment through the object returned by [l.find(p)]: the first
    element satisfying [p] is replaced by [f] of it. *)
Fixpoint updateFirst (p : A -> bool) (f : A -> A) (l : list A) : list A :=
  match l with
  | [] => []
  | x :: r => if p x then f x :: r else x :: updateFirst p f r
  end.
End Arrays.

(** [l.indexOf(s)] on an array of strings. *)
Definition indexOf (s : string) (l : list string) : Z :=
  findIndex (String.eqb s) l.

(** Field assignments on the document and its records. *)
Definition set_carousel (v : list Slide) (d : Doc) : Doc :=
  mkDoc v (about d) (projectSummary d) (education d) (certificates d)
        (gallery d) (projects d) (footerInfo d).
Definition set_about (v : About) (d : Doc) : Doc :=
  mkDoc (carousel d) v (projectSummary d) (education d) (certificates d)
        (gallery d) (projects d) (footerInfo d).
Definition set_projectSummary (v : ProjectSummary) (d : Doc) : Doc :=
  mkDoc (carousel d) (about d) v (education d) (certificates d)
        (gallery d) (projects d) (footerInfo d).
Definition set_education (v : list Education) (d : Doc) : Doc :=
  mkDoc (carousel d) (about d) (projectSummary d) v (certificates d)
        (gallery d) (projects d) (footerInfo d).
Definition set_certificates (v : list Certificate) (d : Doc) : Doc :=
  mkDoc (carousel d) (about d) (projectSummary d) (education d) v
        (gallery d) (projects d) (footerInfo d).
Definition set_gallery (v : list Photo) (d : Doc) : Doc :=
  mkDoc (carousel d) (about d) (projectSummary d) (education d)
        (certificates d) v (projects d) (footerInfo d).
Definition set_projects (v : list Project) (d : Doc) : Doc :=
  mkDoc (carousel d) (about d) (projectSummary d) (education d)
        (certificates d) (gallery d) v (footerInfo d).
Definition set_footerInfo (v : option FooterInfo) (d : Doc) : Doc :=
  mkDoc (carousel d) (about d) (projectSummary d) (education d)
        (certificates d) (gallery d) (projects d) v.

Definition set_slide_url (v : option string) (s : Slide) : Slide :=
  mkSlide (slide_title s) (slide_description s) (slide_link s)
          (slide_buttonText s) v.
Definition set_slide_text (t de l b : option string) (s : Slide) : Slide :=
  mkSlide t de l b (slide_url s).
Definition set_photo_url (v : option string) (p : Photo) : Photo :=
  mkPhoto (photo_id p) v (photo_caption p).
Definition set_photo_caption (v : option string) (p : Photo) : Photo :=
  mkPhoto (photo_id p) (photo_url p) v.
Definition set_proj_text (t de g : option string) (p : Project) : Project :=
  mkProject (proj_id p) t de g (proj_images p).
Definition set_proj_images (v : list string) (p : Project) : Project :=
  mkProject (proj_id p) (proj_title p) (proj_description p)
            (proj_githubLink p) v.

(* ================================================================== *)
(** ** Deriving the image host's identifier from a URL *)
(* ================================================================== *)

Fixpoint dropDigits (s : string) : string :=
  match s with
  | String c s' => if Js.isDigit c then dropDigits s' else s
  | EmptyString => s
  end.

(** The optional version group (v, digits, slash): when the text starts with a
    version segment the segment is consumed, otherwise nothing is. *)
Definition skipVersion (s : string) : string :=
  match s with
  | String "v" (String c r) =>
      if Js.isDigit c then
        match dropDigits r with
        | String "/" rest => rest
        | _ => s
        end
      else s
  | _ => s
  end.

(** Line terminators, which [.] does not match: LF, CR and the UTF-8
    encodings of U+2028 and U+2029. *)
Definition lineSeparator : string :=
  String (ascii_of_nat 226) (String (ascii_of_nat 128)
    (String (ascii_of_nat 168) EmptyString)).
Definition paragraphSeparator : string :=
  String (ascii_of_nat 226) (String (ascii_of_nat 128)
    (String (ascii_of_nat 169) EmptyString)).

Definition atLineTerminator (s : string) : bool :=
  Js.startsWith (String (ascii_of_nat 10) EmptyString) s
  || Js.startsWith (String (ascii_of_nat 13) EmptyString) s
  || Js.startsWith lineSeparator s
  || Js.startsWith paragraphSeparator s.

(** The capture group (any characters but line terminators, as many
    as possible): the text up to the first line terminator. *)
Fixpoint dotStar (s : string) : string :=
  match s with
  | EmptyString => EmptyString
  | String c s' =>
      if atLineTerminator s then EmptyString else String c (dotStar s')
  end.

(** [fileUrl.match(regex)], reduced to its first capture group: the
    match starts at the leftmost ["/upload/"], skips a version segment
    when one follows, and captures the rest of the line. *)
Definition matchUpload (fileUrl : string) : option string :=
  match Js.afterFirst "/upload/" fileUrl with
  | Some rest => Some (dotStar (skipVersion rest))
  | None => None
  end.

(** [extractPublicId]; [None] is [null]. *)
Definition extractPublicId (fileUrl : option string) : option string :=
  match fileUrl with
  | None => None
  | Some u =>
      if String.eqb u "" || negb (Js.includes "cloudinary.com" u) then None
      else
        match matchUpload u with
        | Some publicIdWithExtension =>
            if String.eqb publicIdWithExtension "" then None
            else Some (Js.substring publicIdWithExtension 0
                         (Js.lastIndexOf "." publicIdWithExtension))
        | None => None
        end
  end.

(* ================================================================== *)
(** ** Process state, external calls and the handler monad *)
(* ================================================================== *)

(** What [cloudinary.uploader.destroy] answers: [result] is ['ok'],
    ['not found'] or something else, or the call rejects. *)
Inductive DestroyResult : Type :=
| DestroyOk
| DestroyNotFound
| DestroyOther
| DestroyRejects.

(** The behaviour of the two external services during one request. *)
Record Env : Type := mkEnv {
  saveRejects : bool;
  destroyResult : string -> DestroyResult }.

(** What the log records: an entry into [deleteCloudinaryAsset] with its
    argument, and the three calls that the handlers make out of the
    process.  The upload that the middleware of a route makes before the
    handler runs is not among them; it is [hostUploads] below. *)
Inductive Call : Type :=
| DeleteAsset (publicId : option string)
| Destroy (publicId : string)
| Save
| FindById.

(** A call together with the held document at the moment it is issued. *)
Record Obs : Type := mkObs {
  obs_call : Call;
  obs_held : Doc }.

(** [portfolioData] is the held reference, [stored] the document in the
    database, [calls] the log so far, oldest first. *)
Record World : Type := mkWorld {
  isLoggedIn : bool;
  portfolioData : Doc;
  stored : Doc;
  calls : list Obs }.

Inductive Error : Type :=
| PersistError
| CloudinaryError
| TypeError.

Inductive Outcome (A : Type) : Type :=
| Returned (a : A)
| Thrown (e : Error).
Arguments Returned {A} a.
Arguments Thrown {A} e.

Definition M (A : Type) : Type := World -> Outcome A * World.

Definition ret {A} (a : A) : M A := fun w => (Returned a, w).

Definition bind {A B} (m : M A) (k : A -> M B) : M B :=
  fun w => match m w with
           | (Returned a, w') => k a w'
           | (Thrown e, w') => (Thrown e, w')
           end.

Definition throw {A} (e : Error) : M A := fun w => (Thrown e, w).

(** [try { m } catch (e) { h e }] *)
Definition tryCatch {A} (m : M A) (h : Error -> M A) : M A :=
  fun w => match m w with
           | (Returned a, w') => (Returned a, w')
           | (Thrown e, w') => h e w'
           end.

Declare Scope handler_scope.
Delimit Scope handler_scope with handler.
Notation "x <- m ;; k" := (bind m (fun x => k))
  (at level 61, m at next level, right associativity) : handler_scope.
Notation "m ;; k" := (bind m (fun _ => k))
  (at level 61, right associativity) : handler_scope.
Local Open Scope handler_scope.

(** Reads [portfolioData]. *)
Definition held : M Doc := fun w => (Returned (portfolioData w), w).

(** An assignment through [portfolioData]. *)
Definition assign (f : Doc -> Doc) : M unit :=
  fun w => (Returned tt,
            mkWorld (isLoggedIn w) (f (portfolioData w)) (stored w) (calls w)).

Definition issue (c : Call) : M unit :=
  fun w => (Returned tt,
            mkWorld (isLoggedIn w) (portfolioData w) (stored w)
                    (calls w ++ [mkObs c (portfolioData w)])).

(** [await portfolioData.save()]: the held document replaces the stored
    one, or the call rejects and the stored one stays.  What is sent are
    the paths marked as modified, and every route marks the field it has
    assigned to before it saves: this is the whole held document
    whenever held and stored document agreed outside that field when the
    request arrived. *)
Definition save (env : Env) : M unit :=
  issue Save ;;
  if saveRejects env then throw PersistError
  else fun w => (Returned tt,
                 mkWorld (isLoggedIn w) (portfolioData w) (portfolioData w)
                         (calls w)).

(** [portfolioData = await Portfolio.findById('portfolio_data')] *)
Definition reload : M unit :=
  issue FindById ;;
  fun w => (Returned tt,
            mkWorld (isLoggedIn w) (stored w) (stored w) (calls w)).

(** [await cloudinary.uploader.destroy(publicId)] *)
Definition destroy (env : Env) (publicId : string) : M DestroyResult :=
  issue (Destroy publicId) ;;
  match destroyResult env publicId with
  | DestroyRejects => throw CloudinaryError
  | r => ret r
  end.

(** [deleteCloudinaryAsset]: nothing is done for a missing or empty
    identifier; every answer of the image host, and a rejected call, only
    produce console output, which is not part of the state. *)
Definition deleteCloudinaryAsset (env : Env) (publicId : option string)
  : M unit :=
  issue (DeleteAsset publicId) ;;
  tryCatch
    (match publicId with
     | None => ret tt
     | Some id =>
         if String.eqb id "" then ret tt
         else
           result <- destroy env id ;;
           match result with
           | DestroyNotFound => ret tt
           | DestroyOk => ret tt
           | _ => ret tt
           end
     end)
    (fun _ => ret tt).

Inductive Response : Type :=
| Redirect (location : string)
| Send (status : Z) (body : string)
| Render (view : string).

(** What the upload middleware hands to a route: an error, no file, or
    the URL of the file it has stored ([req.file.path]). *)
Inductive Upload : Type :=
| Rejected
| NoFile
| File (path : string).

Definition uploadError (message : string) : Response :=
  Redirect ("/admin?uploadError=" ++ Js.encodeURIComponent message).

(** The [isAuthenticated] middleware. *)
Definition isAuthenticated (next : M Response) : M Response :=
  fun w => if isLoggedIn w then next w else (Returned (Redirect "/login"), w).

(** What the upload middleware of a route has stored in the image host
    when the callback of the route starts.  The route runs
    [upload.single(field)(req, res, callback)] behind [isAuthenticated]
    and before anything else: a file that is accepted is in the image
    host, under the URL [req.file.path], whatever the callback then does
    with it. *)
Definition hostUploads (up : Upload) (w : World) : list string :=
  if isLoggedIn w then
    match up with
    | File path => [path]
    | _ => []
    end
  else [].

(** A value used as a condition: [undefined] and the empty string are
    false. *)
Definition truthy (v : option string) : bool :=
  match v with
  | Some s => negb (String.eqb s "")
  | None => false
  end.

(** [index >= 0 && index < length], false for [NaN]. *)
Definition withinBounds (index : option Z) (length : nat) : bool :=
  match index with
  | Some i => (0 <=? i) && (i <? Z.of_nat length)
  | None => false
  end.

(** Reading a property of [l[i]]: a [TypeError] when [l[i]] is
    [undefined]. *)
Definition element {A} (l : list A) (i : Z) : M A :=
  match at_ l i with
  | Some x => ret x
  | None => throw TypeError
  end.

(** [for (const imgUrl of images) { ... }] *)
Fixpoint forEach {A} (l : list A) (body : A -> M unit) : M unit :=
  match l with
  | [] => ret tt
  | x :: r => body x ;; forEach r body
  end.

(* ================================================================== *)
(** ** The admin routes *)
(* ================================================================== *)

(** POST /admin/update-carousel/:index *)
Definition update_carousel (env : Env) (indexParam : string) (up : Upload)
    (title description link buttonText : option string) : M Response :=
  isAuthenticated
    match up with
    | Rejected => ret (uploadError "Carousel upload failed. Check server log.")
    | _ =>
        let index := Js.parseInt indexParam in
        d <- held ;;
        (if withinBounds index (length (carousel d)) then
           let i := match index with Some i => i | None => 0 end in
           (match up with
            | File path =>
                slide <- element (carousel d) i ;;
                deleteCloudinaryAsset env (extractPublicId (slide_url slide)) ;;
                assign (fun d => set_carousel
                          (updateNth (Z.to_nat i) (set_slide_url (Some path))
                                     (carousel d)) d)
            | _ => ret tt
            end) ;;
           assign (fun d => set_carousel
                     (updateNth (Z.to_nat i)
                        (set_slide_text title description link buttonText)
                        (carousel d)) d) ;;
           save env
         else ret tt) ;;
        ret (Redirect "/admin#carousel")
    end.

(** POST /admin/upload-photo *)
Definition upload_photo (env : Env) (up : Upload) : M Response :=
  isAuthenticated
    match up with
    | Rejected =>
        ret (uploadError "Profile photo upload failed. Check server log.")
    | File path =>
        d <- held ;;
        deleteCloudinaryAsset env (extractPublicId (about_photoUrl (about d))) ;;
        assign (fun d => set_about
                  (mkAbout (about_summary (about d)) (about_fullStory (about d))
                           (about_skills (about d)) (Some path)) d) ;;
        save env ;;
        ret (Redirect "/admin#general")
    | NoFile => ret (Redirect "/admin#general")
    end.

(** POST /admin/update-project-summary *)
Definition update_project_summary (env : Env) (up : Upload)
    (title paragraph1 paragraph2 buttonLink : option string) : M Response :=
  isAuthenticated
    match up with
    | Rejected =>
        ret (uploadError
               "Project summary image upload failed. Check server log.")
    | _ =>
        (match up with
         | File path =>
             d <- held ;;
             deleteCloudinaryAsset env
               (extractPublicId (ps_image (projectSummary d))) ;;
             assign (fun d => set_projectSummary
                       (mkProjectSummary
                          (ps_title (projectSummary d))
                          (ps_paragraph1 (projectSummary d))
                          (ps_paragraph2 (projectSummary d))
                          (ps_buttonLink (projectSummary d)) (Some path)) d)
         | _ => ret tt
         end) ;;
        assign (fun d => set_projectSummary
                  (mkProjectSummary title paragraph1 paragraph2 buttonLink
                                    (ps_image (projectSummary d))) d) ;;
        save env ;;
        ret (Redirect "/admin#general")
    end.

(** POST /admin/upload-project-image/:id *)
Definition upload_project_image (env : Env) (projectId : string)
    (up : Upload) : M Response :=
  isAuthenticated
    match up with
    | Rejected =>
        ret (uploadError "Project image upload failed. Check server log.")
    | _ =>
        d <- held ;;
        match find (fun p => strictEq (proj_id p) projectId) (projects d), up with
        | Some _, File path =>
            assign (fun d => set_projects
                      (updateFirst (fun p => strictEq (proj_id p) projectId)
                         (fun p => set_proj_images (proj_images p ++ [path]) p)
                         (projects d)) d) ;;
            save env ;;
            ret (Redirect "/admin#projects")
        | _, _ => ret (Redirect "/admin#projects")
        end
    end.

(** POST /admin/delete-project-image/:id *)
Definition delete_project_image (env : Env) (projectId : string)
    (imageUrl : option string) : M Response :=
  isAuthenticated
    (d <- held ;;
     match find (fun p => strictEq (proj_id p) projectId) (projects d),
           imageUrl with
     | Some project, Some url =>
         if truthy imageUrl then
           let imageIndex := indexOf url (proj_images project) in
           if imageIndex >? -1 then
             deleteCloudinaryAsset env (extractPublicId imageUrl) ;;
             assign (fun d => set_projects
                       (updateFirst (fun p => strictEq (proj_id p) projectId)
                          (fun p => set_proj_images
                                      (splice1 imageIndex (proj_images p)) p)
                          (projects d)) d) ;;
             save env ;;
             reload ;;
             ret (Redirect "/admin#projects")
           else ret (Redirect "/admin#projects")
         else ret (Redirect "/admin#projects")
     | _, _ => ret (Redirect "/admin#projects")
     end).

(** POST /admin/delete-project/:id *)
Definition delete_project (env : Env) (projectId : string) : M Response :=
  isAuthenticated
    (d <- held ;;
     let projectIndex :=
       findIndex (fun p => strictEq (proj_id p) projectId) (projects d) in
     if negb (projectIndex =? -1) then
       projectToDelete <- element (projects d) projectIndex ;;
       forEach (proj_images projectToDelete)
         (fun imgUrl =>
            deleteCloudinaryAsset env (extractPublicId (Some imgUrl))) ;;
       assign (fun d => set_projects (splice1 projectIndex (projects d)) d) ;;
       save env ;;
       reload ;;
       ret (Redirect "/admin#projects")
     else ret (Redirect "/admin#projects")).

(** POST /admin/upload-certificate; [newId] is the result of [uuidv4()]. *)
Definition upload_certificate (env : Env) (up : Upload)
    (title issuer : option string) (newId : string) : M Response :=
  isAuthenticated
    match up with
    | Rejected =>
        ret (uploadError "Certificate upload failed. Check server log.")
    | File path =>
        assign (fun d => set_certificates
                  (certificates d
                   ++ [mkCertificate (IdString newId) title issuer (Some path)])
                  d) ;;
        save env ;;
        reload ;;
        ret (Redirect "/admin#certificates")
    | NoFile => ret (Redirect "/admin#certificates")
    end.

Definition saveFailedAfterUpload : Response :=
  Send 500 "Database save failed after successful file upload.".

(** POST /admin/upload-gallery *)
Definition upload_gallery (env : Env) (up : Upload)
    (caption : option string) (newId : string) : M Response :=
  isAuthenticated
    match up with
    | Rejected =>
        ret (uploadError "Gallery photo upload failed. Check server log.")
    | File path =>
        tryCatch
          (assign (fun d => set_gallery
                     (gallery d ++ [mkPhoto (IdString newId) (Some path) caption])
                     d) ;;
           save env ;;
           reload ;;
           ret (Redirect "/admin#gallery"))
          (fun _ => ret saveFailedAfterUpload)
    | NoFile => ret (Redirect "/admin#gallery")
    end.

(** POST /admin/update-gallery-photo/:id *)
Definition update_gallery_photo (env : Env) (photoId : string)
    (up : Upload) : M Response :=
  isAuthenticated
    match up with
    | Rejected =>
        ret (uploadError
               "Gallery photo replacement failed. Check server log.")
    | _ =>
        d <- held ;;
        match find (fun p => looseEq (photo_id p) photoId) (gallery d), up with
        | Some photo, File path =>
            tryCatch
              (deleteCloudinaryAsset env (extractPublicId (photo_url photo)) ;;
               assign (fun d => set_gallery
                         (updateFirst (fun p => looseEq (photo_id p) photoId)
                            (set_photo_url (Some path)) (gallery d)) d) ;;
               save env ;;
               reload ;;
               ret (Redirect "/admin#gallery"))
              (fun _ => ret saveFailedAfterUpload)
        | _, _ => ret (Redirect "/admin#gallery")
        end
    end.

(** POST /admin/delete-certificate/:id *)
Definition delete_certificate (env : Env) (certId : string) : M Response :=
  isAuthenticated
    (d <- held ;;
     let certIndex :=
       findIndex (fun cert => looseEq (cert_id cert) certId) (certificates d) in
     if negb (certIndex =? -1) then
       certToDelete <- element (certificates d) certIndex ;;
       deleteCloudinaryAsset env (extractPublicId (cert_pdfUrl certToDelete)) ;;
       assign (fun d => set_certificates
                 (splice1 certIndex (certificates d)) d) ;;
       save env ;;
       reload ;;
       ret (Redirect "/admin#certificates")
     else ret (Redirect "/admin#certificates")).

(** POST /admin/delete-gallery-photo/:id *)
Definition delete_gallery_photo (env : Env) (photoId : string) : M Response :=
  isAuthenticated
    (d <- held ;;
     let photoIndex :=
       findIndex (fun photo => looseEq (photo_id photo) photoId) (gallery d) in
     if negb (photoIndex =? -1) then
       photoToDelete <- element (gallery d) photoIndex ;;
       deleteCloudinaryAsset env (extractPublicId (photo_url photoToDelete)) ;;
       assign (fun d => set_gallery (splice1 photoIndex (gallery d)) d) ;;
       save env ;;
       reload ;;
       ret (Redirect "/admin#gallery")
     else ret (Redirect "/admin#gallery")).

(** POST /admin/add-education *)
Definition add_education (env : Env) (up : Upload)
    (title institution years : option string) (newId : string) : M Response :=
  isAuthenticated
    match up with
    | Rejected =>
        ret (uploadError "Education logo upload failed. Check server log.")
    | File path =>
        assign (fun d => set_education
                  (education d
                   ++ [mkEducation (IdString newId) (Some path) title
                                   institution years]) d) ;;
        save env ;;
        reload ;;
        ret (Redirect "/admin#general")
    | NoFile => ret (Redirect "/admin#general")
    end.

(** POST /admin/delete-education/:id *)
Definition delete_education (env : Env) (identifier : string) : M Response :=
  isAuthenticated
    (d <- held ;;
     let byId :=
       findIndex (fun edu => looseEq (edu_id edu) identifier) (education d) in
     let eduIndex :=
       if byId =? -1 then
         let indexAsNumber := Js.parseInt identifier in
         if withinBounds indexAsNumber (length (education d)) then
           match indexAsNumber with Some n => n | None => -1 end
         else -1
       else byId in
     if negb (eduIndex =? -1) then
       eduToDelete <- element (education d) eduIndex ;;
       deleteCloudinaryAsset env (extractPublicId (edu_imageUrl eduToDelete)) ;;
       assign (fun d => set_education (splice1 eduIndex (education d)) d) ;;
       save env ;;
       reload ;;
       ret (Redirect "/admin#general")
     else ret (Redirect "/admin#general")).

Definition newline : ascii := ascii_of_nat 10.

(** POST /admin/update-text *)
Definition update_text (env : Env)
    (aboutSummary aboutFull aboutSkills : option string) : M Response :=
  isAuthenticated
    (assign (fun d => set_about
               (mkAbout aboutSummary (about_fullStory (about d))
                        (about_skills (about d)) (about_photoUrl (about d))) d) ;;
     assign (fun d => set_about
               (mkAbout (about_summary (about d)) aboutFull
                        (about_skills (about d)) (about_photoUrl (about d))) d) ;;
     match aboutSkills with
     | None => throw TypeError
     | Some text =>
         let skills :=
           filter (fun s => (0 <? String.length s)%nat)
                  (map Js.trim (Js.split newline text)) in
         assign (fun d => set_about
                   (mkAbout (about_summary (about d))
                            (about_fullStory (about d)) skills
                            (about_photoUrl (about d))) d) ;;
         save env ;;
         ret (Redirect "/admin#general")
     end).

(** POST /admin/add-project; [uuid] is the result of [uuidv4()]. *)
Definition add_project (env : Env)
    (title description githubLink : option string) (uuid : string)
  : M Response :=
  isAuthenticated
    (assign (fun d => set_projects
               (projects d
                ++ [mkProject (IdString ("proj" ++ uuid)) title description
                              githubLink []]) d) ;;
     save env ;;
     ret (Redirect "/admin#projects")).

(** POST /admin/update-project/:id *)
Definition update_project (env : Env) (projectId : string)
    (title description githubLink : option string) : M Response :=
  isAuthenticated
    (d <- held ;;
     match find (fun p => strictEq (proj_id p) projectId) (projects d) with
     | Some _ =>
         assign (fun d => set_projects
                   (updateFirst (fun p => strictEq (proj_id p) projectId)
                      (set_proj_text title description githubLink)
                      (projects d)) d) ;;
         save env ;;
         ret (Redirect "/admin#projects")
     | None => ret (Redirect "/admin#projects")
     end).

(** POST /admin/update-gallery-caption/:id *)
Definition update_gallery_caption (env : Env) (photoId : string)
    (caption : option string) : M Response :=
  isAuthenticated
    (d <- held ;;
     match find (fun p => looseEq (photo_id p) photoId) (gallery d) with
     | Some _ =>
         assign (fun d => set_gallery
                   (updateFirst (fun p => looseEq (photo_id p) photoId)
                      (set_photo_caption caption) (gallery d)) d) ;;
         save env ;;
         ret (Redirect "/admin#gallery")
     | None => ret (Redirect "/admin#gallery")
     end).

Definition emptyFooter : FooterInfo :=
  mkFooterInfo None None None None None None None.

(** POST /admin/update-footer *)
Definition update_footer (env : Env)
    (name line1 line2 githubLink emailLink phoneLink linkedinLink
       : option string) : M Response :=
  isAuthenticated
    (tryCatch
       (assign (fun d => match footerInfo d with
                         | Some _ => d
                         | None => set_footerInfo (Some emptyFooter) d
                         end) ;;
        assign (fun d => match footerInfo d with
                         | Some _ =>
                             set_footerInfo
                               (Some (mkFooterInfo name line1 line2 githubLink
                                        emailLink phoneLink linkedinLink)) d
                         | None => d
                         end) ;;
        save env ;;
        ret (Redirect "/admin#general"))
       (fun _ => ret (Redirect "/admin#general"))).

(** POST /login, with the two configured credentials. *)
Definition login (adminUsername adminPassword : string)
    (username password : option string) : M Response :=
  fun w =>
    match username, password with
    | Some u, Some p =>
        if String.eqb u adminUsername && String.eqb p adminPassword
        then (Returned (Redirect "/admin"),
              mkWorld true (portfolioData w) (stored w) (calls w))
        else (Returned (Render "login"), w)
    | _, _ => (Returned (Render "login"), w)
    end.

(** POST /logout *)
Definition logout : M Response :=
  fun w => (Returned (Redirect "/"),
            mkWorld false (portfolioData w) (stored w) (calls w)).

(** Runs a request on a world. *)
Definition run {A} (m : M A) (w : World) : Outcome A * World := m w.

Definition isSave (o : Obs) : bool :=
  match obs_call o with Save => true | _ => false end.
Definition isFindById (o : Obs) : bool :=
  match obs_call o with FindById => true | _ => false end.

(** The mutating admin requests, with their path parameters, body
    fields, upload outcome and generated identifier. *)
Inductive Request : Type :=
| UpdateCarousel (index : string) (up : Upload)
    (title description link buttonText : option string)
| UploadPhoto (up : Upload)
| UpdateProjectSummary (up : Upload)
    (title paragraph1 paragraph2 buttonLink : option string)
| UploadProjectImage (id : string) (up : Upload)
| DeleteProjectImage (id : string) (imageUrl : option string)
| DeleteProject (id : string)
| UploadCertificate (up : Upload) (title issuer : option string)
    (newId : string)
| UploadGallery (up : Upload) (caption : option string) (newId : string)
| UpdateGalleryPhoto (id : string) (up : Upload)
| DeleteCertificate (id : string)
| DeleteGalleryPhoto (id : string)
| AddEducation (up : Upload) (title institution years : option string)
    (newId : string)
| DeleteEducation (id : string)
| UpdateText (aboutSummary aboutFull aboutSkills : option string)
| AddProject (title description githubLink : option string) (uuid : string)
| UpdateProject (id : string) (title description githubLink : option string)
| UpdateGalleryCaption (id : string) (caption : option string)
| UpdateFooter (name line1 line2 githubLink emailLink phoneLink
                  linkedinLink : option string).

(** Routing of a mutating admin request to its handler. *)
Definition handle (env : Env) (req : Request) : M Response :=
  match req with
  | UpdateCarousel i up t de l b => update_carousel env i up t de l b
  | UploadPhoto up => upload_photo env up
  | UpdateProjectSummary up t p1 p2 b => update_project_summary env up t p1 p2 b
  | UploadProjectImage id up => upload_project_image env id up
  | DeleteProjectImage id url => delete_project_image env id url
  | DeleteProject id => delete_project env id
  | UploadCertificate up t i newId => upload_certificate env up t i newId
  | UploadGallery up c newId => upload_gallery env up c newId
  | UpdateGalleryPhoto id up => update_gallery_photo env id up
  | DeleteCertificate id => delete_certificate env id
  | DeleteGalleryPhoto id => delete_gallery_photo env id
  | AddEducation up t i y newId => add_education env up t i y newId
  | DeleteEducation id => delete_education env id
  | UpdateText s f k => update_text env s f k
  | AddProject t de g uuid => add_project env t de g uuid
  | UpdateProject id t de g => update_project env id t de g
  | UpdateGalleryCaption id c => update_gallery_caption env id c
  | UpdateFooter n l1 l2 g e p l => update_footer env n l1 l2 g e p l
  end.

(** The upload outcome of a request, for the routes that accept one. *)
Definition uploadOf (req : Request) : option Upload :=
  match req with
  | UpdateCarousel _ up _ _ _ _ | UploadPhoto up
  | UpdateProjectSummary up _ _ _ _ | UploadProjectImage _ up
  | UploadCertificate up _ _ _ | UploadGallery up _ _
  | UpdateGalleryPhoto _ up | AddEducation up _ _ _ _ => Some up
  | _ => None
  end.

(** The asset references of a document, in document order. *)
Definition refsOf (u : option string) : list string :=
  match u with Some s => [s] | None => [] end.

Definition references (d : Doc) : list string :=
  flat_map (fun s => refsOf (slide_url s)) (carousel d)
  ++ refsOf (about_photoUrl (about d))
  ++ refsOf (ps_image (projectSummary d))
  ++ flat_map (fun e => refsOf (edu_imageUrl e)) (education d)
  ++ flat_map (fun c => refsOf (cert_pdfUrl c)) (certificates d)
  ++ flat_map (fun p => refsOf (photo_url p)) (gallery d)
  ++ flat_map proj_images (projects d).

(** A URL is reachable when some asset field of the document holds it. *)
Definition reachable (u : string) (d : Doc) : Prop := In u (references d).

(** The log entries of one run of [deleteCloudinaryAsset] on the held
    document [d]: the entry itself, then the call to the image host when
    the identifier is present and not empty. *)
Definition assetCalls (publicId : option string) (d : Doc) : list Obs :=
  mkObs (DeleteAsset publicId) d
  :: match publicId with
     | Some id => if String.eqb id "" then [] else [mkObs (Destroy id) d]
     | None => []
     end.

(** The shape of a URL of the image host, as far as [extractPublicId]
    looks at it. *)

(** The first ["/upload/"] of [pre ++ "/upload/"] is the one at its end:
    the marker does not occur earlier. *)
Definition firstMarker (pre : string) : Prop :=
  Js.afterFirst "/upload/" (pre ++ "/upload/") = Some "".

Fixpoint allDigits (s : string) : bool :=
  match s with
  | EmptyString => true
  | String c s' => Js.isDigit c && allDigits s'
  end.

(** No line terminator starts anywhere in [s]. *)
Fixpoint noLineTerminator (s : string) : bool :=
  match s with
  | EmptyString => true
  | String _ s' => negb (atLineTerminator s) && noLineTerminator s'
  end.

(** Whether the outcome of a handler signals a server error: the
    handler's promise rejects, or a 5xx status is sent. *)
Definition isServerError (r : Outcome Response) : bool :=
  match r with
  | Thrown _ => true
  | Returned (Send status _) => 500 <=? status
  | Returned _ => false
  end.

(** The outcome of each route when its save rejects: the two gallery
    routes catch the rejection and send a 500, update-footer catches it
    and redirects as usual, the other routes let it escape. *)
Definition persistFailureOutcome (req : Request) : Outcome Response :=
  match req with
  | UploadGallery _ _ _ | UpdateGalleryPhoto _ _ =>
      Returned saveFailedAfterUpload
  | UpdateFooter _ _ _ _ _ _ _ => Returned (Redirect "/admin#general")
  | _ => Thrown PersistError
  end.

Definition notFindById (o : Obs) : bool := negb (isFindById o).

(** The shape of the result of a request whose save, if it is reached,
    rejects. *)
Definition PersistFailureReport (req : Request) (w : World)
    (res : Outcome Response * World) : Prop :=
  stored (snd res) = stored w
  /\ exists new,
      calls (snd res) = (calls w ++ new)%list
      /\ forallb notFindById new = true
      /\ (existsb isSave new = true ->
          fst res = persistFailureOutcome req
          /\ exists before,
              new = (before ++ [mkObs Save (portfolioData (snd res))])%list).

(** The routes whose handler reloads the held reference after its save. *)
Definition reloadsAfterSave (req : Request) : bool :=
  match req with
  | DeleteProjectImage _ _ | DeleteProject _ | UploadCertificate _ _ _ _
  | UploadGallery _ _ _ | UpdateGalleryPhoto _ _ | DeleteCertificate _
  | DeleteGalleryPhoto _ | AddEducation _ _ _ _ _ | DeleteEducation _ => true
  | _ => false
  end.

(** What the log of a request shows about the reload: on the routes
    that do not reload, no [FindById]; on the others, once the save has
    succeeded, the save and then the reload as the last two entries, both
    issued on the changed document. *)
Definition ReloadReport (env : Env) (req : Request) (w : World)
    (res : Outcome Response * World) : Prop :=
  exists new,
    calls (snd res) = (calls w ++ new)%list
    /\ if reloadsAfterSave req
       then saveRejects env = false -> existsb isSave new = true ->
            exists before,
              new = (before ++ [mkObs Save (portfolioData (snd res));
                                mkObs FindById (portfolioData (snd res))])%list
       else forallb notFindById new = true.

(* ================================================================== *)
(** ** Sample data *)
(* ================================================================== *)

Module Sample.

Definition hostUrl (name : string) : string :=
  "https://res.cloudinary.com/demo/image/upload/v1712/portfolio/" ++ name.

Definition slide (n : string) : Slide :=
  mkSlide (Some n) (Some "text") (Some "/projects") (Some "Open")
          (Some (hostUrl ("Carousel/" ++ n ++ ".png"))).

Definition emptyDoc : Doc :=
  mkDoc [] (mkAbout None None [] None)
        (mkProjectSummary None None None None None) [] [] [] [] None.

(** A carousel of three slides. *)
Definition threeSlides : Doc :=
  set_carousel [slide "one"; slide "two"; slide "three"] emptyDoc.

Definition admin (d : Doc) : World := mkWorld true d d [].

Definition entry (id : Id) (title : string) : Education :=
  mkEducation id (Some (hostUrl ("Education/" ++ title ++ ".png")))
              (Some title) (Some "Institute") (Some "2019-2023").


(** Two entries kept from the time identifiers were numbers or absent. *)
Definition legacyEntries : Doc :=
  set_education [entry (IdNumber 1) "first"; entry IdAbsent "second"]
                emptyDoc.

(** U+00A0, the no-break space, in UTF-8. *)
Definition nbsp : string := String "194" (String "160" "").

Definition footerRequest : Request :=
  UpdateFooter (Some "Name") (Some "Line 1") (Some "Line 2")
    (Some "https://github.com/name") (Some "mailto:name@example.org")
    (Some "tel:+100") (Some "https://linkedin.com/in/name").

Definition footer : FooterInfo :=
  mkFooterInfo (Some "Name") (Some "Line 1") (Some "Line 2")
    (Some "https://github.com/name") (Some "mailto:name@example.org")
    (Some "tel:+100") (Some "https://linkedin.com/in/name").

(** A project kept from the time identifiers were numbers, next to one
    whose identifier is the text "7". *)
Definition numbered : Project :=
  mkProject (IdNumber 7) (Some "Old") None None [].
Definition lettered : Project :=
  mkProject (IdString "7") (Some "New") None None [].
Definition mixedProjects : Doc := set_projects [numbered; lettered] emptyDoc.

Definition saves : Env := mkEnv false (fun _ => DestroyOk).
Definition saveFails : Env := mkEnv true (fun _ => DestroyOk).

End Sample.

(* ================================================================== *)
(** ** Sequences of requests and what a request may touch *)
(* ================================================================== *)

(** What reaches the process: a mutating admin request together with
    the behaviour of the two services while it runs, a login attempt, a
    logout. *)
Inductive Action : Type :=
| Mutate (env : Env) (req : Request)
| LogIn (username password : option string)
| LogOut.

Definition act (adminUsername adminPassword : string) (a : Action)
  : M Response :=
  match a with
  | Mutate env req => handle env req
  | LogIn username password =>
      login adminUsername adminPassword username password
  | LogOut => logout
  end.

(** Actions served one after the other. *)
Fixpoint serve (adminUsername adminPassword : string) (actions : list Action)
    (w : World) : World :=
  match actions with
  | [] => w
  | a :: rest =>
      serve adminUsername adminPassword rest
            (snd (run (act adminUsername adminPassword a) w))
  end.

(** An action whose save, if it makes one, succeeds, and which is not an
    update-text without [aboutSkills]. *)
Definition completes (a : Action) : bool :=
  match a with
  | Mutate env req =>
      negb (saveRejects env)
      && match req with UpdateText _ _ None => false | _ => true end
  | _ => true
  end.

(** The top-level fields of the document. *)
Inductive Part : Type :=
| PCarousel | PAbout | PProjectSummary | PEducation | PCertificates
| PGallery | PProjects | PFooterInfo.

(** The field a route assigns to and passes to [markModified]. *)
Definition partOf (req : Request) : Part :=
  match req with
  | UpdateCarousel _ _ _ _ _ _ => PCarousel
  | UploadPhoto _ | UpdateText _ _ _ => PAbout
  | UpdateProjectSummary _ _ _ _ _ => PProjectSummary
  | UploadProjectImage _ _ | DeleteProjectImage _ _ | DeleteProject _
  | AddProject _ _ _ _ | UpdateProject _ _ _ _ => PProjects
  | UploadCertificate _ _ _ _ | DeleteCertificate _ => PCertificates
  | UploadGallery _ _ _ | UpdateGalleryPhoto _ _ | DeleteGalleryPhoto _
  | UpdateGalleryCaption _ _ => PGallery
  | AddEducation _ _ _ _ _ | DeleteEducation _ => PEducation
  | UpdateFooter _ _ _ _ _ _ _ => PFooterInfo
  end.

(** [d'] has the fields of [d], except possibly the field [p]. *)
Definition sameOutside (p : Part) (d d' : Doc) : Prop :=
  (p = PCarousel \/ carousel d' = carousel d)
  /\ (p = PAbout \/ about d' = about d)
  /\ (p = PProjectSummary \/ projectSummary d' = projectSummary d)
  /\ (p = PEducation \/ education d' = education d)
  /\ (p = PCertificates \/ certificates d' = certificates d)
  /\ (p = PGallery \/ gallery d' = gallery d)
  /\ (p = PProjects \/ projects d' = projects d)
  /\ (p = PFooterInfo \/ footerInfo d' = footerInfo d).

Definition FrameReport (req : Request) (w : World)
    (res : Outcome Response * World) : Prop :=
  sameOutside (partOf req) (portfolioData w) (portfolioData (snd res))
  /\ isLoggedIn (snd res) = isLoggedIn w.

Definition isAssetEntry (o : Obs) : bool :=
  match obs_call o with
  | DeleteAsset _ | Destroy _ => true
  | _ => false
  end.


(** update-text without the field [aboutSkills] throws before it saves. *)
Definition throwsBeforeSave (req : Request) : bool :=
  match req with
  | UpdateText _ _ None => true
  | _ => false
  end.

Definition CoherenceReport (env : Env) (req : Request) (w : World)
    (res : Outcome Response * World) : Prop :=
  saveRejects env = false ->
  portfolioData w = stored w ->
  throwsBeforeSave req = false ->
  portfolioData (snd res) = stored (snd res).

(** Requests that carry no accepted file and delete nothing. *)
Definition keepsAssets (req : Request) : bool :=
  match req with
  | UpdateCarousel _ up _ _ _ _ | UploadPhoto up
  | UpdateProjectSummary up _ _ _ _ | UploadProjectImage _ up
  | UploadCertificate up _ _ _ | UploadGallery up _ _
  | UpdateGalleryPhoto _ up | AddEducation up _ _ _ _ =>
      match up with File _ => false | _ => true end
  | UpdateText _ _ _ | AddProject _ _ _ _ | UpdateProject _ _ _ _
  | UpdateGalleryCaption _ _ | UpdateFooter _ _ _ _ _ _ _ => true
  | DeleteProjectImage _ _ | DeleteProject _ | DeleteCertificate _
  | DeleteGalleryPhoto _ | DeleteEducation _ => false
  end.

Definition AssetsReport (req : Request) (w : World)
    (res : Outcome Response * World) : Prop :=
  keepsAssets req = true ->
  references (portfolioData (snd res)) = references (portfolioData w)
  /\ forall o, In o (calls (snd res)) ->
               In o (calls w) \/ isAssetEntry o = false.

(* ================================================================== *)
(** ** Start of the process *)
(* ================================================================== *)

(** The environment variables the process reads before anything else. *)
Record Settings : Type := mkSettings {
  ADMIN_USERNAME : option string;
  ADMIN_PASSWORD : option string;
  MONGO_URI : option string;
  CLOUDINARY_CLOUD_NAME : option string;
  CLOUDINARY_API_KEY : option string;
  CLOUDINARY_API_SECRET : option string }.

(** The three checks at the top of the file; [false] is
    [process.exit(1)]. *)
Definition checkSettings (s : Settings) : bool :=
  if negb (truthy (ADMIN_USERNAME s)) || negb (truthy (ADMIN_PASSWORD s))
  then false
  else if negb (truthy (MONGO_URI s)) then false
  else if negb (truthy (CLOUDINARY_CLOUD_NAME s))
          || negb (truthy (CLOUDINARY_API_KEY s))
          || negb (truthy (CLOUDINARY_API_SECRET s))
  then false
  else true.

(** What the database and the seed file do while the process starts:
    [seedFile] is the content of [data/initialPortfolioData.json], [None]
    when [require] throws. *)
Record BootEnv : Type := mkBootEnv {
  connectRejects : bool;
  findRejects : bool;
  seedFile : option Doc;
  seedSaveRejects : bool }.

(** [connectDBAndLoadData] on a database that holds [database] under the
    key ['portfolio_data']: the held and the stored document when it
    completes, [None] when it ends in [process.exit(1)]. *)
Definition connectDBAndLoadData (env : BootEnv) (database : option Doc)
  : option (Doc * Doc) :=
  if connectRejects env then None
  else if findRejects env then None
  else match database with
       | Some data => Some (data, data)
       | None =>
           match seedFile env with
           | None => None
           | Some initialData =>
               if seedSaveRejects env then None
               else Some (initialData, initialData)
           end
       end.

(** The process from its start to [app.listen]: [None] when it exits. *)
Definition start (s : Settings) (env : BootEnv) (database : option Doc)
  : option World :=
  if checkSettings s then
    match connectDBAndLoadData env database with
    | Some (data, kept) => Some (mkWorld false data kept [])
    | None => None
    end
  else None.

(* ================================================================== *)
(** ** The script of the public pages *)
(* ================================================================== *)

Module Page.

(** [(i + 1) % n] and [(i - 1 + n) % n]; [%] takes the sign of the
    dividend. *)
Definition nextIndex (n i : Z) : Z := Z.rem (i + 1) n.
Definition prevIndex (n i : Z) : Z := Z.rem (i - 1 + n) n.

(** The hero carousel: for each slide whether it has the class
    [active], the variable [currentSlide], and whether the click and
    timer handlers were installed. *)
Record Carousel : Type := mkCarousel {
  slides : list bool;
  currentSlide : Z;
  wired : bool }.

(** [showSlide(index)]: removes [active] from every slide, then adds it
    to [slides[index]] when there is such a slide. *)
Definition showSlide (index : Z) (l : list bool) : list bool :=
  let cleared := map (fun _ => false) l in
  match at_ cleared index with
  | Some _ => updateNth (Z.to_nat index) (fun _ => true) cleared
  | None => cleared
  end.

(** The carousel once the script has run on a page with these slides
    and these two buttons. *)
Definition init (l : list bool) (hasPrev hasNext : bool) : Carousel :=
  mkCarousel (showSlide 0 l) 0
             (hasNext && hasPrev && (0 <? Z.of_nat (length l))).

Inductive Event : Type := Next | Prev | Tick.

(** A click on a button or a tick of the five-second timer. *)
Definition on (e : Event) (c : Carousel) : Carousel :=
  if wired c then
    let n := Z.of_nat (length (slides c)) in
    let current :=
      match e with
      | Next | Tick => nextIndex n (currentSlide c)
      | Prev => prevIndex n (currentSlide c)
      end in
    mkCarousel (showSlide current (slides c)) current true
  else c.

Fixpoint play (es : list Event) (c : Carousel) : Carousel :=
  match es with
  | [] => c
  | e :: rest => play rest (on e c)
  end.

(** The last element of a non-empty array, [a.pop()]. *)
Fixpoint pop (l : list string) : option string :=
  match l with
  | [] => None
  | [x] => Some x
  | _ :: r => pop r
  end.

(** The click handler of a link, up to the selector it looks up:
    [None] when the handler returns before [document.querySelector]. *)
Definition anchorTarget (fullHref : string) : option string :=
  let isInternalAnchor :=
    Js.startsWith "#" fullHref
    || (Js.startsWith "/" fullHref && Js.includes "#" fullHref) in
  if negb isInternalAnchor then None
  else
    let targetId :=
      if Js.includes "#" fullHref
      then match pop (Js.split "#" fullHref) with
           | Some last => ("#" ++ last)%string
           | None => "#"%string
           end
      else fullHref in
    if String.eqb targetId "#" then None else Some targetId.

End Page.

(** What holds of the carousel at any time: the marks are those of
    [Page.showSlide(currentSlide)], the current index is not negative, and is
    below the number of slides when the handlers are installed. *)
Definition Settled (c : Page.Carousel) : Prop :=
  Page.slides c = Page.showSlide (Page.currentSlide c) (Page.slides c)
  /\ 0 <= Page.currentSlide c
  /\ (Page.wired c = true -> Page.currentSlide c < Z.of_nat (length (Page.slides c)))
  /\ (Page.wired c = false -> Page.currentSlide c = 0).

(** More sample data. *)
Module Sample2.

Definition settings : Settings :=
  mkSettings (Some "admin") (Some "secret") (Some "mongodb://db/portfolio")
             (Some "demo") (Some "key") (Some "api-secret").

Definition boots : BootEnv := mkBootEnv false false (Some Sample.emptyDoc) false.

Definition visitor (d : Doc) : World := mkWorld false d d [].

Definition site : Project :=
  mkProject (IdString "proj1") (Some "Site") (Some "A site") None
            [Sample.hostUrl "Project/a.png"; Sample.hostUrl "Project/b.png"].

Definition oneProject : Doc := set_projects [site] Sample.emptyDoc.

Definition diploma : Certificate :=
  mkCertificate (IdNumber 3) (Some "Diploma") (Some "School")
                (Some (Sample.hostUrl "Pdf/diploma.pdf")).

Definition oneCertificate : Doc := set_certificates [diploma] Sample.emptyDoc.

Definition portrait : Photo :=
  mkPhoto (IdString "g1") (Some (Sample.hostUrl "Gallery/p.png")) (Some "old").

Definition onePhoto : Doc := set_gallery [portrait] Sample.emptyDoc.

(** A photo kept from the time identifiers were numbers; its [id] is
    2 ^ 53. *)
Definition snapshot : Photo :=
  mkPhoto (IdNumber 9007199254740992)
          (Some (Sample.hostUrl "Gallery/s.png")) None.

Definition oneSnapshot : Doc := set_gallery [snapshot] Sample.emptyDoc.

(** U+3000, the ideographic space, in UTF-8. *)
Definition ideographicSpace : string :=
  String "227" (String "128" (String "128" "")).

End Sample2.

(* ================================================================== *)
(** ** Running the primitives *)
(* ================================================================== *)

Arguments ret {A} a w /.
Arguments bind {A B} m k w /.
Arguments throw {A} e w /.
Arguments tryCatch {A} m h w /.
Arguments held w /.
Arguments assign f w /.
Arguments issue c w /.
Arguments save env w /.
Arguments reload w /.
Arguments element {A} l i w /.
Arguments run {A} m w /.
Arguments isAuthenticated next w /.

Lemma deleteCloudinaryAsset_run (env : Env) (publicId : option string)
    (w : World) :
  deleteCloudinaryAsset env publicId w
  = (Returned tt,
     mkWorld (isLoggedIn w) (portfolioData w) (stored w)
             (calls w ++ assetCalls publicId (portfolioData w))).
Proof.
  unfold deleteCloudinaryAsset, assetCalls, destroy.
  destruct publicId as [id|]; cbn.
  - destruct (String.eqb id ""); cbn; [reflexivity|].
    destruct (destroyResult env id); cbn;
      rewrite <- app_assoc; reflexivity.
  - reflexivity.
Qed.

#[local] Opaque deleteCloudinaryAsset.

(** Two assignments through the same position compose. *)
Lemma updateNth_updateNth {A} (n : nat) (f g : A -> A) (l : list A) :
  updateNth n f (updateNth n g l) = updateNth n (fun x => f (g x)) l.
Proof.
  revert n; induction l as [|x l IH]; intros [|n]; cbn; try reflexivity.
  now rewrite IH.
Qed.

(** Unfolds a route down to the primitives of the monad. *)
Ltac unfold_route :=
  unfold run, handle, update_carousel, upload_photo, update_project_summary,
    upload_project_image, delete_project_image, delete_project,
    upload_certificate, upload_gallery, update_gallery_photo,
    delete_certificate, delete_gallery_photo, add_education,
    delete_education, update_text, add_project, update_project,
    update_gallery_caption, update_footer, isAuthenticated.

(** Runs the monad operations and the record projections, and nothing
    else. *)
Ltac mstep :=
  cbn [bind ret throw tryCatch held assign issue save reload element run
       isAuthenticated fst snd isLoggedIn portfolioData stored calls].

(** Brings a log built with [++] into right-nested form. *)
Ltac norm_log := repeat (progress (rewrite <- ?app_assoc; cbn [app])).

Ltac step_monad :=
  repeat (progress (cbn; rewrite ?deleteCloudinaryAsset_run)).

(* ================================================================== *)
(** ** Rejected uploads *)
(* ================================================================== *)

(** C7: on every route that accepts an upload, a rejected upload is
    answered by a redirect whose query string carries the error message,
    and the world is left as it was: the held document, the stored
    document and the log are the same, so nothing was changed in memory
    and nothing was persisted. *)
Theorem rejected_upload_leaves_document (env : Env) (req : Request)
    (w : World) :
  isLoggedIn w = true ->
  uploadOf req = Some Rejected ->
  exists message,
    message <> "" /\
    run (handle env req) w
    = (Returned (Redirect ("/admin?uploadError="
                           ++ Js.encodeURIComponent message)), w).
Proof.
  intros Hin Hup.
  destruct req; cbn in Hup; try discriminate;
    injection Hup as ->; unfold_route; rewrite Hin; cbn;
    eexists; (split; [|reflexivity]); discriminate.
Qed.

Lemma rejected_upload_leaves_document_witness :
  exists message,
    message <> "" /\
    run (handle Sample.saves
           (UploadGallery Rejected (Some "caption") "id-1"))
        (Sample.admin Sample.threeSlides)
    = (Returned (Redirect ("/admin?uploadError="
                           ++ Js.encodeURIComponent message)),
       Sample.admin Sample.threeSlides).
Proof.
  apply (rejected_upload_leaves_document Sample.saves
           (UploadGallery Rejected (Some "caption") "id-1")
           (Sample.admin Sample.threeSlides)); reflexivity.
Defined.

(* ================================================================== *)
(** ** The carousel is addressed by position *)
(* ================================================================== *)

(** C6 as stated fails for a request that carries a file: position 5
    is outside the three slides, the handler leaves the world as it was
    and redirects, and yet the upload middleware has stored the file in
    the image host before the position was read.  No record refers to
    the new file. *)
Lemma update_carousel_orphans_upload :
  let path := Sample.hostUrl "Carousel/new.png" in
  let w := Sample.admin Sample.threeSlides in
  let res := run (update_carousel Sample.saves "5" (File path) (Some "Title")
                    (Some "Text") (Some "/projects") (Some "Open")) w in
  res = (Returned (Redirect "/admin#carousel"), w)
  /\ hostUploads (File path) w = [path]
  /\ ~ reachable path (portfolioData (snd res)).
Proof.
  vm_compute. repeat split. intros [H|[H|[H|[]]]]; discriminate H.
Qed.

(** C6, as the code has it: a carousel update whose position is not
    within the carousel (negative, at or past the length, or not a
    number) leaves the world as it was, so the document is unchanged and
    the handler calls neither the image host nor the database, and the
    answer is a redirect: to the carousel view whenever the admin is
    logged in and the upload was not rejected.  A file sent with such a
    request has been stored in the image host by the upload middleware
    all the same, and the document does not come to refer to it.  A
    position within the carousel changes the slide at that position and
    no other. *)
Theorem update_carousel_out_of_range :
  (forall env index up title description link buttonText w,
      (forall i, Js.parseInt index = Some i ->
                 ~ 0 <= i < Z.of_nat (length (carousel (portfolioData w)))) ->
      let res :=
        run (update_carousel env index up title description link buttonText)
            w in
      (exists location,
          res = (Returned (Redirect location), w)
          /\ (isLoggedIn w = true -> up <> Rejected ->
              location = "/admin#carousel"))
      /\ (forall path,
             isLoggedIn w = true -> up = File path ->
             hostUploads up w = [path]
             /\ (~ reachable path (portfolioData w) ->
                 ~ reachable path (portfolioData (snd res)))))
  /\ (forall env index up title description link buttonText w i,
         isLoggedIn w = true -> up <> Rejected ->
         Js.parseInt index = Some i ->
         0 <= i < Z.of_nat (length (carousel (portfolioData w))) ->
         carousel (portfolioData
                     (snd (run (update_carousel env index up title description
                                  link buttonText) w)))
         = updateNth (Z.to_nat i)
             (fun s => set_slide_text title description link buttonText
                         match up with
                         | File path => set_slide_url (Some path) s
                         | _ => s
                         end)
             (carousel (portfolioData w))).
Proof.
  split.
  - intros env index up t de l b w Hrange res.
    assert (Hout : withinBounds (Js.parseInt index)
                     (length (carousel (portfolioData w))) = false).
    { destruct (Js.parseInt index) as [i|]; [|reflexivity].
      cbn [withinBounds].
      destruct ((0 <=? i)
                && (i <? Z.of_nat (length (carousel (portfolioData w)))))
        eqn:E; [|reflexivity].
      apply andb_prop in E as [E0 E1].
      apply Z.leb_le in E0. apply Z.ltb_lt in E1.
      exfalso. apply (Hrange i eq_refl). lia. }
    assert (Hres : exists location,
               res = (Returned (Redirect location), w)
               /\ (isLoggedIn w = true -> up <> Rejected ->
                   location = "/admin#carousel")).
    { subst res. unfold_route. destruct (isLoggedIn w) eqn:Hin.
      + destruct up; cbn; rewrite ?Hout; cbn.
        * eexists; split; [reflexivity|]. intros _ H; now destruct H.
        * destruct w; eexists; split; [reflexivity|]. reflexivity.
        * destruct w; eexists; split; [reflexivity|]. reflexivity.
      + eexists; split; [reflexivity|]. discriminate. }
    split; [exact Hres|].
    intros path Hin ->. unfold hostUploads. rewrite Hin.
    split; [reflexivity|].
    destruct Hres as (location & -> & _). exact (fun H => H).
  - intros env index up t de l b w i Hin Hup Hparse Hrange.
    assert (Hbounds : withinBounds (Some i)
                        (length (carousel (portfolioData w))) = true).
    { cbn [withinBounds]. apply andb_true_intro.
      split; [apply Z.leb_le|apply Z.ltb_lt]; lia. }
    unfold_route. rewrite Hin, Hparse.
    assert (Hnth : exists s, at_ (carousel (portfolioData w)) i = Some s).
    { unfold at_.
      destruct (i <? 0) eqn:Hneg; [apply Z.ltb_lt in Hneg; lia|].
      destruct (nth_error (carousel (portfolioData w)) (Z.to_nat i)) eqn:E;
        [eauto|]. apply nth_error_None in E. lia. }
    destruct Hnth as [s Hs].
    cbn [withinBounds] in Hbounds.
    destruct up as [| |path]; [now destruct Hup| |];
      cbn; rewrite Hbounds; cbn; rewrite ?Hs; step_monad;
      destruct (saveRejects env); cbn; rewrite ?updateNth_updateNth;
      reflexivity.
Qed.

(** Position 5 on three slides, with a file; and the same position
    written after a no-break space. *)
Lemma update_carousel_out_of_range_witness :
  let path := Sample.hostUrl "Carousel/new.png" in
  let w := Sample.admin Sample.threeSlides in
  let request := fun index =>
    run (update_carousel Sample.saves index (File path) (Some "Title")
           (Some "Text") (Some "/projects") (Some "Open")) w in
  request "5" = (Returned (Redirect "/admin#carousel"), w)
  /\ request (Sample.nbsp ++ "5") = (Returned (Redirect "/admin#carousel"), w)
  /\ hostUploads (File path) w = [path].
Proof.
  intros path w request.
  assert (Hrange : forall index,
             Js.parseInt index = Some 5 ->
             forall i, Js.parseInt index = Some i ->
                       ~ 0 <= i < Z.of_nat
                                    (length (carousel (portfolioData w)))).
  { intros index H5 i Hi. rewrite H5 in Hi. injection Hi as <-.
    cbn. lia. }
  pose proof (proj1 update_carousel_out_of_range Sample.saves "5"
                (File path) (Some "Title") (Some "Text") (Some "/projects")
                (Some "Open") w (Hrange "5" eq_refl)) as H1.
  pose proof (proj1 update_carousel_out_of_range Sample.saves
                (Sample.nbsp ++ "5")
                (File path) (Some "Title") (Some "Text") (Some "/projects")
                (Some "Open") w (Hrange (Sample.nbsp ++ "5") eq_refl)) as H2.
  cbv zeta in H1, H2.
  destruct H1 as [(l1 & E1 & L1) U1]. destruct H2 as [(l2 & E2 & L2) _].
  rewrite (L1 eq_refl) in E1 by discriminate.
  rewrite (L2 eq_refl) in E2 by discriminate.
  split; [exact E1|split; [exact E2|]].
  exact (proj1 (U1 path eq_refl eq_refl)).
Defined.

(* ================================================================== *)
(** ** Editing a caption *)
(* ================================================================== *)

(** C9: with [gallery = [{id:"g1", url:"U1", caption:"old"}]], the request
    update-gallery-caption/g1 with caption "new" turns the gallery into
    [[{id:"g1", url:"U1", caption:"new"}]]: the id and url of the record
    and every other field of the document are as before, and the only
    entry added to the log is the save of that document, so the image
    host is not called. *)
Theorem update_gallery_caption_scenario (env : Env) (w : World) :
  isLoggedIn w = true ->
  gallery (portfolioData w)
  = [mkPhoto (IdString "g1") (Some "U1") (Some "old")] ->
  let d := portfolioData w in
  let w' := snd (run (update_gallery_caption env "g1" (Some "new")) w) in
  let d' := portfolioData w' in
  gallery d' = [mkPhoto (IdString "g1") (Some "U1") (Some "new")]
  /\ carousel d' = carousel d
  /\ about d' = about d
  /\ projectSummary d' = projectSummary d
  /\ education d' = education d
  /\ certificates d' = certificates d
  /\ projects d' = projects d
  /\ footerInfo d' = footerInfo d
  /\ calls w' = (calls w ++ [mkObs Save d'])%list.
Proof.
  intros Hin Hg. unfold_route. rewrite Hin. cbn. rewrite Hg. cbn.
  destruct (saveRejects env); cbn; rewrite ?Hg; cbn; repeat split;
    reflexivity.
Qed.

Lemma update_gallery_caption_scenario_witness :
  let w := Sample.admin
             (set_gallery [mkPhoto (IdString "g1") (Some "U1") (Some "old")]
                          Sample.threeSlides) in
  let w' := snd (run (update_gallery_caption Sample.saves "g1" (Some "new"))
                     w) in
  gallery (portfolioData w')
  = [mkPhoto (IdString "g1") (Some "U1") (Some "new")]
  /\ calls w' = (calls w ++ [mkObs Save (portfolioData w')])%list.
Proof.
  pose proof (update_gallery_caption_scenario Sample.saves
                (Sample.admin
                   (set_gallery
                      [mkPhoto (IdString "g1") (Some "U1") (Some "old")]
                      Sample.threeSlides))
                eq_refl eq_refl) as H.
  cbv zeta in H. split; [apply H|apply H].
Defined.

(* ================================================================== *)
(** ** Looking records up *)
(* ================================================================== *)

Section Lookup.
Context {A : Type} (p : A -> bool).

Lemma findIndex_none (l : list A) :
  (forall x, In x l -> p x = false) -> findIndex p l = -1.
Proof.
  induction l as [|x l IH]; intros H; cbn; [reflexivity|].
  rewrite (H x (or_introl eq_refl)).
  rewrite IH by (intros y Hy; apply H; now right). reflexivity.
Qed.

(** When some element satisfies [p], [findIndex] is the position of
    the first one. *)
Lemma findIndex_first (l : list A) :
  (exists x, In x l /\ p x = true) ->
  exists i x,
    findIndex p l = Z.of_nat i
    /\ nth_error l i = Some x
    /\ p x = true
    /\ forall j y, (j < i)%nat -> nth_error l j = Some y -> p y = false.
Proof.
  induction l as [|a l IH]; intros (x & Hx & Hp); [now destruct Hx|].
  cbn. destruct (p a) eqn:Ha.
  - exists 0%nat, a. repeat split; auto. intros j y Hj; lia.
  - destruct Hx as [->|Hx]; [congruence|].
    destruct (IH (ex_intro _ x (conj Hx Hp))) as (i & y & Hi & Hn & Hy & Hmin).
    exists (S i), y. rewrite Hi.
    replace (Z.of_nat i =? -1) with false by (symmetry; apply Z.eqb_neq; lia).
    repeat split; auto; [lia|].
    intros [|j] z Hj Hz; cbn in Hz; [congruence|].
    apply (Hmin j); [lia|assumption].
Qed.

Lemma find_none (l : list A) :
  (forall x, In x l -> p x = false) -> find p l = None.
Proof.
  induction l as [|x l IH]; intros H; cbn; [reflexivity|].
  rewrite (H x (or_introl eq_refl)). apply IH. intros y Hy; apply H; now right.
Qed.

Lemma find_some (l : list A) (x : A) :
  find p l = Some x -> In x l /\ p x = true.
Proof.
  induction l as [|a l IH]; cbn; [discriminate|].
  destruct (p a) eqn:Ha.
  - intros [= <-]. auto.
  - intros H. destruct (IH H). auto.
Qed.

Lemma at_of_nat (l : list A) (i : nat) : at_ l (Z.of_nat i) = nth_error l i.
Proof.
  unfold at_. destruct (Z.of_nat i <? 0) eqn:E.
  - apply Z.ltb_lt in E. lia.
  - now rewrite Nat2Z.id.
Qed.

Lemma splice1_of_nat (l : list A) (i : nat) :
  (i < length l)%nat -> splice1 (Z.of_nat i) l = removeNth i l.
Proof.
  intros Hi. unfold splice1.
  destruct (Z.of_nat i <? 0) eqn:E; [apply Z.ltb_lt in E; lia|].
  rewrite Z.min_l by lia. now rewrite Nat2Z.id.
Qed.
End Lookup.

(** What delete-education does once the position [i] of the entry [e] to
    delete has been settled, by identifier or by the positional rule. *)
Lemma delete_education_run (env : Env) (identifier : string) (w : World)
    (i : nat) (e : Education) :
  isLoggedIn w = true ->
  let d := portfolioData w in
  let byId :=
    findIndex (fun edu => looseEq (edu_id edu) identifier) (education d) in
  (if byId =? -1 then
     if withinBounds (Js.parseInt identifier) (length (education d)) then
       match Js.parseInt identifier with Some n => n | None => -1 end
     else -1
   else byId) = Z.of_nat i ->
  nth_error (education d) i = Some e ->
  let d' := set_education (removeNth i (education d)) d in
  let log := (calls w ++ assetCalls (extractPublicId (edu_imageUrl e)) d
              ++ [mkObs Save d'])%list in
  run (delete_education env identifier) w
  = if saveRejects env
    then (Thrown PersistError, mkWorld true d' (stored w) log)
    else (Returned (Redirect "/admin#general"),
          mkWorld true d' d' (log ++ [mkObs FindById d'])).
Proof.
  intros Hin d byId Hidx Hnth d' log.
  unfold_route. rewrite Hin. cbn.
  fold d. fold byId. rewrite Hidx.
  replace (Z.of_nat i =? -1) with false by (symmetry; apply Z.eqb_neq; lia).
  cbn. rewrite at_of_nat, Hnth. cbn. rewrite deleteCloudinaryAsset_run. cbn.
  assert (Hlen : (i < length (education d))%nat)
    by (apply nth_error_Some; congruence).
  fold d. rewrite splice1_of_nat by assumption.
  subst log d'.
  destruct (saveRejects env); cbn; rewrite ?Hin; norm_log; reflexivity.
Qed.



(* ================================================================== *)
(** ** Removing one image of a project *)
(* ================================================================== *)

(** C5: with [projects = [{id:"proj1", images:[A, B]}]], the request
    delete-project-image/proj1 with imageUrl [A] leaves [images = [B]]
    and runs the asset deletion exactly once, for the identifier derived
    from [A] and before the save; when [A] is a URL of the image host this
    is exactly one call to the host.  The same request again changes
    nothing and logs nothing. *)
Theorem delete_project_image_scenario (env1 env2 : Env) (A B : string)
    (title description githubLink : option string) (w : World) :
  isLoggedIn w = true ->
  projects (portfolioData w)
  = [mkProject (IdString "proj1") title description githubLink [A; B]] ->
  A <> "" -> A <> B ->
  let d := portfolioData w in
  let d1 := set_projects
              [mkProject (IdString "proj1") title description githubLink [B]]
              d in
  let w1 := snd (run (delete_project_image env1 "proj1" (Some A)) w) in
  portfolioData w1 = d1
  /\ calls w1
     = (calls w ++ assetCalls (extractPublicId (Some A)) d
        ++ mkObs Save d1
        :: if saveRejects env1 then [] else [mkObs FindById d1])%list
  /\ (forall publicId,
         extractPublicId (Some A) = Some publicId -> publicId <> "" ->
         assetCalls (extractPublicId (Some A)) d
         = [mkObs (DeleteAsset (Some publicId)) d;
            mkObs (Destroy publicId) d])
  /\ run (delete_project_image env2 "proj1" (Some A)) w1
     = (Returned (Redirect "/admin#projects"), w1).
Proof.
  intros Hin Hp HA HAB d d1 w1.
  assert (HAe : (A =? "")%string = false) by now apply String.eqb_neq.
  assert (HABe : (A =? B)%string = false) by now apply String.eqb_neq.
  assert (Hw1 : run (delete_project_image env1 "proj1" (Some A)) w
                = if saveRejects env1
                  then (Thrown PersistError,
                        mkWorld true d1 (stored w)
                          (calls w ++ assetCalls (extractPublicId (Some A)) d
                           ++ [mkObs Save d1]))
                  else (Returned (Redirect "/admin#projects"),
                        mkWorld true d1 d1
                          (calls w ++ assetCalls (extractPublicId (Some A)) d
                           ++ [mkObs Save d1; mkObs FindById d1]))).
  { unfold_route. rewrite Hin. cbn. rewrite Hp. cbn. rewrite HAe. cbn.
    unfold indexOf. cbn. rewrite String.eqb_refl. cbn.
    rewrite deleteCloudinaryAsset_run. cbn. rewrite Hp. cbn.
    fold d. fold d1.
    destruct (saveRejects env1); cbn; rewrite ?Hin; norm_log; reflexivity. }
  assert (Hd1 : portfolioData w1 = d1)
    by (subst w1; rewrite Hw1; now destruct (saveRejects env1)).
  assert (Hl1 : isLoggedIn w1 = true)
    by (subst w1; rewrite Hw1; now destruct (saveRejects env1)).
  repeat split.
  - exact Hd1.
  - subst w1. rewrite Hw1. now destruct (saveRejects env1).
  - intros publicId -> Hne. unfold assetCalls.
    apply String.eqb_neq in Hne. now rewrite Hne.
  - unfold_route. rewrite Hl1. cbn. rewrite Hd1. cbn. rewrite HAe. cbn.
    unfold indexOf. cbn. rewrite HABe. cbn. now destruct w1.
Qed.

Lemma delete_project_image_scenario_witness :
  let A := Sample.hostUrl "Project/a.png" in
  let B := Sample.hostUrl "Project/b.png" in
  let d := set_projects
             [mkProject (IdString "proj1") (Some "Site") None None [A; B]]
             Sample.emptyDoc in
  let d1 := set_projects
              [mkProject (IdString "proj1") (Some "Site") None None [B]]
              Sample.emptyDoc in
  let w1 := snd (run (delete_project_image Sample.saves "proj1" (Some A))
                     (Sample.admin d)) in
  portfolioData w1 = d1
  /\ calls w1 = [mkObs (DeleteAsset (Some "portfolio/Project/a")) d;
                 mkObs (Destroy "portfolio/Project/a") d;
                 mkObs Save d1; mkObs FindById d1]
  /\ run (delete_project_image Sample.saves "proj1" (Some A)) w1
     = (Returned (Redirect "/admin#projects"), w1).
Proof.
  intros A B d d1 w1.
  destruct (delete_project_image_scenario Sample.saves Sample.saves A B
              (Some "Site") None None (Sample.admin d) eq_refl eq_refl)
    as (H1 & H2 & _ & H4); [discriminate|discriminate|].
  split; [exact H1|split; [exact H2|exact H4]].
Defined.

(** With the one-letter texts "A" and "B" in place of URLs, no
    identifier is derived: the images become ["B"], the asset deletion
    runs once with no identifier and the image host is not called. *)
Example delete_project_image_plain_text :
  let d := set_projects
             [mkProject (IdString "proj1") None None None ["A"; "B"]]
             Sample.emptyDoc in
  let d1 := set_projects
              [mkProject (IdString "proj1") None None None ["B"]]
              Sample.emptyDoc in
  run (delete_project_image Sample.saves "proj1" (Some "A")) (Sample.admin d)
  = (Returned (Redirect "/admin#projects"),
     mkWorld true d1 d1
       [mkObs (DeleteAsset None) d; mkObs Save d1; mkObs FindById d1]).
Proof. vm_compute. reflexivity. Qed.

(* ================================================================== *)
(** ** A save that rejects *)
(* ================================================================== *)

Lemma forEach_deleteCloudinaryAsset (env : Env) (urls : list string)
    (w : World) :
  forEach urls
    (fun imgUrl => deleteCloudinaryAsset env (extractPublicId (Some imgUrl))) w
  = (Returned tt,
     mkWorld (isLoggedIn w) (portfolioData w) (stored w)
       (calls w
        ++ flat_map (fun u => assetCalls (extractPublicId (Some u))
                                (portfolioData w)) urls)).
Proof.
  revert w; induction urls as [|u urls IH]; intros w; cbn [forEach flat_map].
  - cbn. rewrite app_nil_r. now destruct w.
  - cbn. rewrite deleteCloudinaryAsset_run. rewrite IH. cbn.
    now rewrite <- app_assoc.
Qed.

Lemma assetCalls_notFindById (publicId : option string) (d : Doc) :
  forallb notFindById (assetCalls publicId d) = true.
Proof.
  unfold assetCalls. destruct publicId as [id|]; [|reflexivity].
  now destruct (String.eqb id "").
Qed.

Lemma assetCalls_notSave (publicId : option string) (d : Doc) :
  existsb isSave (assetCalls publicId d) = false.
Proof.
  unfold assetCalls. destruct publicId as [id|]; [|reflexivity].
  now destruct (String.eqb id "").
Qed.

Lemma flat_map_assetCalls_notFindById (urls : list string) (d : Doc) :
  forallb notFindById
    (flat_map (fun u => assetCalls (extractPublicId (Some u)) d) urls) = true.
Proof.
  induction urls as [|u urls IH]; [reflexivity|].
  cbn [flat_map]. now rewrite forallb_app, assetCalls_notFindById, IH.
Qed.

Lemma assetCalls_no_identifier (publicId : option string) (d : Doc) :
  publicId = None \/ publicId = Some ""%string ->
  assetCalls publicId d = [mkObs (DeleteAsset publicId) d].
Proof. intros [->| ->]; reflexivity. Qed.

#[local] Opaque assetCalls.

Ltac report_nothing :=
  split; [reflexivity|];
  exists []; split; [mstep; now rewrite app_nil_r|];
  split; [reflexivity|]; cbn [existsb]; discriminate.

Ltac report_failed :=
  split; [reflexivity|];
  cbn [snd fst calls portfolioData]; norm_log;
  eexists; split; [reflexivity|];
  split;
  [ cbn [forallb]; rewrite ?forallb_app, ?assetCalls_notFindById,
      ?flat_map_assetCalls_notFindById; reflexivity
  | intros _; split; [reflexivity|];
    first [ exists []; reflexivity
          | eexists; reflexivity ] ].

(** Case analysis on the conditions a route tests, innermost first,
    until its result is a pair, which [finish] then reports on. *)
Ltac crunch_with Hs finish :=
  repeat (progress (mstep;
     rewrite ?Hs, ?deleteCloudinaryAsset_run, ?forEach_deleteCloudinaryAsset));
  lazymatch goal with
  | |- _ (_, _) => finish
  | |- _ =>
      match goal with
      | |- context [match ?x with _ => _ end] =>
          lazymatch x with
          | context [match _ with _ => _ end] => fail
          | _ => destruct x eqn:?; crunch_with Hs finish
          end
      end
  end.

Ltac report_persist :=
  unfold PersistFailureReport;
  first [ solve [report_nothing] | solve [report_failed] ].

Ltac report_reload Hs :=
  unfold ReloadReport; cbn [reloadsAfterSave snd fst calls portfolioData];
  norm_log;
  first [ exists []; split; [now rewrite app_nil_r|]
        | eexists; split; [reflexivity|] ];
  first
    [ cbn [forallb]; rewrite ?forallb_app, ?assetCalls_notFindById,
        ?flat_map_assetCalls_notFindById; reflexivity
    | intros Hsave Hex;
      first [ congruence
            | discriminate Hex
            | exists []; reflexivity
            | eexists; reflexivity ] ].

(** C8, as the code has it: when the save of a request rejects, the
    stored document is the one from before the request, no reload is
    issued, the save is the last entry of the log and the held document
    is the one that was being saved, so it keeps the change.  The
    rejection escapes the handler on most routes, is answered by a 500 on
    gallery upload and gallery photo replacement, and is answered by the
    usual redirect on update-footer. *)
Theorem persist_failure_keeps_change (env : Env) (req : Request) (w : World) :
  saveRejects env = true ->
  PersistFailureReport req w (run (handle env req) w)
  /\ (match req with
      | UpdateFooter _ _ _ _ _ _ _ => True
      | _ => isServerError (persistFailureOutcome req) = true
      end).
Proof.
  intros Hs. split.
  - destruct req; unfold_route; crunch_with Hs report_persist.
  - destruct req; exact I || reflexivity.
Qed.

Lemma persist_failure_keeps_change_witness :
  let req := UploadGallery (File (Sample.hostUrl "Gallery/p.png"))
                           (Some "caption") "id-1" in
  PersistFailureReport req (Sample.admin Sample.emptyDoc)
    (run (handle Sample.saveFails req) (Sample.admin Sample.emptyDoc))
  /\ isServerError (persistFailureOutcome req) = true.
Proof.
  intros req.
  exact (persist_failure_keeps_change Sample.saveFails req
           (Sample.admin Sample.emptyDoc) eq_refl).
Defined.

(** C8 as stated fails on update-footer: the save is attempted and
    rejects, the stored document is still the old one, and the answer is
    the redirect of a successful update, not a server error. *)
Lemma update_footer_hides_persist_failure :
  let w := Sample.admin Sample.emptyDoc in
  let res := run (handle Sample.saveFails Sample.footerRequest) w in
  calls (snd res)
  = [mkObs Save (set_footerInfo (Some Sample.footer) Sample.emptyDoc)]
  /\ stored (snd res) = Sample.emptyDoc
  /\ portfolioData (snd res)
     = set_footerInfo (Some Sample.footer) Sample.emptyDoc
  /\ fst res = Returned (Redirect "/admin#general")
  /\ isServerError (fst res) = false.
Proof. vm_compute. repeat split; reflexivity. Qed.

(* ================================================================== *)
(** ** Routes that save without reloading *)
(* ================================================================== *)

(** Nine routes never reload the held reference; the other nine reload
    it right after a save that succeeded. *)
Lemma reload_after_save (env : Env) (req : Request) (w : World) :
  ReloadReport env req w (run (handle env req) w).
Proof.
  destruct (saveRejects env) eqn:Hs;
    destruct req; unfold_route; crunch_with Hs ltac:(report_reload Hs).
Qed.

(** C1, evaluated: update-carousel and update-text change the held
    document and save it, and the log ends with the save, no reload of
    the held reference follows; delete-gallery-photo, next to them,
    saves and then reloads. *)
Theorem update_routes_skip_reload :
  let w := Sample.admin Sample.threeSlides in
  let retitled :=
    set_carousel
      [set_slide_text (Some "New") (Some "text") (Some "/projects")
                      (Some "Open") (Sample.slide "one");
       Sample.slide "two"; Sample.slide "three"] Sample.emptyDoc in
  let rewritten :=
    set_about (mkAbout (Some "Summary") (Some "Story") ["Rocq"; "OCaml"] None)
              Sample.threeSlides in
  let photo := mkPhoto (IdString "g1")
                       (Some (Sample.hostUrl "Gallery/p.png")) (Some "old") in
  let withPhoto := set_gallery [photo] Sample.emptyDoc in
  run (handle Sample.saves
         (UpdateCarousel "0" NoFile (Some "New") (Some "text")
                         (Some "/projects") (Some "Open"))) w
  = (Returned (Redirect "/admin#carousel"),
     mkWorld true retitled retitled [mkObs Save retitled])
  /\ run (handle Sample.saves
            (UpdateText (Some "Summary") (Some "Story")
               (Some (String.concat (String newline "") ["Rocq "; ""; " OCaml"]))))
         w
     = (Returned (Redirect "/admin#general"),
        mkWorld true rewritten rewritten [mkObs Save rewritten])
  /\ run (handle Sample.saves (DeleteGalleryPhoto "g1"))
         (Sample.admin withPhoto)
     = (Returned (Redirect "/admin#gallery"),
        mkWorld true Sample.emptyDoc Sample.emptyDoc
          [mkObs (DeleteAsset (Some "portfolio/Gallery/p")) withPhoto;
           mkObs (Destroy "portfolio/Gallery/p") withPhoto;
           mkObs Save Sample.emptyDoc;
           mkObs FindById Sample.emptyDoc]).
Proof. vm_compute. repeat split; reflexivity. Qed.

(* ================================================================== *)
(** ** Projects are looked up with strict equality *)
(* ================================================================== *)

Lemma strictEq_true (v : Id) (s : string) :
  strictEq v s = true <-> v = IdString s.
Proof.
  destruct v as [|n|t]; cbn; split; try discriminate.
  - intros H. apply String.eqb_eq in H. now subst.
  - intros [= ->]. apply String.eqb_refl.
Qed.

Lemma no_strict_match (projectId : string) (l : list Project) :
  (forall p, In p l -> proj_id p <> IdString projectId) ->
  forall p, In p l -> strictEq (proj_id p) projectId = false.
Proof.
  intros H p Hp. destruct (strictEq (proj_id p) projectId) eqn:E; auto.
  apply strictEq_true in E. now apply H in E.
Qed.

(** C10 as stated fails when a second project carries the same number as
    a string: the request update-project/7 finds it and changes the
    document. *)
Lemma update_project_finds_string_id :
  let d := Sample.mixedProjects in
  let w' := snd (run (update_project Sample.saves "7" (Some "Edited") None None)
                     (Sample.admin d)) in
  In Sample.numbered (projects d)
  /\ looseEq (proj_id Sample.numbered) "7" = true
  /\ find (fun p => strictEq (proj_id p) "7") (projects d)
     = Some Sample.lettered
  /\ portfolioData w'
     = set_projects
         [Sample.numbered; mkProject (IdString "7") (Some "Edited") None None []]
         Sample.emptyDoc
  /\ portfolioData w' <> d.
Proof.
  vm_compute. repeat split; try reflexivity; [now left|discriminate].
Qed.

(** C10, as the code has it: the four project routes compare the stored
    [id] with the path parameter by strict equality.  The project they
    find has the parameter itself as its [id], so a project whose [id] is
    a number is never the one found, whatever number the parameter
    denotes; when no project has the parameter as its [id] each of the
    four routes answers by a redirect and leaves the world as it was.
    The loose comparison of the gallery, certificate and education routes
    does find the record whose [id] is the number the parameter
    denotes. *)
Theorem project_lookup_is_strict (env : Env) (projectId : string) (w : World) :
  let d := portfolioData w in
  let strict := fun p => strictEq (proj_id p) projectId in
  (forall p, find strict (projects d) = Some p -> proj_id p = IdString projectId)
  /\ (forall n, strictEq (IdNumber n) projectId = false)
  /\ ((forall p, In p (projects d) -> proj_id p <> IdString projectId) ->
      (forall title description githubLink,
          exists location,
            run (update_project env projectId title description githubLink) w
            = (Returned (Redirect location), w))
      /\ (forall up,
             exists location,
               run (upload_project_image env projectId up) w
               = (Returned (Redirect location), w))
      /\ (forall imageUrl,
             exists location,
               run (delete_project_image env projectId imageUrl) w
               = (Returned (Redirect location), w))
      /\ (exists location,
             run (delete_project env projectId) w
             = (Returned (Redirect location), w)))
  /\ (forall n,
         looseEq (IdNumber n) projectId = true ->
         (forall photos, (exists p, In p photos /\ photo_id p = IdNumber n) ->
            findIndex (fun p => looseEq (photo_id p) projectId) photos <> -1)
         /\ (forall certs, (exists c, In c certs /\ cert_id c = IdNumber n) ->
               findIndex (fun c => looseEq (cert_id c) projectId) certs <> -1)
         /\ (forall edus, (exists e, In e edus /\ edu_id e = IdNumber n) ->
               findIndex (fun e => looseEq (edu_id e) projectId) edus <> -1)).
Proof.
  intros d strict. split; [|split; [|split]].
  - intros p Hp. apply find_some in Hp as [_ Hp]. now apply strictEq_true.
  - reflexivity.
  - intros Hnone.
    pose proof (no_strict_match projectId (projects d) Hnone) as Hfalse.
    pose proof (find_none strict (projects d) Hfalse) as Hfind.
    pose proof (findIndex_none strict (projects d) Hfalse) as Hidx.
    repeat split; intros; unfold_route;
      (destruct (isLoggedIn w) eqn:Hin;
       [|eexists; reflexivity]).
    + mstep. fold d. fold strict. rewrite Hfind. mstep.
      eexists. now destruct w.
    + destruct up; mstep; fold d; fold strict; rewrite ?Hfind; mstep;
        eexists; now destruct w.
    + mstep. fold d. fold strict. rewrite Hfind. mstep.
      eexists. now destruct w.
    + mstep. fold d. fold strict. rewrite Hidx. cbn [negb Z.eqb]. mstep.
      eexists. now destruct w.
  - intros n Hn. repeat split; intros l (x & Hx & Hid); intros Hneg;
      (match type of Hneg with
       | findIndex ?q _ = _ =>
           destruct (findIndex_first q l) as (i & y & Hi & _);
           [exists x; split; [exact Hx|cbn; rewrite Hid; exact Hn]
           |rewrite Hi in Hneg; lia]
       end).
Qed.

Lemma project_lookup_is_strict_witness :
  let d := set_projects [Sample.numbered] Sample.emptyDoc in
  looseEq (proj_id Sample.numbered) "7" = true
  /\ (exists location,
        run (update_project Sample.saves "7" (Some "Edited") None None)
            (Sample.admin d)
        = (Returned (Redirect location), Sample.admin d))
  /\ findIndex (fun p => looseEq (photo_id p) "7")
               [mkPhoto (IdNumber 7) None None] <> -1.
Proof.
  intros d.
  destruct (project_lookup_is_strict Sample.saves "7" (Sample.admin d))
    as (_ & _ & Hnone & Hloose).
  split; [reflexivity|split].
  - apply Hnone. intros p [<-|[]]. discriminate.
  - apply (Hloose 7 eq_refl).
    exists (mkPhoto (IdNumber 7) None None). split; [now left|reflexivity].
Defined.

(* ================================================================== *)
(** ** Replacing an asset *)
(* ================================================================== *)

Section ReferenceCount.
Context {A : Type} (url : A -> option string) (f : A -> A) (u : string).

Let refs (l : list A) : list string := flat_map (fun a => refsOf (url a)) l.
Let count (l : list string) : nat := count_occ string_dec l u.

(** Replacing one element exchanges its references for those of its
    replacement. *)
Lemma count_updateNth (l : list A) (i : nat) (x : A) :
  nth_error l i = Some x ->
  (count (refs (updateNth i f l)) + count (refsOf (url x))
   = count (refs l) + count (refsOf (url (f x))))%nat.
Proof.
  subst refs count. cbv beta.
  revert i; induction l as [|a l IH]; intros [|i] Hn; cbn in Hn;
    try discriminate.
  - injection Hn as ->. cbn [updateNth flat_map].
    rewrite !count_occ_app. lia.
  - cbn [updateNth flat_map]. rewrite !count_occ_app.
    specialize (IH i Hn). lia.
Qed.

Lemma count_updateFirst (p : A -> bool) (l : list A) (x : A) :
  find p l = Some x ->
  (count (refs (updateFirst p f l)) + count (refsOf (url x))
   = count (refs l) + count (refsOf (url (f x))))%nat.
Proof.
  subst refs count. cbv beta.
  induction l as [|a l IH]; cbn [find updateFirst]; [discriminate|].
  destruct (p a).
  - intros [= ->]. cbn [flat_map]. rewrite !count_occ_app. lia.
  - intros H. cbn [flat_map]. rewrite !count_occ_app.
    specialize (IH H). lia.
Qed.
End ReferenceCount.

Lemma count_refsOf_same (u : string) :
  count_occ string_dec (refsOf (Some u)) u = 1%nat.
Proof. cbn. now destruct (string_dec u u). Qed.

Lemma count_refsOf_other (u v : string) :
  u <> v -> count_occ string_dec (refsOf (Some v)) u = 0%nat.
Proof. intros H. cbn. destruct (string_dec v u); [congruence|reflexivity]. Qed.

(** C3 as stated fails when a second record holds the same URL: after
    the photo of g1 is replaced, the old URL is still reachable through
    g2. *)
Lemma replaced_url_still_reachable :
  let old := Sample.hostUrl "Gallery/p.png" in
  let new := Sample.hostUrl "Gallery/q.png" in
  let d := set_gallery [mkPhoto (IdString "g1") (Some old) (Some "one");
                        mkPhoto (IdString "g2") (Some old) (Some "two")]
                       Sample.emptyDoc in
  let res := run (update_gallery_photo Sample.saves "g1" (File new))
                 (Sample.admin d) in
  fst res = Returned (Redirect "/admin#gallery")
  /\ gallery (portfolioData (snd res))
     = [mkPhoto (IdString "g1") (Some new) (Some "one");
        mkPhoto (IdString "g2") (Some old) (Some "two")]
  /\ reachable old (portfolioData (snd res)).
Proof.
  vm_compute. repeat split; try reflexivity. right; left; reflexivity.
Qed.

(** C3, as the code has it: when a carousel slide or a gallery photo
    that exists is given a new file, the asset deletion runs on the
    identifier derived from the old URL while the held document still
    has the old URL, and the save that follows it is of the document with
    the new URL.  Afterwards the record holds the new URL, and the old
    URL is not reachable from the held document when it was referenced
    once and differs from the new one.  The profile photo and the image
    of the project summary are replaced in the same way. *)
Theorem asset_replacement_order :
  (forall env index i slide path title description link buttonText w,
      isLoggedIn w = true ->
      Js.parseInt index = Some i -> 0 <= i ->
      nth_error (carousel (portfolioData w)) (Z.to_nat i) = Some slide ->
      let d := portfolioData w in
      let w' := snd (run (update_carousel env index (File path) title
                            description link buttonText) w) in
      let d' := portfolioData w' in
      d' = set_carousel
             (updateNth (Z.to_nat i)
                (fun s => set_slide_text title description link buttonText
                            (set_slide_url (Some path) s))
                (carousel d)) d
      /\ calls w'
         = (calls w ++ assetCalls (extractPublicId (slide_url slide)) d
            ++ [mkObs Save d'])%list
      /\ (forall old,
             slide_url slide = Some old -> old <> path ->
             count_occ string_dec (references d) old = 1%nat ->
             ~ reachable old d'))
  /\ (forall env photoId photo path w,
         isLoggedIn w = true ->
         find (fun p => looseEq (photo_id p) photoId)
              (gallery (portfolioData w)) = Some photo ->
         let d := portfolioData w in
         let w' := snd (run (update_gallery_photo env photoId (File path)) w) in
         let d' := portfolioData w' in
         d' = set_gallery
                (updateFirst (fun p => looseEq (photo_id p) photoId)
                   (set_photo_url (Some path)) (gallery d)) d
         /\ calls w'
            = (calls w ++ assetCalls (extractPublicId (photo_url photo)) d
               ++ mkObs Save d'
               :: if saveRejects env then [] else [mkObs FindById d'])%list
         /\ (forall old,
                photo_url photo = Some old -> old <> path ->
                count_occ string_dec (references d) old = 1%nat ->
                ~ reachable old d'))
  /\ (forall env path w,
         isLoggedIn w = true ->
         let d := portfolioData w in
         let w' := snd (run (upload_photo env (File path)) w) in
         let d' := portfolioData w' in
         d' = set_about
                (mkAbout (about_summary (about d)) (about_fullStory (about d))
                         (about_skills (about d)) (Some path)) d
         /\ calls w'
            = (calls w
               ++ assetCalls (extractPublicId (about_photoUrl (about d))) d
               ++ [mkObs Save d'])%list
         /\ (forall old,
                about_photoUrl (about d) = Some old -> old <> path ->
                count_occ string_dec (references d) old = 1%nat ->
                ~ reachable old d'))
  /\ (forall env path title paragraph1 paragraph2 buttonLink w,
         isLoggedIn w = true ->
         let d := portfolioData w in
         let w' := snd (run (update_project_summary env (File path) title
                               paragraph1 paragraph2 buttonLink) w) in
         let d' := portfolioData w' in
         d' = set_projectSummary
                (mkProjectSummary title paragraph1 paragraph2 buttonLink
                                  (Some path)) d
         /\ calls w'
            = (calls w
               ++ assetCalls (extractPublicId (ps_image (projectSummary d))) d
               ++ [mkObs Save d'])%list
         /\ (forall old,
                ps_image (projectSummary d) = Some old -> old <> path ->
                count_occ string_dec (references d) old = 1%nat ->
                ~ reachable old d')).
Proof.
  split; [|split; [|split]].
  - intros env index i slide path t de l b w Hin Hparse Hi Hnth d w' d'.
    assert (Hlen : (Z.to_nat i < length (carousel d))%nat)
      by (apply nth_error_Some; subst d; congruence).
    assert (Hd' : d' = set_carousel
             (updateNth (Z.to_nat i)
                (fun s => set_slide_text t de l b (set_slide_url (Some path) s))
                (carousel d)) d
            /\ calls w'
               = (calls w ++ assetCalls (extractPublicId (slide_url slide)) d
                  ++ [mkObs Save d'])%list).
    { subst d' w'. unfold_route. rewrite Hin, Hparse. mstep.
      fold d. cbn [withinBounds].
      replace (0 <=? i) with true by (symmetry; apply Z.leb_le; lia).
      replace (i <? Z.of_nat (length (carousel d))) with true
        by (symmetry; apply Z.ltb_lt; lia).
      cbn [andb]. mstep. unfold at_.
      replace (i <? 0) with false by (symmetry; apply Z.ltb_ge; lia).
      fold d in Hnth. rewrite Hnth. mstep.
      rewrite deleteCloudinaryAsset_run. mstep. fold d.
      cbn [set_carousel carousel]. rewrite updateNth_updateNth.
      destruct (saveRejects env); mstep; norm_log; split; reflexivity. }
    destruct Hd' as [Hd' Hcalls]. split; [exact Hd'|split; [exact Hcalls|]].
    intros old Hold Hne Hone. unfold reachable.
    apply (count_occ_not_In string_dec). rewrite Hd'.
    unfold references in *. cbn [set_carousel carousel about projectSummary
      education certificates gallery projects].
    rewrite count_occ_app in Hone |- *.
    pose proof (count_updateNth slide_url
                  (fun s => set_slide_text t de l b (set_slide_url (Some path) s))
                  old (carousel d) (Z.to_nat i) slide Hnth) as Hc.
    cbv beta zeta in Hc. rewrite Hold in Hc.
    cbn [set_slide_text set_slide_url slide_url] in Hc.
    rewrite count_refsOf_same, (count_refsOf_other old path Hne) in Hc.
    fold d in Hone. lia.
  - intros env photoId photo path w Hin Hfind d w' d'.
    assert (Hd' : d' = set_gallery
                (updateFirst (fun p => looseEq (photo_id p) photoId)
                   (set_photo_url (Some path)) (gallery d)) d
            /\ calls w'
               = (calls w ++ assetCalls (extractPublicId (photo_url photo)) d
                  ++ mkObs Save d'
                  :: if saveRejects env then [] else [mkObs FindById d'])%list).
    { subst d' w'. unfold_route. rewrite Hin. mstep. rewrite Hfind. mstep.
      rewrite deleteCloudinaryAsset_run. mstep. fold d.
      destruct (saveRejects env); mstep; norm_log; split; reflexivity. }
    destruct Hd' as [Hd' Hcalls]. split; [exact Hd'|split; [exact Hcalls|]].
    intros old Hold Hne Hone. unfold reachable.
    apply (count_occ_not_In string_dec). rewrite Hd'.
    unfold references in *. cbn [set_gallery carousel about projectSummary
      education certificates gallery projects].
    rewrite !count_occ_app in Hone |- *.
    pose proof (count_updateFirst photo_url (set_photo_url (Some path)) old
                  (fun p => looseEq (photo_id p) photoId) (gallery d) photo
                  Hfind) as Hc.
    cbv beta zeta in Hc. rewrite Hold in Hc. cbn [set_photo_url photo_url] in Hc.
    rewrite count_refsOf_same, (count_refsOf_other old path Hne) in Hc.
    fold d in Hone. lia.
  - intros env path w Hin d w' d'.
    assert (Hd' : d' = set_about
                (mkAbout (about_summary (about d)) (about_fullStory (about d))
                         (about_skills (about d)) (Some path)) d
            /\ calls w'
               = (calls w
                  ++ assetCalls (extractPublicId (about_photoUrl (about d))) d
                  ++ [mkObs Save d'])%list).
    { subst d' w'. unfold_route. rewrite Hin. mstep.
      rewrite deleteCloudinaryAsset_run. mstep. fold d.
      destruct (saveRejects env); mstep; norm_log; split; reflexivity. }
    destruct Hd' as [Hd' Hcalls]. split; [exact Hd'|split; [exact Hcalls|]].
    intros old Hold Hne Hone. unfold reachable.
    apply (count_occ_not_In string_dec). rewrite Hd'.
    unfold references in *. cbn [set_about carousel about projectSummary
      education certificates gallery projects about_photoUrl].
    rewrite !count_occ_app in Hone |- *. fold d in Hone.
    rewrite Hold, count_refsOf_same in Hone.
    rewrite (count_refsOf_other old path Hne). lia.
  - intros env path t p1 p2 b w Hin d w' d'.
    assert (Hd' : d' = set_projectSummary
                (mkProjectSummary t p1 p2 b (Some path)) d
            /\ calls w'
               = (calls w
                  ++ assetCalls (extractPublicId (ps_image (projectSummary d))) d
                  ++ [mkObs Save d'])%list).
    { subst d' w'. unfold_route. rewrite Hin. mstep.
      rewrite deleteCloudinaryAsset_run. mstep. fold d.
      destruct (saveRejects env); mstep; norm_log; split; reflexivity. }
    destruct Hd' as [Hd' Hcalls]. split; [exact Hd'|split; [exact Hcalls|]].
    intros old Hold Hne Hone. unfold reachable.
    apply (count_occ_not_In string_dec). rewrite Hd'.
    unfold references in *. cbn [set_projectSummary carousel about
      projectSummary education certificates gallery projects ps_image].
    rewrite !count_occ_app in Hone |- *. fold d in Hone.
    rewrite Hold, count_refsOf_same in Hone.
    rewrite (count_refsOf_other old path Hne). lia.
Qed.

Lemma asset_replacement_order_witness :
  let d := Sample.threeSlides in
  let new := Sample.hostUrl "Carousel/new.png" in
  let w' := snd (run (update_carousel Sample.saves "1" (File new)
                        (Some "Two") None None None) (Sample.admin d)) in
  calls w'
  = [mkObs (DeleteAsset (Some "portfolio/Carousel/two")) d;
     mkObs (Destroy "portfolio/Carousel/two") d;
     mkObs Save (portfolioData w')]
  /\ nth_error (carousel (portfolioData w')) 1
     = Some (mkSlide (Some "Two") None None None (Some new))
  /\ ~ reachable (Sample.hostUrl "Carousel/two.png") (portfolioData w').
Proof.
  intros d new w'.
  destruct (proj1 asset_replacement_order Sample.saves "1" 1
              (Sample.slide "two") new (Some "Two") None None None
              (Sample.admin d) eq_refl eq_refl)
    as (H1 & H2 & H3); [lia|reflexivity|].
  split; [exact H2|split].
  - unfold w'. rewrite H1. reflexivity.
  - apply H3; [reflexivity|discriminate|reflexivity].
Defined.

(* ================================================================== *)
(** ** The identifier derived from a URL *)
(* ================================================================== *)

Section Strings.

Lemma append_assoc (a b c : string) : ((a ++ b) ++ c = a ++ b ++ c)%string.
Proof. induction a as [|x a IH]; cbn; [reflexivity|now rewrite IH]. Qed.

Lemma length_append (a b : string) :
  String.length (a ++ b) = (String.length a + String.length b)%nat.
Proof. induction a as [|x a IH]; cbn; [reflexivity|now rewrite IH]. Qed.

Lemma startsWith_append (p s : string) : Js.startsWith p (p ++ s) = true.
Proof.
  induction p as [|a p IH]; cbn; [reflexivity|].
  now rewrite Ascii.eqb_refl, IH.
Qed.

Lemma drop_append (p s : string) : Js.drop (String.length p) (p ++ s) = s.
Proof. induction p as [|a p IH]; cbn; [reflexivity|exact IH]. Qed.

Lemma take_append (p s : string) : Js.take (String.length p) (p ++ s) = p.
Proof. induction p as [|a p IH]; cbn; [reflexivity|now rewrite IH]. Qed.

Lemma length_drop (n : nat) (s : string) :
  String.length (Js.drop n s) = (String.length s - n)%nat.
Proof.
  revert s; induction n as [|n IH]; intros [|a s]; cbn; auto.
Qed.

(** A prefix test of [p] reads at most [length p] characters. *)
Lemma startsWith_longer (p x r : string) :
  (String.length p <= String.length x)%nat ->
  Js.startsWith p (x ++ r) = Js.startsWith p x.
Proof.
  revert x; induction p as [|a p IH]; intros [|b x] H; cbn in *;
    try reflexivity; [lia|].
  rewrite IH by lia. reflexivity.
Qed.

Lemma afterFirst_unfold (p s : string) :
  Js.afterFirst p s
  = if Js.startsWith p s then Some (Js.drop (String.length p) s)
    else match s with
         | EmptyString => None
         | String _ s' => Js.afterFirst p s'
         end.
Proof. destruct s; reflexivity. Qed.

Lemma afterFirst_append (p pre rest : string) :
  Js.afterFirst p (pre ++ p) = Some ""%string ->
  Js.afterFirst p (pre ++ p ++ rest) = Some rest.
Proof.
  induction pre as [|a pre IH]; intros H.
  - cbn [append]. rewrite afterFirst_unfold, startsWith_append.
    now rewrite drop_append.
  - cbn [append] in H |- *. rewrite afterFirst_unfold in H |- *.
    destruct (Js.startsWith p (String a (pre ++ p))) eqn:E.
    + exfalso. injection H as H.
      apply (f_equal String.length) in H.
      rewrite length_drop in H. cbn [String.length] in H.
      rewrite length_append in H. lia.
    + rewrite <- (append_assoc pre p rest).
      change (String a ((pre ++ p) ++ rest))
        with ((String a (pre ++ p)) ++ rest)%string.
      rewrite startsWith_longer, E.
      * rewrite append_assoc. apply IH, H.
      * cbn. rewrite length_append. lia.
Qed.

Lemma dropDigits_stop (ds rest : string) :
  allDigits ds = true ->
  dropDigits (ds ++ String "/" rest) = String "/" rest.
Proof.
  induction ds as [|c ds IH]; cbn [allDigits append dropDigits]; intros H.
  - reflexivity.
  - apply andb_prop in H as [Hc Hds]. rewrite Hc. now apply IH.
Qed.

Lemma skipVersion_version (ds rest : string) :
  ds <> ""%string -> allDigits ds = true ->
  skipVersion ("v" ++ ds ++ "/" ++ rest) = rest.
Proof.
  intros Hne Hds. destruct ds as [|c ds]; [congruence|].
  cbn [allDigits] in Hds. apply andb_prop in Hds as [Hc Hds].
  cbn [append skipVersion]. rewrite Hc.
  now rewrite dropDigits_stop.
Qed.

Lemma dotStar_whole (s : string) : noLineTerminator s = true -> dotStar s = s.
Proof.
  induction s as [|c s IH]; [reflexivity|].
  cbn [noLineTerminator dotStar]. intros H.
  apply andb_prop in H as [H1 H2].
  apply negb_true_iff in H1. rewrite H1. now rewrite IH.
Qed.

Lemma lastIndexOf_bounds (c : ascii) (s : string) : -1 <= Js.lastIndexOf c s.
Proof.
  induction s as [|a s IH]; cbn; [lia|].
  destruct (0 <=? Js.lastIndexOf c s) eqn:E.
  - apply Z.leb_le in E. lia.
  - destruct (Ascii.eqb a c); lia.
Qed.

(** The last [c] of [body ++ c ++ ext] is the one after [body] when
    [ext] has none. *)
Lemma lastIndexOf_extension (c : ascii) (body ext : string) :
  Js.lastIndexOf c ext = -1 ->
  Js.lastIndexOf c (body ++ String c ext) = Z.of_nat (String.length body).
Proof.
  intros Hext. induction body as [|a body IH].
  - cbn. rewrite Hext. cbn. now rewrite Ascii.eqb_refl.
  - cbn [append Js.lastIndexOf String.length]. rewrite IH.
    replace (0 <=? Z.of_nat (String.length body)) with true
      by (symmetry; apply Z.leb_le; lia).
    lia.
Qed.

Lemma substring_prefix (body rest : string) :
  Js.substring (body ++ rest) 0 (Z.of_nat (String.length body)) = body.
Proof.
  unfold Js.substring, Js.clampIndex. rewrite length_append.
  rewrite Z.max_l by lia. rewrite Z.min_l by lia. cbn [Z.to_nat].
  rewrite Z.max_r by lia. rewrite Z.min_l by lia. rewrite Nat2Z.id.
  rewrite Nat.min_0_l, Nat.max_0_l, Nat.sub_0_r. cbn [Js.drop].
  apply take_append.
Qed.

Lemma includes_nonempty (p u : string) :
  p <> ""%string -> Js.includes p u = true -> (u =? "")%string = false.
Proof.
  intros Hp H. destruct u as [|a u]; [|reflexivity].
  destruct p as [|b p]; [congruence|]. discriminate H.
Qed.

(** The identifier of a URL whose text after the marker, and after the
    version segment if there is one, is [path = body ++ "." ++ ext]. *)
Lemma extractPublicId_path (pre mid body ext : string) :
  let path := (body ++ "." ++ ext)%string in
  let url := (pre ++ "/upload/" ++ mid ++ path)%string in
  Js.includes "cloudinary.com" url = true ->
  firstMarker pre ->
  skipVersion (mid ++ path) = path ->
  noLineTerminator path = true ->
  Js.lastIndexOf "." ext = -1 ->
  extractPublicId (Some url) = Some body.
Proof.
  intros path url Hhost Hfirst Hskip Hline Hext.
  unfold extractPublicId.
  rewrite (includes_nonempty "cloudinary.com" url) by (discriminate || exact Hhost).
  rewrite Hhost. cbn [negb orb].
  unfold matchUpload. subst url.
  rewrite (afterFirst_append "/upload/" pre (mid ++ path) Hfirst).
  rewrite Hskip, (dotStar_whole path Hline).
  subst path. cbn [append].
  destruct (body ++ String "." ext)%string eqn:E.
  - destruct body; discriminate E.
  - rewrite <- E. cbn [String.eqb].
    rewrite lastIndexOf_extension by exact Hext.
    rewrite substring_prefix.
    destruct body; reflexivity.
Qed.

End Strings.

(** C2: the identifier is the text after the first ["/upload/"], without
    a version segment ["v<digits>/"] when one follows the marker, and
    without its last ["."] and what follows it.  A URL that is absent,
    or has no ["cloudinary.com"] or no ["/upload/"] in it, has no
    identifier.  Without an identifier the asset deletion calls nothing
    and returns; with any identifier and any answer of the image host it
    returns normally with the documents as they were, so what follows it
    in a handler runs: delete-gallery-photo removes a record whose URL
    has no identifier, saves and reloads, without a call to the host. *)
Theorem asset_delete_derivation :
  (forall pre digits body ext,
      let path := (body ++ "." ++ ext)%string in
      let url := (pre ++ "/upload/" ++ "v" ++ digits ++ "/" ++ path)%string in
      Js.includes "cloudinary.com" url = true ->
      firstMarker pre ->
      digits <> ""%string -> allDigits digits = true ->
      noLineTerminator path = true ->
      Js.lastIndexOf "." ext = -1 ->
      extractPublicId (Some url) = Some body)
  /\ (forall pre body ext,
         let path := (body ++ "." ++ ext)%string in
         let url := (pre ++ "/upload/" ++ path)%string in
         Js.includes "cloudinary.com" url = true ->
         firstMarker pre ->
         skipVersion path = path ->
         noLineTerminator path = true ->
         Js.lastIndexOf "." ext = -1 ->
         extractPublicId (Some url) = Some body)
  /\ extractPublicId None = None
  /\ (forall u, Js.includes "cloudinary.com" u = false ->
                extractPublicId (Some u) = None)
  /\ (forall u, Js.includes "/upload/" u = false ->
                extractPublicId (Some u) = None)
  /\ (forall env publicId w,
         publicId = None \/ publicId = Some ""%string ->
         run (deleteCloudinaryAsset env publicId) w
         = (Returned tt,
            mkWorld (isLoggedIn w) (portfolioData w) (stored w)
              (calls w ++ [mkObs (DeleteAsset publicId) (portfolioData w)])))
  /\ (forall env publicId w,
         run (deleteCloudinaryAsset env publicId) w
         = (Returned tt,
            mkWorld (isLoggedIn w) (portfolioData w) (stored w)
              (calls w ++ assetCalls publicId (portfolioData w))))
  /\ (forall env photoId w i photo,
         isLoggedIn w = true -> saveRejects env = false ->
         let d := portfolioData w in
         findIndex (fun p => looseEq (photo_id p) photoId) (gallery d)
         = Z.of_nat i ->
         nth_error (gallery d) i = Some photo ->
         extractPublicId (photo_url photo) = None ->
         let d' := set_gallery (removeNth i (gallery d)) d in
         run (delete_gallery_photo env photoId) w
         = (Returned (Redirect "/admin#gallery"),
            mkWorld true d' d'
              (calls w ++ [mkObs (DeleteAsset None) d; mkObs Save d';
                           mkObs FindById d']))).
Proof.
  repeat match goal with |- _ /\ _ => split end.
  - intros pre digits body ext path url Hhost Hfirst Hne Hds Hline Hext.
    pose proof (extractPublicId_path pre ("v" ++ digits ++ "/") body ext) as L.
    cbv zeta in L. rewrite !append_assoc in L.
    apply L; try assumption.
    apply skipVersion_version; assumption.
  - intros pre body ext path url Hhost Hfirst Hskip Hline Hext.
    apply (extractPublicId_path pre "" body ext); assumption.
  - reflexivity.
  - intros u Hu. unfold extractPublicId. rewrite Hu. cbn [negb].
    now rewrite orb_true_r.
  - intros u Hu. unfold extractPublicId, matchUpload.
    unfold Js.includes in Hu.
    destruct (Js.afterFirst "/upload/" u); [discriminate|].
    now destruct (_ || _).
  - intros env publicId w H. unfold run.
    rewrite deleteCloudinaryAsset_run.
    now rewrite (assetCalls_no_identifier publicId _ H).
  - intros env publicId w. apply deleteCloudinaryAsset_run.
  - intros env photoId w i photo Hin Hs d Hidx Hnth Hnone d'.
    assert (Hlen : (i < length (gallery d))%nat)
      by (apply nth_error_Some; congruence).
    unfold_route. rewrite Hin. mstep. fold d. rewrite Hidx.
    replace (Z.of_nat i =? -1) with false by (symmetry; apply Z.eqb_neq; lia).
    cbn [negb]. mstep. rewrite at_of_nat, Hnth. mstep.
    rewrite deleteCloudinaryAsset_run. mstep. rewrite Hs. mstep.
    fold d. rewrite splice1_of_nat by assumption. fold d'.
    rewrite Hnone, Hin.
    rewrite (assetCalls_no_identifier None d (or_introl eq_refl)).
    norm_log. reflexivity.
Qed.

Lemma asset_delete_derivation_witness :
  extractPublicId (Some (Sample.hostUrl "Gallery/p.png"))
  = Some "portfolio/Gallery/p"%string.
Proof.
  apply (proj1 asset_delete_derivation
           "https://res.cloudinary.com/demo/image" "1712"
           "portfolio/Gallery/p" "png");
    solve [reflexivity | discriminate].
Defined.

(* ================================================================== *)
(** ** The login gate *)
(* ================================================================== *)

(** X1: a mutating admin request that arrives while nobody is logged in
    is answered by a redirect to the login page and leaves the world as
    it was. *)
Theorem unauthenticated_request_refused (env : Env) (req : Request)
    (w : World) :
  isLoggedIn w = false ->
  run (handle env req) w = (Returned (Redirect "/login"), w).
Proof.
  intros H. destruct req; unfold_route; rewrite H; reflexivity.
Qed.

Lemma unauthenticated_request_refused_witness :
  run (handle Sample.saves (DeleteProject "proj1"))
      (Sample2.visitor Sample2.oneProject)
  = (Returned (Redirect "/login"), Sample2.visitor Sample2.oneProject).
Proof.
  apply (unauthenticated_request_refused Sample.saves (DeleteProject "proj1")
           (Sample2.visitor Sample2.oneProject)).
  reflexivity.
Defined.

(** X2: the login route redirects to the admin page exactly when the
    user name and the password both equal the configured ones; it sets
    the login flag then and otherwise leaves it as it was, and it never
    touches the documents or the log. *)
Theorem login_needs_both_credentials (adminUsername adminPassword : string)
    (username password : option string) (w : World) :
  let res := run (login adminUsername adminPassword username password) w in
  (fst res = Returned (Redirect "/admin")
   <-> username = Some adminUsername /\ password = Some adminPassword)
  /\ (fst res = Returned (Render "login")
      <-> ~ (username = Some adminUsername /\ password = Some adminPassword))
  /\ (isLoggedIn (snd res) = true
      <-> (username = Some adminUsername /\ password = Some adminPassword)
          \/ isLoggedIn w = true)
  /\ portfolioData (snd res) = portfolioData w
  /\ stored (snd res) = stored w
  /\ calls (snd res) = calls w.
Proof.
  set (good := username = Some adminUsername /\ password = Some adminPassword).
  assert (Hcases :
            (good /\ run (login adminUsername adminPassword username password) w
                     = (Returned (Redirect "/admin"),
                        mkWorld true (portfolioData w) (stored w) (calls w)))
            \/ (~ good
                /\ run (login adminUsername adminPassword username password) w
                   = (Returned (Render "login"), w))).
  { unfold good, run, login.
    destruct username as [u|], password as [p|];
      try (right; split; [intros [? ?]; discriminate|reflexivity]).
    destruct (String.eqb_spec u adminUsername) as [->|Hu];
      destruct (String.eqb_spec p adminPassword) as [->|Hp]; cbn.
    - left. split; [split|]; reflexivity.
    - right. split; [intros [? ?]; congruence|reflexivity].
    - right. split; [intros [? ?]; congruence|reflexivity].
    - right. split; [intros [? ?]; congruence|reflexivity]. }
  cbv zeta. destruct Hcases as [[Hg ->]|[Hg ->]]; cbn [fst snd isLoggedIn
    portfolioData stored calls]; repeat split; try tauto; try discriminate;
    try (intros _; exact Hg); try (intros H; [now apply H in Hg]).
  all: destruct Hg; assumption.
Qed.

(** X3: the logout route is open to everyone and clears the one login
    flag of the process: whatever the state before, every admin request
    that follows it is sent to the login page and changes nothing.  After
    a login with the configured credentials a request is served as for
    the admin. *)
Theorem logout_locks_every_route (env : Env) (req : Request) (w : World)
    (adminUsername adminPassword : string) :
  let out := snd (run logout w) in
  let back := snd (run (login adminUsername adminPassword
                          (Some adminUsername) (Some adminPassword)) out) in
  fst (run logout w) = Returned (Redirect "/")
  /\ portfolioData out = portfolioData w
  /\ stored out = stored w
  /\ run (handle env req) out = (Returned (Redirect "/login"), out)
  /\ run (handle env req) back
     = run (handle env req)
           (mkWorld true (portfolioData w) (stored w) (calls w)).
Proof.
  cbn zeta. repeat split.
  - destruct req; unfold_route; reflexivity.
  - unfold run, login, logout. cbn. now rewrite !String.eqb_refl.
Qed.

(* ================================================================== *)
(** ** What the image host answers does not matter *)
(* ================================================================== *)

Ltac crunch_eq H :=
  repeat (progress (mstep;
     rewrite ?H, ?deleteCloudinaryAsset_run, ?forEach_deleteCloudinaryAsset));
  lazymatch goal with
  | |- (_, _) = _ => reflexivity
  | |- _ =>
      match goal with
      | |- context [match ?x with _ => _ end] =>
          lazymatch x with
          | context [match _ with _ => _ end] => fail
          | _ => destruct x eqn:?; crunch_eq H
          end
      end
  end.

(** X4: the answer of the image host to a destroy call (ok, not found,
    anything else, or a rejected call) has no effect on a request: with
    the same behaviour of the database, the response, both documents and
    the log are the same. *)
Theorem image_host_answer_is_ignored (env env' : Env) (req : Request)
    (w : World) :
  saveRejects env = saveRejects env' ->
  run (handle env req) w = run (handle env' req) w.
Proof.
  intros H. destruct req; unfold_route; crunch_eq H.
Qed.

Lemma image_host_answer_is_ignored_witness :
  run (handle (mkEnv false (fun _ => DestroyRejects)) (DeleteProject "proj1"))
      (Sample.admin Sample2.oneProject)
  = run (handle (mkEnv false (fun _ => DestroyNotFound)) (DeleteProject "proj1"))
        (Sample.admin Sample2.oneProject).
Proof.
  apply (image_host_answer_is_ignored
           (mkEnv false (fun _ => DestroyRejects))
           (mkEnv false (fun _ => DestroyNotFound))
           (DeleteProject "proj1") (Sample.admin Sample2.oneProject)).
  reflexivity.
Defined.

(* ================================================================== *)
(** ** The log of a request *)
(* ================================================================== *)

#[local] Transparent assetCalls.


#[local] Opaque assetCalls.





(* ================================================================== *)
(** ** What a request leaves alone *)
(* ================================================================== *)

Ltac report_frame :=
  unfold FrameReport, sameOutside;
  cbn [partOf snd portfolioData isLoggedIn];
  repeat match goal with
         | |- context [match footerInfo ?d with _ => _ end] =>
             destruct (footerInfo d) eqn:?;
             cbn [set_footerInfo footerInfo]
         end;
  repeat split;
  first [ left; reflexivity | right; reflexivity | reflexivity | congruence ].

(** X6: a request changes at most one top-level field of the held
    document, the one its route is about: an update of the carousel
    leaves about, project summary, education, certificates, gallery,
    projects and footer as they were, and so on for every route.  The
    login flag is never changed.  On the routes that reload, the held
    document is taken to agree with the stored one when the request
    arrives: the reload brings back every field as it is stored, and
    the save before it has sent the route's own field only. *)
Theorem request_changes_its_own_field (env : Env) (req : Request)
    (w : World) :
  (reloadsAfterSave req = true -> portfolioData w = stored w) ->
  let w' := snd (run (handle env req) w) in
  sameOutside (partOf req) (portfolioData w) (portfolioData w')
  /\ isLoggedIn w' = isLoggedIn w.
Proof.
  intros _. cbv zeta. change (FrameReport req w (run (handle env req) w)).
  destruct (saveRejects env) eqn:Hs;
    destruct req; unfold_route; crunch_with Hs report_frame.
Qed.

Lemma request_changes_its_own_field_witness :
  let w := Sample.admin Sample2.onePhoto in
  let w' := snd (run (handle Sample.saves (DeleteGalleryPhoto "g1")) w) in
  sameOutside PGallery (portfolioData w) (portfolioData w')
  /\ isLoggedIn w' = isLoggedIn w.
Proof.
  exact (request_changes_its_own_field Sample.saves (DeleteGalleryPhoto "g1")
           (Sample.admin Sample2.onePhoto) (fun _ => eq_refl)).
Defined.

(* ================================================================== *)
(** ** The held document and the stored one *)
(* ================================================================== *)

Ltac report_coherence :=
  unfold CoherenceReport;
  cbn [throwsBeforeSave snd portfolioData stored];
  intros; first [ reflexivity | assumption | congruence ].

Lemma request_keeps_coherence (env : Env) (req : Request) (w : World) :
  CoherenceReport env req w (run (handle env req) w).
Proof.
  destruct (saveRejects env) eqn:Hs;
    destruct req; unfold_route; crunch_with Hs report_coherence.
Qed.

Lemma start_coherent (s : Settings) (env : BootEnv) (database : option Doc)
    (w : World) :
  start s env database = Some w -> portfolioData w = stored w.
Proof.
  unfold start, connectDBAndLoadData.
  destruct (checkSettings s), (connectRejects env), (findRejects env);
    try discriminate.
  destruct database as [data|]; [now intros [= <-]|].
  destruct (seedFile env) as [init|]; [|discriminate].
  destruct (seedSaveRejects env); [discriminate|now intros [= <-]].
Qed.

Lemma login_keeps_documents (adminUsername adminPassword : string)
    (username password : option string) (w : World) :
  let w' := snd (run (login adminUsername adminPassword username password) w) in
  portfolioData w' = portfolioData w /\ stored w' = stored w.
Proof.
  unfold run, login. destruct username, password; cbn; auto.
  destruct (_ && _); cbn; auto.
Qed.

(** X7: once the process has started, the held document stays equal to
    the stored one through any sequence of logins, logouts and admin
    requests in which no save rejects and no update-text arrives without
    its [aboutSkills] field: the pages rendered from the held reference
    show what the database holds. *)
Theorem held_document_follows_store (s : Settings) (boot : BootEnv)
    (database : option Doc) (w0 : World) (adminUsername adminPassword : string)
    (actions : list Action) :
  start s boot database = Some w0 ->
  forallb completes actions = true ->
  let w := serve adminUsername adminPassword actions w0 in
  portfolioData w = stored w.
Proof.
  intros Hstart Hall. apply start_coherent in Hstart. cbv zeta.
  revert w0 Hstart Hall. induction actions as [|a actions IH];
    intros w0 H0 Hall; cbn [serve]; [exact H0|].
  cbn [forallb] in Hall. apply andb_prop in Hall as [Ha Hall].
  apply IH; [|exact Hall].
  destruct a as [env req|u p|]; cbn [act].
  - cbn [completes] in Ha. apply andb_prop in Ha as [Hs Ht].
    apply negb_true_iff in Hs.
    apply (request_keeps_coherence env req w0); auto.
    destruct req; try reflexivity.
    cbn [throwsBeforeSave]. now destruct aboutSkills.
  - destruct (login_keeps_documents adminUsername adminPassword u p w0)
      as [Hd Hst].
    now rewrite Hd, Hst.
  - exact H0.
Qed.

Lemma held_document_follows_store_witness :
  let actions :=
    [LogIn (Some "admin") (Some "secret");
     Mutate Sample.saves (AddProject (Some "Site") (Some "A site") None "1234");
     Mutate Sample.saves
       (UploadProjectImage "proj1234" (File (Sample.hostUrl "Project/a.png")));
     LogOut] in
  let w := serve "admin" "secret" actions
                 (mkWorld false Sample.emptyDoc Sample.emptyDoc []) in
  portfolioData w = stored w
  /\ projects (stored w)
     = [mkProject (IdString "proj1234") (Some "Site") (Some "A site") None
                  [Sample.hostUrl "Project/a.png"]].
Proof.
  intros actions w. split.
  - apply (held_document_follows_store Sample2.settings Sample2.boots None
             (mkWorld false Sample.emptyDoc Sample.emptyDoc [])
             "admin" "secret" actions); reflexivity.
  - vm_compute. reflexivity.
Defined.

(** X8: update-text without the field [aboutSkills] fails half way: the
    summary and the full story are already assigned to the held document
    when the [TypeError] is thrown, nothing is saved and nothing is
    logged, so the held document is ahead of the stored one. *)
Theorem update_text_without_skills (env : Env)
    (aboutSummary aboutFull : option string) (w : World) :
  isLoggedIn w = true ->
  let d := portfolioData w in
  run (update_text env aboutSummary aboutFull None) w
  = (Thrown TypeError,
     mkWorld true
       (set_about (mkAbout aboutSummary aboutFull (about_skills (about d))
                           (about_photoUrl (about d))) d)
       (stored w) (calls w)).
Proof.
  intros H d. unfold_route. rewrite H. mstep. rewrite H. reflexivity.
Qed.

Lemma update_text_without_skills_witness :
  let w := Sample.admin Sample.emptyDoc in
  let res := run (update_text Sample.saves (Some "New") (Some "Story") None) w in
  fst res = Thrown TypeError
  /\ about_summary (about (portfolioData (snd res))) = Some "New"
  /\ stored (snd res) = Sample.emptyDoc.
Proof.
  intros w res. unfold res.
  rewrite (update_text_without_skills Sample.saves (Some "New") (Some "Story")
             w eq_refl).
  repeat split.
Defined.

(* ================================================================== *)
(** ** The list of skills *)
(* ================================================================== *)

Section Trim.

Lemma trimStart_eq (s : string) :
  Js.trimStart s
  = match Js.leadingWhite s with
    | Some r => Js.trimStart r
    | None => s
    end.
Proof.
  destruct s as [|a [|b [|c s]]]; cbn [Js.trimStart Js.leadingWhite];
    try reflexivity.
  - destruct (Js.isWhite a); reflexivity.
  - destruct (Js.isWhite a); [reflexivity|].
    destruct (Js.isWhite2 a b); reflexivity.
  - destruct (Js.isWhite a); [reflexivity|].
    destruct (Js.isWhite2 a b); [reflexivity|].
    destruct (Js.isWhite3 a b c); reflexivity.
Qed.

Lemma leadingWhite_shorter (s r : string) :
  Js.leadingWhite s = Some r -> (String.length r < String.length s)%nat.
Proof.
  destruct s as [|a [|b [|c s]]]; cbn [Js.leadingWhite]; try discriminate.
  - destruct (Js.isWhite a); [|discriminate]. intros [= <-]. cbn. lia.
  - destruct (Js.isWhite a); [intros [= <-]; cbn; lia|].
    destruct (Js.isWhite2 a b); [|discriminate]. intros [= <-]. cbn. lia.
  - destruct (Js.isWhite a); [intros [= <-]; cbn; lia|].
    destruct (Js.isWhite2 a b); [intros [= <-]; cbn; lia|].
    destruct (Js.isWhite3 a b c); [|discriminate]. intros [= <-]. cbn. lia.
Qed.

(** What [trimStart] returns starts with no white-space character. *)
Lemma trimStart_settled (s : string) :
  Js.leadingWhite (Js.trimStart s) = None.
Proof.
  remember (String.length s) as n eqn:Hn.
  revert s Hn. induction n as [n IH] using (well_founded_induction lt_wf).
  intros s ->. rewrite trimStart_eq.
  destruct (Js.leadingWhite s) as [r|] eqn:E; [|exact E].
  apply (IH (String.length r)); [|reflexivity].
  now apply leadingWhite_shorter.
Qed.

Lemma trimStart_fixed (s : string) :
  Js.leadingWhite s = None -> Js.trimStart s = s.
Proof. intros H. rewrite trimStart_eq, H. reflexivity. Qed.

Lemma trimStart_idem (s : string) :
  Js.trimStart (Js.trimStart s) = Js.trimStart s.
Proof. apply trimStart_fixed, trimStart_settled. Qed.

(** A text starts with a white-space character when a prefix of it
    does. *)
Lemma leadingWhite_prefix (t r : string) :
  Js.leadingWhite (t ++ r) = None -> Js.leadingWhite t = None.
Proof.
  destruct t as [|a [|b [|c t]]]; cbn [append Js.leadingWhite];
    [reflexivity| | |].
  - destruct (Js.isWhite a); [discriminate|reflexivity].
  - destruct (Js.isWhite a); [discriminate|].
    destruct (Js.isWhite2 a b); [discriminate|reflexivity].
  - destruct (Js.isWhite a); [discriminate|].
    destruct (Js.isWhite2 a b); [discriminate|].
    destruct (Js.isWhite3 a b c); [discriminate|reflexivity].
Qed.

Lemma trimEnd_cons (c : ascii) (s : string) :
  Js.trimEnd (String c s)
  = if Js.isWhiteChar (String c (Js.trimEnd s)) then EmptyString
    else String c (Js.trimEnd s).
Proof. reflexivity. Qed.

(** [trimEnd] removes characters at the end only. *)
Lemma trimEnd_prefix (s : string) : exists r, s = Js.trimEnd s ++ r.
Proof.
  induction s as [|c s [r IH]]; [now exists EmptyString|].
  rewrite trimEnd_cons.
  destruct (Js.isWhiteChar (String c (Js.trimEnd s))).
  - now exists (String c s).
  - exists r. cbn [append]. now rewrite <- IH.
Qed.

Lemma trimEnd_idem (s : string) : Js.trimEnd (Js.trimEnd s) = Js.trimEnd s.
Proof.
  induction s as [|c s IH]; [reflexivity|]. rewrite trimEnd_cons.
  destruct (Js.isWhiteChar (String c (Js.trimEnd s))) eqn:W; [reflexivity|].
  rewrite trimEnd_cons, IH, W. reflexivity.
Qed.

Lemma trimStart_trimEnd (s : string) :
  Js.leadingWhite s = None -> Js.trimStart (Js.trimEnd s) = Js.trimEnd s.
Proof.
  intros H. apply trimStart_fixed.
  destruct (trimEnd_prefix s) as [r Hr].
  apply (leadingWhite_prefix _ r). now rewrite <- Hr.
Qed.

(** Trimming a trimmed text changes nothing. *)
Lemma trim_idem (s : string) : Js.trim (Js.trim s) = Js.trim s.
Proof.
  unfold Js.trim.
  rewrite (trimStart_trimEnd (Js.trimStart s) (trimStart_settled s)).
  apply trimEnd_idem.
Qed.

End Trim.

(** X9: after update-text with an [aboutSkills] text, whether or not the
    save succeeds, the skills of the held document are the lines of that
    text, trimmed, in their order, without the empty ones: no skill is
    empty and none has white space at either end. *)
Theorem update_text_skills_are_trimmed (env : Env)
    (aboutSummary aboutFull : option string) (text : string) (w : World) :
  isLoggedIn w = true ->
  let skills :=
    about_skills
      (about (portfolioData
                (snd (run (update_text env aboutSummary aboutFull (Some text))
                          w)))) in
  skills = filter (fun s => negb (String.eqb s ""))
                  (map Js.trim (Js.split newline text))
  /\ forall s, In s skills -> s <> "" /\ Js.trim s = s.
Proof.
  intros Hin skills.
  assert (Hnonempty : forall s, (0 <? String.length s)%nat
                                = negb (String.eqb s ""))
    by (intros [|c s]; reflexivity).
  assert (Hskills : skills = filter (fun s => negb (String.eqb s ""))
                               (map Js.trim (Js.split newline text))).
  { subst skills. unfold_route. rewrite Hin. mstep.
    destruct (saveRejects env); mstep; cbn [set_about about about_skills];
      apply filter_ext; intros s; apply Hnonempty. }
  split; [exact Hskills|].
  intros s Hs. rewrite Hskills in Hs. apply filter_In in Hs as [Hs Hne].
  split.
  - intros ->. discriminate Hne.
  - apply in_map_iff in Hs as (x & <- & _). apply trim_idem.
Qed.

(** Three lines: the second is a no-break space and nothing else, the
    third has an ideographic space in front and a no-break space
    behind. *)
Lemma update_text_skills_are_trimmed_witness :
  let text := String.concat (String newline "")
                ["  Rocq "; Sample.nbsp;
                 Sample2.ideographicSpace ++ "OCaml" ++ Sample.nbsp] in
  about_skills
    (about (portfolioData
              (snd (run (update_text Sample.saves None None (Some text))
                        (Sample.admin Sample.emptyDoc)))))
  = ["Rocq"; "OCaml"].
Proof.
  intros text.
  rewrite (proj1 (update_text_skills_are_trimmed Sample.saves None None
                    text (Sample.admin Sample.emptyDoc) eq_refl)).
  reflexivity.
Defined.

(* ================================================================== *)
(** ** Start of the process *)
(* ================================================================== *)

(** X10: the process gets as far as listening only when the six
    settings are all present and not empty and the document is loaded.
    It then holds the stored document, nobody is logged in, and a
    document that was already in the database is the one held and
    stored: the seed file is written only when the database has none. *)
Theorem start_keeps_existing_document (s : Settings) (env : BootEnv)
    (database : option Doc) (w : World) :
  start s env database = Some w ->
  (truthy (ADMIN_USERNAME s) && truthy (ADMIN_PASSWORD s)
   && truthy (MONGO_URI s) && truthy (CLOUDINARY_CLOUD_NAME s)
   && truthy (CLOUDINARY_API_KEY s) && truthy (CLOUDINARY_API_SECRET s)
   = true)
  /\ connectRejects env = false /\ findRejects env = false
  /\ isLoggedIn w = false
  /\ calls w = []
  /\ portfolioData w = stored w
  /\ match database with
     | Some data => stored w = data
     | None => seedFile env = Some (stored w) /\ seedSaveRejects env = false
     end.
Proof.
  unfold start, checkSettings, connectDBAndLoadData.
  destruct (truthy (ADMIN_USERNAME s)), (truthy (ADMIN_PASSWORD s)),
    (truthy (MONGO_URI s)), (truthy (CLOUDINARY_CLOUD_NAME s)),
    (truthy (CLOUDINARY_API_KEY s)), (truthy (CLOUDINARY_API_SECRET s));
    cbn; try discriminate.
  destruct (connectRejects env), (findRejects env); try discriminate.
  destruct database as [data|].
  - intros [= <-]. repeat split.
  - destruct (seedFile env) as [init|]; [|discriminate].
    destruct (seedSaveRejects env); [discriminate|].
    intros [= <-]. repeat split.
Qed.

Lemma start_keeps_existing_document_witness :
  let w := mkWorld false Sample.threeSlides Sample.threeSlides [] in
  start Sample2.settings (mkBootEnv false false (Some Sample.emptyDoc) false)
        (Some Sample.threeSlides) = Some w
  /\ stored w = Sample.threeSlides.
Proof.
  intros w. split; [reflexivity|].
  apply (start_keeps_existing_document Sample2.settings
           (mkBootEnv false false (Some Sample.emptyDoc) false)
           (Some Sample.threeSlides) w eq_refl).
Defined.

(* ================================================================== *)
(** ** Deleting records *)
(* ================================================================== *)

(** X11: deleting a project runs the asset deletion once for each of
    its images, in their order and all before the save, then removes
    that project and no other; when no project has the parameter as its
    [id] nothing is changed and nothing is called. *)
Theorem delete_project_cascades (env : Env) (projectId : string) (w : World) :
  isLoggedIn w = true ->
  let d := portfolioData w in
  let strict := fun p => strictEq (proj_id p) projectId in
  ((forall p, In p (projects d) -> strict p = false) ->
   run (delete_project env projectId) w
   = (Returned (Redirect "/admin#projects"), w))
  /\ (forall i project,
         findIndex strict (projects d) = Z.of_nat i ->
         nth_error (projects d) i = Some project ->
         let d' := set_projects (removeNth i (projects d)) d in
         let log :=
           (calls w
            ++ flat_map (fun u => assetCalls (extractPublicId (Some u)) d)
                        (proj_images project)
            ++ [mkObs Save d'])%list in
         run (delete_project env projectId) w
         = if saveRejects env
           then (Thrown PersistError, mkWorld true d' (stored w) log)
           else (Returned (Redirect "/admin#projects"),
                 mkWorld true d' d' (log ++ [mkObs FindById d']))).
Proof.
  intros Hin d strict. split.
  - intros Hnone. unfold_route. rewrite Hin. mstep. fold d. fold strict.
    rewrite (findIndex_none strict _ Hnone). cbn [Z.eqb negb]. mstep.
    now destruct w.
  - intros i project Hidx Hnth d' log.
    assert (Hlen : (i < length (projects d))%nat)
      by (apply nth_error_Some; congruence).
    unfold_route. rewrite Hin. mstep. fold d. fold strict. rewrite Hidx.
    replace (Z.of_nat i =? -1) with false by (symmetry; apply Z.eqb_neq; lia).
    cbn [negb]. mstep. rewrite at_of_nat, Hnth. mstep.
    rewrite forEach_deleteCloudinaryAsset. mstep. fold d.
    rewrite splice1_of_nat by assumption. fold d'. subst log.
    destruct (saveRejects env); mstep; rewrite ?Hin; norm_log; reflexivity.
Qed.

Lemma delete_project_cascades_witness :
  let d := Sample2.oneProject in
  run (delete_project Sample.saves "proj1") (Sample.admin d)
  = (Returned (Redirect "/admin#projects"),
     mkWorld true Sample.emptyDoc Sample.emptyDoc
       [mkObs (DeleteAsset (Some "portfolio/Project/a")) d;
        mkObs (Destroy "portfolio/Project/a") d;
        mkObs (DeleteAsset (Some "portfolio/Project/b")) d;
        mkObs (Destroy "portfolio/Project/b") d;
        mkObs Save Sample.emptyDoc; mkObs FindById Sample.emptyDoc]).
Proof.
  intros d.
  rewrite (proj2 (delete_project_cascades Sample.saves "proj1"
                    (Sample.admin d) eq_refl)
             0%nat Sample2.site eq_refl eq_refl).
  vm_compute. reflexivity.
Defined.

(** X12: delete-certificate removes the first certificate whose [id]
    loosely equals the parameter, after the asset deletion for its
    [pdfUrl]; it has no positional rule: when no [id] matches, the
    world is left as it was, also for a parameter that is a position
    within the list. *)
Theorem delete_certificate_by_id_only (env : Env) (certId : string)
    (w : World) :
  isLoggedIn w = true ->
  let d := portfolioData w in
  let matches := fun c => looseEq (cert_id c) certId in
  ((forall c, In c (certificates d) -> matches c = false) ->
   run (delete_certificate env certId) w
   = (Returned (Redirect "/admin#certificates"), w))
  /\ ((exists c, In c (certificates d) /\ matches c = true) ->
      exists i cert,
        nth_error (certificates d) i = Some cert
        /\ matches cert = true
        /\ (forall j c, (j < i)%nat -> nth_error (certificates d) j = Some c ->
                        matches c = false)
        /\ let d' := set_certificates (removeNth i (certificates d)) d in
           let log :=
             (calls w ++ assetCalls (extractPublicId (cert_pdfUrl cert)) d
              ++ [mkObs Save d'])%list in
           run (delete_certificate env certId) w
           = if saveRejects env
             then (Thrown PersistError, mkWorld true d' (stored w) log)
             else (Returned (Redirect "/admin#certificates"),
                   mkWorld true d' d' (log ++ [mkObs FindById d']))).
Proof.
  intros Hin d matches. split.
  - intros Hnone. unfold_route. rewrite Hin. mstep. fold d. fold matches.
    rewrite (findIndex_none matches _ Hnone). cbn [Z.eqb negb]. mstep.
    now destruct w.
  - intros Hex.
    destruct (findIndex_first matches (certificates d) Hex)
      as (i & cert & Hidx & Hnth & Hm & Hmin).
    exists i, cert. repeat split; auto.
    assert (Hlen : (i < length (certificates d))%nat)
      by (apply nth_error_Some; congruence).
    unfold_route. rewrite Hin. mstep. fold d. fold matches. rewrite Hidx.
    replace (Z.of_nat i =? -1) with false by (symmetry; apply Z.eqb_neq; lia).
    cbn [negb]. mstep. rewrite at_of_nat, Hnth. mstep.
    rewrite deleteCloudinaryAsset_run. mstep. fold d.
    rewrite splice1_of_nat by assumption.
    destruct (saveRejects env); mstep; rewrite ?Hin; norm_log; reflexivity.
Qed.

(** The certificate has the number 3 as its [id]: "0", its position,
    does not name it; "3" does, and so does a text that [Number] rounds
    to 3. *)
Lemma delete_certificate_by_id_only_witness :
  let d := Sample2.oneCertificate in
  let after := fun certId =>
    certificates
      (portfolioData
         (snd (run (delete_certificate Sample.saves certId)
                   (Sample.admin d)))) in
  run (delete_certificate Sample.saves "0") (Sample.admin d)
  = (Returned (Redirect "/admin#certificates"), Sample.admin d)
  /\ after "3" = []
  /\ after "3.0000000000000001" = [].
Proof.
  intros d after.
  destruct (delete_certificate_by_id_only Sample.saves "0" (Sample.admin d)
              eq_refl) as [Hnone _].
  pose proof (fun certId =>
                proj2 (delete_certificate_by_id_only Sample.saves certId
                         (Sample.admin d) eq_refl)) as Hsome.
  split; [|split].
  - apply Hnone. intros c [<-|[]]. vm_compute. reflexivity.
  - destruct (Hsome "3") as (i & cert & Hn & _ & _ & Hrun).
    + exists Sample2.diploma. split; [now left|vm_compute; reflexivity].
    + cbv zeta in Hrun. unfold after. rewrite Hrun.
      destruct i as [|i]; [reflexivity|]. destruct i; discriminate Hn.
  - destruct (Hsome "3.0000000000000001") as (i & cert & Hn & _ & _ & Hrun).
    + exists Sample2.diploma. split; [now left|vm_compute; reflexivity].
    + cbv zeta in Hrun. unfold after. rewrite Hrun.
      destruct i as [|i]; [reflexivity|]. destruct i; discriminate Hn.
Defined.

(** X13: delete-gallery-photo removes the first photo whose [id] loosely
    equals the parameter, after the asset deletion for its [url], then
    saves and reloads; when no [id] matches, the world is left as it
    was. *)
Theorem delete_gallery_photo_by_id (env : Env) (photoId : string) (w : World) :
  isLoggedIn w = true ->
  let d := portfolioData w in
  let matches := fun p => looseEq (photo_id p) photoId in
  ((forall p, In p (gallery d) -> matches p = false) ->
   run (delete_gallery_photo env photoId) w
   = (Returned (Redirect "/admin#gallery"), w))
  /\ ((exists p, In p (gallery d) /\ matches p = true) ->
      exists i photo,
        nth_error (gallery d) i = Some photo
        /\ matches photo = true
        /\ (forall j p, (j < i)%nat -> nth_error (gallery d) j = Some p ->
                        matches p = false)
        /\ let d' := set_gallery (removeNth i (gallery d)) d in
           let log :=
             (calls w ++ assetCalls (extractPublicId (photo_url photo)) d
              ++ [mkObs Save d'])%list in
           run (delete_gallery_photo env photoId) w
           = if saveRejects env
             then (Thrown PersistError, mkWorld true d' (stored w) log)
             else (Returned (Redirect "/admin#gallery"),
                   mkWorld true d' d' (log ++ [mkObs FindById d']))).
Proof.
  intros Hin d matches. split.
  - intros Hnone. unfold_route. rewrite Hin. mstep. fold d. fold matches.
    rewrite (findIndex_none matches _ Hnone). cbn [Z.eqb negb]. mstep.
    now destruct w.
  - intros Hex.
    destruct (findIndex_first matches (gallery d) Hex)
      as (i & photo & Hidx & Hnth & Hm & Hmin).
    exists i, photo. repeat split; auto.
    assert (Hlen : (i < length (gallery d))%nat)
      by (apply nth_error_Some; congruence).
    unfold_route. rewrite Hin. mstep. fold d. fold matches. rewrite Hidx.
    replace (Z.of_nat i =? -1) with false by (symmetry; apply Z.eqb_neq; lia).
    cbn [negb]. mstep. rewrite at_of_nat, Hnth. mstep.
    rewrite deleteCloudinaryAsset_run. mstep. fold d.
    rewrite splice1_of_nat by assumption.
    destruct (saveRejects env); mstep; rewrite ?Hin; norm_log; reflexivity.
Qed.

(** A photo named by its text [id]; and a photo whose [id] is the number
    2 ^ 53, named by the text of 2 ^ 53 + 1, which [Number] rounds to it,
    also after a no-break space. *)
Lemma delete_gallery_photo_by_id_witness :
  let d := Sample2.onePhoto in
  let after := fun photoId =>
    gallery
      (portfolioData
         (snd (run (delete_gallery_photo Sample.saves photoId)
                   (Sample.admin Sample2.oneSnapshot)))) in
  run (delete_gallery_photo Sample.saves "g1") (Sample.admin d)
  = (Returned (Redirect "/admin#gallery"),
     mkWorld true Sample.emptyDoc Sample.emptyDoc
       [mkObs (DeleteAsset (Some "portfolio/Gallery/p")) d;
        mkObs (Destroy "portfolio/Gallery/p") d;
        mkObs Save Sample.emptyDoc; mkObs FindById Sample.emptyDoc])
  /\ after "9007199254740993" = []
  /\ after (Sample.nbsp ++ "9007199254740993") = []
  /\ run (delete_gallery_photo Sample.saves "9007199254740995")
         (Sample.admin Sample2.oneSnapshot)
     = (Returned (Redirect "/admin#gallery"),
        Sample.admin Sample2.oneSnapshot).
Proof.
  intros d after.
  pose proof (fun photoId =>
                proj2 (delete_gallery_photo_by_id Sample.saves photoId
                         (Sample.admin Sample2.oneSnapshot) eq_refl))
    as Hsome.
  split; [|split; [|split]].
  - destruct (proj2 (delete_gallery_photo_by_id Sample.saves "g1"
                       (Sample.admin d) eq_refl))
      as (i & photo & Hn & _ & _ & Hrun).
    + exists Sample2.portrait. split; [now left|reflexivity].
    + cbv zeta in Hrun. rewrite Hrun.
      destruct i as [|i]; [|destruct i; discriminate Hn].
      injection Hn as <-. vm_compute. reflexivity.
  - destruct (Hsome "9007199254740993") as (i & photo & Hn & _ & _ & Hrun).
    + exists Sample2.snapshot. split; [now left|vm_compute; reflexivity].
    + cbv zeta in Hrun. unfold after. rewrite Hrun.
      destruct i as [|i]; [reflexivity|]. destruct i; discriminate Hn.
  - destruct (Hsome (Sample.nbsp ++ "9007199254740993"))
      as (i & photo & Hn & _ & _ & Hrun).
    + exists Sample2.snapshot. split; [now left|vm_compute; reflexivity].
    + cbv zeta in Hrun. unfold after. rewrite Hrun.
      destruct i as [|i]; [reflexivity|]. destruct i; discriminate Hn.
  - apply (proj1 (delete_gallery_photo_by_id Sample.saves "9007199254740995"
                    (Sample.admin Sample2.oneSnapshot) eq_refl)).
    intros p [<-|[]]. vm_compute. reflexivity.
Defined.

(* ================================================================== *)
(** ** Adding and then removing *)
(* ================================================================== *)

Section LastElement.
Context {A : Type} (p : A -> bool).

Lemma findIndex_bounds (l : list A) :
  findIndex p l = -1 \/ 0 <= findIndex p l < Z.of_nat (length l).
Proof.
  induction l as [|a l IH]; [now left|]. cbn [findIndex length].
  destruct (p a); [right; lia|].
  destruct IH as [->|IH]; [now left|].
  right. replace (findIndex p l =? -1) with false
    by (symmetry; apply Z.eqb_neq; lia). lia.
Qed.





End LastElement.







(** X16: the three routes that create a record from an uploaded file
    create nothing when the request carries no file, and redirect; with
    a file, and for add-project always, exactly one record is appended at
    the end of its list, with the generated identifier, and the records
    that were there keep their places.  A new project has the identifier
    "proj" followed by the generated one, and no image. *)
Theorem records_are_appended (env : Env) (w : World) :
  isLoggedIn w = true ->
  let d := portfolioData w in
  (forall title issuer newId,
      run (upload_certificate env NoFile title issuer newId) w
      = (Returned (Redirect "/admin#certificates"), w))
  /\ (forall caption newId,
         run (upload_gallery env NoFile caption newId) w
         = (Returned (Redirect "/admin#gallery"), w))
  /\ (forall title institution years newId,
         run (add_education env NoFile title institution years newId) w
         = (Returned (Redirect "/admin#general"), w))
  /\ (forall path title issuer newId,
         portfolioData
           (snd (run (upload_certificate env (File path) title issuer newId) w))
         = set_certificates
             (certificates d
              ++ [mkCertificate (IdString newId) title issuer (Some path)]) d)
  /\ (forall path caption newId,
         portfolioData (snd (run (upload_gallery env (File path) caption newId) w))
         = set_gallery
             (gallery d ++ [mkPhoto (IdString newId) (Some path) caption]) d)
  /\ (forall path title institution years newId,
         portfolioData
           (snd (run (add_education env (File path) title institution years
                        newId) w))
         = set_education
             (education d
              ++ [mkEducation (IdString newId) (Some path) title institution
                              years]) d)
  /\ (forall title description githubLink uuid,
         portfolioData
           (snd (run (add_project env title description githubLink uuid) w))
         = set_projects
             (projects d
              ++ [mkProject (IdString ("proj" ++ uuid)) title description
                            githubLink []]) d).
Proof.
  intros Hin d. repeat split; intros; unfold_route; rewrite Hin; mstep;
    try (now destruct w);
    destruct (saveRejects env); mstep; reflexivity.
Qed.

Lemma records_are_appended_witness :
  certificates
    (portfolioData
       (snd (run (upload_certificate Sample.saves
                    (File (Sample.hostUrl "Pdf/new.pdf")) (Some "New")
                    (Some "School") "c2")
                 (Sample.admin Sample2.oneCertificate))))
  = [Sample2.diploma;
     mkCertificate (IdString "c2") (Some "New") (Some "School")
                   (Some (Sample.hostUrl "Pdf/new.pdf"))].
Proof.
  destruct (records_are_appended Sample.saves
              (Sample.admin Sample2.oneCertificate) eq_refl)
    as (_ & _ & _ & H & _).
  rewrite H. reflexivity.
Defined.

(* ================================================================== *)
(** ** Where an identifier comes from *)
(* ================================================================== *)

(** The last [c] of a text splits it into what precedes it and a rest
    without [c]. *)
Lemma lastIndexOf_split (c : ascii) (s : string) :
  0 <= Js.lastIndexOf c s ->
  exists a b,
    s = (a ++ String c b)%string
    /\ Js.lastIndexOf c b = -1
    /\ Js.lastIndexOf c s = Z.of_nat (String.length a).
Proof.
  induction s as [|x s IH]; cbn [Js.lastIndexOf]; [lia|].
  pose proof (lastIndexOf_bounds c s) as Hb.
  destruct (0 <=? Js.lastIndexOf c s) eqn:E.
  - apply Z.leb_le in E. destruct (IH E) as (a & b & -> & Hb' & Hk).
    intros _. exists (String x a), b. repeat split; auto.
    rewrite Hk. cbn [String.length]. lia.
  - apply Z.leb_gt in E. destruct (Ascii.eqb_spec x c) as [->|Hx]; [|lia].
    intros _. exists ""%string, s. repeat split. lia.
Qed.

(** X17: an identifier is derived only from a URL that contains
    "cloudinary.com" and "/upload/".  It is then the part, in front of
    the last "." of the text captured after the marker, of that text, so
    it never contains the extension; when the captured text has no "."
    at all the identifier is the empty text. *)
Theorem extractPublicId_sound (fileUrl : option string) (publicId : string) :
  extractPublicId fileUrl = Some publicId ->
  exists u captured,
    fileUrl = Some u
    /\ Js.includes "cloudinary.com" u = true
    /\ Js.includes "/upload/" u = true
    /\ matchUpload u = Some captured
    /\ ((exists ext, captured = (publicId ++ "." ++ ext)%string
                     /\ Js.lastIndexOf "." ext = -1)
        \/ (publicId = ""%string /\ captured <> ""%string
            /\ Js.lastIndexOf "." captured = -1)).
Proof.
  unfold extractPublicId. destruct fileUrl as [u|]; [|discriminate].
  destruct (String.eqb u "") eqn:Hu; [discriminate|].
  destruct (Js.includes "cloudinary.com" u) eqn:Hhost; [|discriminate].
  cbn [negb orb].
  destruct (matchUpload u) as [captured|] eqn:Hm; [|discriminate].
  destruct (String.eqb_spec captured "") as [->|Hc]; [discriminate|].
  intros [= <-]. exists u, captured. repeat split; auto.
  - unfold matchUpload in Hm. unfold Js.includes.
    now destruct (Js.afterFirst "/upload/" u).
  - pose proof (lastIndexOf_bounds "." captured) as Hb.
    destruct (Z_le_gt_dec 0 (Js.lastIndexOf "." captured)) as [Hk|Hk].
    + left. destruct (lastIndexOf_split "." captured Hk)
        as (a & b & -> & Hb' & Hidx).
      exists b. rewrite Hidx, substring_prefix. auto.
    + right. replace (Js.lastIndexOf "." captured) with (-1) by lia.
      repeat split; auto.
      unfold Js.substring, Js.clampIndex.
      rewrite Z.max_l by lia. rewrite Z.min_l by lia.
      rewrite (Z.max_l 0 (-1)) by lia. rewrite Z.min_l by lia.
      reflexivity.
Qed.

Lemma extractPublicId_sound_witness :
  exists u captured,
    Some (Sample.hostUrl "Gallery/my.photo.png") = Some u
    /\ Js.includes "cloudinary.com" u = true
    /\ Js.includes "/upload/" u = true
    /\ matchUpload u = Some captured
    /\ ((exists ext,
            captured = ("portfolio/Gallery/my.photo" ++ "." ++ ext)%string
            /\ Js.lastIndexOf "." ext = -1)
        \/ ("portfolio/Gallery/my.photo" = ""%string /\ captured <> ""%string
            /\ Js.lastIndexOf "." captured = -1)).
Proof.
  apply (extractPublicId_sound (Some (Sample.hostUrl "Gallery/my.photo.png"))
           "portfolio/Gallery/my.photo").
  reflexivity.
Defined.

(** X18: a URL of the image host whose text after the marker has no "."
    gets the empty identifier, with which the asset deletion returns
    without calling the host: the file of such a URL is never destroyed,
    while the record that points to it is removed all the same. *)
Theorem url_without_extension_is_not_destroyed (env : Env) (u captured : string)
    (w : World) :
  Js.includes "cloudinary.com" u = true ->
  matchUpload u = Some captured ->
  captured <> ""%string ->
  Js.lastIndexOf "." captured = -1 ->
  extractPublicId (Some u) = Some ""%string
  /\ run (deleteCloudinaryAsset env (extractPublicId (Some u))) w
     = (Returned tt,
        mkWorld (isLoggedIn w) (portfolioData w) (stored w)
          (calls w ++ [mkObs (DeleteAsset (Some ""%string)) (portfolioData w)])).
Proof.
  intros Hhost Hm Hc Hdot.
  assert (Hid : extractPublicId (Some u) = Some ""%string).
  { unfold extractPublicId.
    rewrite (includes_nonempty "cloudinary.com" u) by (discriminate || exact Hhost).
    rewrite Hhost, Hm. cbn [negb orb].
    apply String.eqb_neq in Hc. rewrite Hc, Hdot.
    unfold Js.substring, Js.clampIndex.
    rewrite Z.max_l by lia. rewrite Z.min_l by lia.
    rewrite (Z.max_l 0 (-1)) by lia. rewrite Z.min_l by lia.
    reflexivity. }
  split; [exact Hid|].
  rewrite Hid. unfold run. rewrite deleteCloudinaryAsset_run.
  now rewrite (assetCalls_no_identifier (Some ""%string) _
                 (or_intror eq_refl)).
Qed.

Lemma url_without_extension_is_not_destroyed_witness :
  extractPublicId (Some (Sample.hostUrl "Pdf/diploma")) = Some ""%string
  /\ calls (snd (run (delete_certificate Sample.saves "3")
                     (Sample.admin
                        (set_certificates
                           [mkCertificate (IdNumber 3) None None
                              (Some (Sample.hostUrl "Pdf/diploma"))]
                           Sample.emptyDoc))))
     = [mkObs (DeleteAsset (Some ""%string))
          (set_certificates
             [mkCertificate (IdNumber 3) None None
                (Some (Sample.hostUrl "Pdf/diploma"))] Sample.emptyDoc);
        mkObs Save Sample.emptyDoc; mkObs FindById Sample.emptyDoc].
Proof.
  split.
  - apply (url_without_extension_is_not_destroyed Sample.saves
             (Sample.hostUrl "Pdf/diploma") "portfolio/Pdf/diploma"
             (Sample.admin Sample.emptyDoc));
      solve [reflexivity | discriminate].
  - vm_compute. reflexivity.
Defined.

(* ================================================================== *)
(** ** The footer *)
(* ================================================================== *)

(** X19: update-footer replaces the seven fields of the footer, creating
    the footer when the document has none, and answers with the same
    redirect whether its save succeeds or rejects; a rejected save leaves
    the stored document as it was while the held one has the new
    footer. *)
Theorem update_footer_always_redirects (env : Env)
    (name line1 line2 githubLink emailLink phoneLink linkedinLink
       : option string) (w : World) :
  isLoggedIn w = true ->
  let d' := set_footerInfo
              (Some (mkFooterInfo name line1 line2 githubLink emailLink
                                  phoneLink linkedinLink))
              (portfolioData w) in
  run (update_footer env name line1 line2 githubLink emailLink phoneLink
         linkedinLink) w
  = (Returned (Redirect "/admin#general"),
     mkWorld true d' (if saveRejects env then stored w else d')
             (calls w ++ [mkObs Save d'])).
Proof.
  intros Hin d'. unfold_route. rewrite Hin. mstep.
  destruct (footerInfo (portfolioData w)) eqn:Hf;
    cbn [set_footerInfo footerInfo]; rewrite ?Hf;
    destruct (saveRejects env); mstep; rewrite ?Hin;
    cbn [set_footerInfo footerInfo carousel about projectSummary education
           certificates gallery projects]; reflexivity.
Qed.

Lemma update_footer_always_redirects_witness :
  fst (run (handle Sample.saveFails Sample.footerRequest)
           (Sample.admin Sample.threeSlides))
  = Returned (Redirect "/admin#general")
  /\ fst (run (handle Sample.saves Sample.footerRequest)
              (Sample.admin Sample.threeSlides))
     = Returned (Redirect "/admin#general").
Proof.
  unfold Sample.footerRequest, handle. split.
  - rewrite (update_footer_always_redirects Sample.saveFails _ _ _ _ _ _ _
               (Sample.admin Sample.threeSlides) eq_refl). reflexivity.
  - rewrite (update_footer_always_redirects Sample.saves _ _ _ _ _ _ _
               (Sample.admin Sample.threeSlides) eq_refl). reflexivity.
Defined.

(* ================================================================== *)
(** ** The hero carousel of the public pages *)
(* ================================================================== *)

Section CarouselFacts.
Import Page.

Lemma map_false (l : list bool) :
  map (fun _ => false) l = repeat false (length l).
Proof. induction l as [|b l IH]; [reflexivity|]. cbn. now rewrite IH. Qed.

Lemma length_updateNth {A} (n : nat) (f : A -> A) (l : list A) :
  length (updateNth n f l) = length l.
Proof.
  revert n; induction l as [|x l IH]; intros [|n]; cbn; auto.
Qed.

Lemma nth_error_updateNth {A} (n k : nat) (f : A -> A) (l : list A) :
  nth_error (updateNth n f l) k
  = if (k =? n)%nat then option_map f (nth_error l k) else nth_error l k.
Proof.
  revert n k; induction l as [|x l IH]; intros [|n] [|k]; cbn; auto.
  now destruct (k =? n)%nat.
Qed.

(** [showSlide] looks at the number of slides only. *)
Lemma showSlide_length_only (i : Z) (l l' : list bool) :
  length l = length l' -> showSlide i l = showSlide i l'.
Proof. intros H. unfold showSlide. now rewrite !map_false, H. Qed.

Lemma length_showSlide (i : Z) (l : list bool) :
  length (showSlide i l) = length l.
Proof.
  unfold showSlide. destruct (at_ _ i);
    rewrite ?length_updateNth; apply length_map.
Qed.

(** After [showSlide(i)] the slide at position [k] is active exactly
    when [k] is [i]. *)
Lemma showSlide_nth (i : Z) (l : list bool) (k : nat) :
  (k < length l)%nat ->
  nth_error (showSlide i l) k = Some (Z.of_nat k =? i).
Proof.
  intros Hk. unfold showSlide, at_. rewrite map_false.
  assert (Hrep : nth_error (repeat false (length l)) k = Some false)
    by (rewrite nth_error_repeat; auto).
  destruct (i <? 0) eqn:Hneg.
  - apply Z.ltb_lt in Hneg. rewrite Hrep.
    replace (Z.of_nat k =? i) with false by (symmetry; apply Z.eqb_neq; lia).
    reflexivity.
  - apply Z.ltb_ge in Hneg.
    destruct (nth_error (repeat false (length l)) (Z.to_nat i)) eqn:E.
    + rewrite nth_error_updateNth, Hrep.
      destruct (Nat.eqb_spec k (Z.to_nat i)) as [->|Hne]; cbn.
      * rewrite Z2Nat.id by lia. now rewrite Z.eqb_refl.
      * replace (Z.of_nat k =? i) with false
          by (symmetry; apply Z.eqb_neq; lia).
        reflexivity.
    + apply nth_error_None in E. rewrite repeat_length in E. rewrite Hrep.
      replace (Z.of_nat k =? i) with false by (symmetry; apply Z.eqb_neq; lia).
      reflexivity.
Qed.

Lemma nextIndex_range (n i : Z) :
  0 <= i < n -> 0 <= nextIndex n i < n.
Proof.
  intros H. unfold nextIndex. rewrite Z.rem_mod_nonneg by lia.
  apply Z.mod_pos_bound. lia.
Qed.

Lemma prevIndex_range (n i : Z) :
  0 <= i < n -> 0 <= prevIndex n i < n.
Proof.
  intros H. unfold prevIndex. rewrite Z.rem_mod_nonneg by lia.
  apply Z.mod_pos_bound. lia.
Qed.

Lemma prev_next (n i : Z) : 0 <= i < n -> prevIndex n (nextIndex n i) = i.
Proof.
  intros H. unfold prevIndex, nextIndex.
  rewrite (Z.rem_mod_nonneg (i + 1)) by lia.
  destruct (Z.eq_dec (i + 1) n) as [E|E].
  - rewrite E, Z_mod_same_full. rewrite Z.rem_mod_nonneg by lia.
    replace (0 - 1 + n) with i by lia. apply Z.mod_small. lia.
  - rewrite (Z.mod_small (i + 1)) by lia. rewrite Z.rem_mod_nonneg by lia.
    replace (i + 1 - 1 + n) with (i + 1 * n) by lia.
    rewrite Z_mod_plus_full. apply Z.mod_small. lia.
Qed.

Lemma next_prev (n i : Z) : 0 <= i < n -> nextIndex n (prevIndex n i) = i.
Proof.
  intros H. unfold prevIndex, nextIndex.
  rewrite (Z.rem_mod_nonneg (i - 1 + n)) by lia.
  destruct (Z.eq_dec i 0) as [->|E].
  - replace (0 - 1 + n) with (n - 1) by lia.
    rewrite (Z.mod_small (n - 1)) by lia.
    replace (n - 1 + 1) with n by lia.
    rewrite Z.rem_mod_nonneg by lia. apply Z_mod_same_full.
  - replace (i - 1 + n) with (i - 1 + 1 * n) by lia.
    rewrite Z_mod_plus_full. rewrite (Z.mod_small (i - 1)) by lia.
    replace (i - 1 + 1) with i by lia.
    rewrite Z.rem_mod_nonneg by lia. apply Z.mod_small. lia.
Qed.

Lemma init_settled (l : list bool) (hasPrev hasNext : bool) :
  Settled (init l hasPrev hasNext).
Proof.
  unfold Settled, init. cbn [slides currentSlide wired]. repeat split.
  - apply showSlide_length_only. symmetry. apply length_showSlide.
  - lia.
  - intros H. apply andb_prop in H as [_ H]. apply Z.ltb_lt in H.
    now rewrite length_showSlide.
Qed.

Lemma on_settled (e : Event) (c : Carousel) : Settled c -> Settled (on e c).
Proof.
  intros (Hs & H0 & Hw & Hu). unfold on.
  destruct (wired c) eqn:W; [|repeat split; auto; congruence].
  specialize (Hw eq_refl).
  set (n := Z.of_nat (length (slides c))) in *.
  assert (Hr : 0 <= match e with
                    | Next | Tick => nextIndex n (currentSlide c)
                    | Prev => prevIndex n (currentSlide c)
                    end < n)
    by (destruct e; [apply nextIndex_range|apply prevIndex_range
                    |apply nextIndex_range]; lia).
  unfold Settled. cbn [slides currentSlide wired]. repeat split; try lia.
  - apply showSlide_length_only. symmetry. apply length_showSlide.
  - intros _. rewrite length_showSlide. fold n. lia.
Qed.

Lemma play_settled (es : list Event) (c : Carousel) :
  Settled c -> Settled (play es c).
Proof.
  revert c; induction es as [|e es IH]; intros c H; cbn [play]; auto.
  apply IH, on_settled, H.
Qed.

Lemma length_on (e : Event) (c : Carousel) :
  length (slides (on e c)) = length (slides c).
Proof.
  unfold on. destruct (wired c); [|reflexivity].
  cbn [slides]. apply length_showSlide.
Qed.

Lemma length_play (es : list Event) (c : Carousel) :
  length (slides (play es c)) = length (slides c).
Proof.
  revert c; induction es as [|e es IH]; intros c; cbn [play]; auto.
  now rewrite IH, length_on.
Qed.

End CarouselFacts.

(** X20: whatever classes the slides have in the page and whatever
    sequence of clicks and timer ticks follows, the hero carousel keeps
    its number of slides, its current index stays within them, and the
    slide at the current index is the one and only slide marked
    active. *)
Theorem carousel_shows_one_slide (l : list bool) (hasPrev hasNext : bool)
    (es : list Page.Event) :
  let c := Page.play es (Page.init l hasPrev hasNext) in
  length (Page.slides c) = length l
  /\ 0 <= Page.currentSlide c
  /\ (l <> [] -> Page.currentSlide c < Z.of_nat (length l))
  /\ forall k, (k < length l)%nat ->
               nth_error (Page.slides c) k
               = Some (Z.of_nat k =? Page.currentSlide c).
Proof.
  cbv zeta.
  pose proof (play_settled es _ (init_settled l hasPrev hasNext))
    as (Hs & H0 & Hw & Hu).
  assert (Hlen : length (Page.slides
                           (Page.play es (Page.init l hasPrev hasNext)))
                 = length l).
  { rewrite length_play. unfold Page.init. cbn [Page.slides].
    apply length_showSlide. }
  repeat split; auto.
  - intros Hne.
    destruct (Page.wired (Page.play es (Page.init l hasPrev hasNext))) eqn:W.
    + rewrite <- Hlen. now apply Hw.
    + rewrite (Hu eq_refl). destruct l; [congruence|]. cbn. lia.
  - intros k Hk. rewrite Hs. apply showSlide_nth. now rewrite Hlen.
Qed.

(** X21: on the hero carousel a click on "previous" undoes a click on
    "next" and a click on "next" undoes a click on "previous": after
    either pair the index and the marks of the slides are what they were.
    A timer tick does what a click on "next" does. *)
Theorem carousel_next_and_prev_cancel (l : list bool) (hasPrev hasNext : bool)
    (es : list Page.Event) :
  let c := Page.play es (Page.init l hasPrev hasNext) in
  Page.on Page.Prev (Page.on Page.Next c) = c
  /\ Page.on Page.Next (Page.on Page.Prev c) = c
  /\ Page.on Page.Tick c = Page.on Page.Next c.
Proof.
  cbv zeta.
  pose proof (play_settled es _ (init_settled l hasPrev hasNext))
    as (Hs & H0 & Hw & Hu).
  set (c := Page.play es (Page.init l hasPrev hasNext)) in *.
  destruct c as [sl cur wd]. cbn [Page.slides Page.currentSlide Page.wired] in *.
  unfold Page.on. cbn [Page.wired Page.slides Page.currentSlide].
  destruct wd; [|repeat split; reflexivity].
  specialize (Hw eq_refl). cbn [Page.wired Page.slides Page.currentSlide].
  rewrite !length_showSlide.
  rewrite prev_next, next_prev by lia.
  rewrite !(showSlide_length_only cur (Page.showSlide _ sl) sl)
    by apply length_showSlide.
  rewrite <- Hs. repeat split; reflexivity.
Qed.

Lemma play_unwired (es : list Page.Event) (c : Page.Carousel) :
  Page.wired c = false -> Page.play es c = c.
Proof.
  intros H. induction es as [|e es IH]; [reflexivity|].
  cbn [Page.play]. unfold Page.on. now rewrite H.
Qed.

(** The carousel after [k] more clicks on "next". *)
Lemma play_next_steps (k : nat) (sl : list bool) (cur : Z) :
  0 <= cur < Z.of_nat (length sl) ->
  Page.play (repeat Page.Next (S k)) (Page.mkCarousel sl cur true)
  = let i := (cur + Z.of_nat (S k)) mod Z.of_nat (length sl) in
    Page.mkCarousel (Page.showSlide i sl) i true.
Proof.
  revert sl cur. induction k as [|k IH]; intros sl cur Hc.
  - cbn [repeat Page.play]. unfold Page.on.
    cbn [Page.wired Page.slides Page.currentSlide]. unfold Page.nextIndex.
    rewrite Z.rem_mod_nonneg by lia. reflexivity.
  - change (repeat Page.Next (S (S k)))
      with (Page.Next :: repeat Page.Next (S k)).
    cbn [Page.play]. unfold Page.on.
    cbn [Page.wired Page.slides Page.currentSlide].
    set (n := Z.of_nat (length sl)) in *.
    pose proof (nextIndex_range n cur Hc) as Hn.
    rewrite IH by (rewrite length_showSlide; fold n; exact Hn).
    rewrite length_showSlide. fold n. cbv zeta.
    assert (Hi : (Page.nextIndex n cur + Z.of_nat (S k)) mod n
                 = (cur + Z.of_nat (S (S k))) mod n).
    { unfold Page.nextIndex. rewrite Z.rem_mod_nonneg by lia.
      rewrite Zplus_mod_idemp_l. f_equal. lia. }
    rewrite Hi. f_equal.
    apply showSlide_length_only, length_showSlide.
Qed.

(** X22: as many clicks on "next" (or timer ticks) as there are slides
    bring the hero carousel back to the slide it was on. *)
Theorem carousel_full_turn (l : list bool) (hasPrev hasNext : bool)
    (es : list Page.Event) :
  let c := Page.play es (Page.init l hasPrev hasNext) in
  Page.play (repeat Page.Next (length l)) c = c
  /\ Page.play (repeat Page.Tick (length l)) c = c.
Proof.
  cbv zeta.
  pose proof (play_settled es _ (init_settled l hasPrev hasNext))
    as (Hs & H0 & Hw & Hu).
  pose proof (length_play es (Page.init l hasPrev hasNext)) as Hlen.
  unfold Page.init at 2 in Hlen. cbn [Page.slides] in Hlen.
  rewrite length_showSlide in Hlen.
  set (c := Page.play es (Page.init l hasPrev hasNext)) in *.
  assert (Htick : forall k c0, Page.play (repeat Page.Tick k) c0
                               = Page.play (repeat Page.Next k) c0).
  { induction k as [|k IH]; intros c0; [reflexivity|].
    cbn [repeat Page.play]. rewrite IH. reflexivity. }
  rewrite Htick. assert (Hnext : Page.play (repeat Page.Next (length l)) c = c);
    [|split; exact Hnext].
  destruct (Page.wired c) eqn:W; [|now apply play_unwired].
  specialize (Hw eq_refl).
  destruct c as [sl cur wd]. cbn [Page.slides Page.currentSlide Page.wired] in *.
  subst wd. rewrite <- Hlen.
  destruct (length sl) as [|k] eqn:E; [cbn in Hw; lia|].
  rewrite <- E in *. rewrite E at 1.
  rewrite play_next_steps by lia. cbv zeta. rewrite E at 1. rewrite <- E.
  assert (Hi : (cur + Z.of_nat (length sl)) mod Z.of_nat (length sl) = cur).
  { replace (cur + Z.of_nat (length sl))
      with (cur + 1 * Z.of_nat (length sl)) by lia.
    rewrite Z_mod_plus_full. apply Z.mod_small. lia. }
  rewrite Hi, <- Hs. reflexivity.
Qed.

(* ================================================================== *)
(** ** Links that scroll within the page *)
(* ================================================================== *)

Section Fragments.
Variable c : ascii.

Lemma split_nonempty (s : string) : Js.split c s <> [].
Proof.
  induction s as [|a s IH]; cbn [Js.split]; [discriminate|].
  destruct (Js.split c s); [discriminate|].
  destruct (Ascii.eqb a c); discriminate.
Qed.

Lemma pop_cons (x y : string) (l : list string) :
  Page.pop (x :: y :: l) = Page.pop (y :: l).
Proof. reflexivity. Qed.

(** The last piece of a split is the text after the last separator, or
    the whole text when it has none. *)
Lemma pop_split (s : string) :
  exists last,
    Page.pop (Js.split c s) = Some last
    /\ Js.lastIndexOf c last = -1
    /\ ((Js.split c s = [last] /\ s = last)
        \/ ((2 <= length (Js.split c s))%nat
            /\ exists pre, s = (pre ++ String c last)%string)).
Proof.
  induction s as [|a s (last & Hpop & Hno & Hs)].
  - exists ""%string. repeat split. now left.
  - cbn [Js.split]. destruct Hs as [[E ->]|[Hlen (pre & ->)]].
    + rewrite E. destruct (Ascii.eqb_spec a c) as [->|Ha].
      * exists last. repeat split; auto. right. split; [cbn; lia|].
        now exists ""%string.
      * exists (String a last). repeat split.
        -- cbn [Js.lastIndexOf]. rewrite Hno. cbn.
           apply Ascii.eqb_neq in Ha. now rewrite Ha.
        -- now left.
    + destruct (Js.split c (pre ++ String c last)) as [|x [|y ys]];
        cbn [length] in Hlen; try lia.
      rewrite pop_cons in Hpop.
      destruct (Ascii.eqb a c); rewrite ?pop_cons; exists last;
        (repeat split; auto); right; (split; [cbn; lia|]);
        now exists (String a pre).
Qed.
End Fragments.

Lemma startsWith_includes (p s : string) :
  Js.startsWith p s = true -> Js.includes p s = true.
Proof.
  intros H. unfold Js.includes. rewrite afterFirst_unfold, H. reflexivity.
Qed.

Lemma no_separator_not_included (c : ascii) (s : string) :
  Js.lastIndexOf c s = -1 -> Js.includes (String c "") s = false.
Proof.
  unfold Js.includes. induction s as [|a s IH]; [reflexivity|].
  cbn [Js.lastIndexOf]. pose proof (lastIndexOf_bounds c s) as Hb.
  destruct (0 <=? Js.lastIndexOf c s) eqn:E.
  - apply Z.leb_le in E. lia.
  - apply Z.leb_gt in E. destruct (Ascii.eqb_spec a c) as [->|Ha]; [lia|].
    intros _. rewrite afterFirst_unfold. cbn [Js.startsWith].
    replace (Ascii.eqb c a) with false
      by (symmetry; apply Ascii.eqb_neq; congruence).
    cbn [andb]. apply IH. lia.
Qed.

Lemma includes_separator (c : ascii) (pre rest : string) :
  Js.includes (String c "") (pre ++ String c rest) = true.
Proof.
  unfold Js.includes. induction pre as [|a pre IH]; cbn [append].
  - rewrite afterFirst_unfold. cbn [Js.startsWith].
    now rewrite Ascii.eqb_refl.
  - rewrite afterFirst_unfold.
    destruct (Js.startsWith (String c "") (String a (pre ++ String c rest)));
      [reflexivity|exact IH].
Qed.

(** X23: the click handler of a link goes on to look up a target only
    for an address that starts with "#" or with "/"; the target is then
    "#" followed by the text after the last "#" of the address, which is
    not empty and has no "#" in it.  Addresses that end in "#" and
    addresses of other sites are left to the browser. *)
Theorem anchor_target_is_last_fragment (fullHref : string) :
  (forall target,
      Page.anchorTarget fullHref = Some target ->
      (Js.startsWith "#" fullHref = true \/ Js.startsWith "/" fullHref = true)
      /\ exists pre fragment,
          fullHref = (pre ++ "#" ++ fragment)%string
          /\ target = ("#" ++ fragment)%string
          /\ fragment <> ""%string
          /\ Js.lastIndexOf "#" fragment = -1)
  /\ (Js.startsWith "#" fullHref = false ->
      Js.startsWith "/" fullHref = false ->
      Page.anchorTarget fullHref = None)
  /\ (forall pre, fullHref = (pre ++ "#")%string ->
                  Page.anchorTarget fullHref = None).
Proof.
  destruct (pop_split "#" fullHref) as (last & Hpop & Hno & Hs).
  repeat split.
  - unfold Page.anchorTarget in H.
    destruct (Js.startsWith "#" fullHref); [now left|].
    destruct (Js.startsWith "/" fullHref); [now right|discriminate].
  - unfold Page.anchorTarget in H.
    destruct (Js.startsWith "#" fullHref
              || Js.startsWith "/" fullHref && Js.includes "#" fullHref)
      eqn:Hint; [|discriminate].
    assert (Hinc : Js.includes "#" fullHref = true).
    { destruct (Js.startsWith "#" fullHref) eqn:E1;
        [now apply startsWith_includes|].
      cbn [orb] in Hint. now apply andb_prop in Hint. }
    cbn [negb] in H. rewrite Hinc, Hpop in H.
    destruct Hs as [[_ ->]|[_ (pre & ->)]].
    + rewrite (no_separator_not_included "#" last Hno) in Hinc.
      discriminate.
    + exists pre, last.
      destruct (String.eqb_spec ("#" ++ last) "#") as [E|E]; [discriminate|].
      injection H as <-. repeat split; auto.
      intros ->. now apply E.
  - intros H1 H2. unfold Page.anchorTarget. now rewrite H1, H2.
  - intros pre ->. unfold Page.anchorTarget.
    destruct (_ || _); [|reflexivity]. cbn [negb].
    rewrite (includes_separator "#" pre ""), Hpop.
    pose proof (lastIndexOf_extension "#" pre "" eq_refl) as Hk.
    destruct Hs as [[_ E]|[_ (pre' & E)]].
    + rewrite E, Hno in Hk. lia.
    + assert (last = ""%string) as ->; [|reflexivity].
      pose proof (lastIndexOf_extension "#" pre' last Hno) as Hk'.
      rewrite <- E, Hk in Hk'.
      apply (f_equal String.length) in E.
      rewrite !length_append in E. cbn [String.length] in E.
      destruct last; [reflexivity|cbn [String.length] in E; lia].
Qed.

Lemma anchor_target_is_last_fragment_witness :
  exists pre fragment,
    "/projects#one#two"%string = (pre ++ "#" ++ fragment)%string
    /\ "#two"%string = ("#" ++ fragment)%string
    /\ fragment <> ""%string
    /\ Js.lastIndexOf "#" fragment = -1.
Proof.
  apply (proj1 (anchor_target_is_last_fragment "/projects#one#two") "#two").
  reflexivity.
Defined.

(* ================================================================== *)
(** ** Requests that leave the assets alone *)
(* ================================================================== *)

Section SameReferences.
Context {A : Type} (g : A -> list string) (f : A -> A).
Hypothesis Hg : forall x, g (f x) = g x.

Lemma flat_map_updateNth_same (n : nat) (l : list A) :
  flat_map g (updateNth n f l) = flat_map g l.
Proof.
  revert n; induction l as [|x l IH]; intros [|n]; cbn; auto.
  - now rewrite Hg.
  - now rewrite IH.
Qed.

Lemma flat_map_updateFirst_same (p : A -> bool) (l : list A) :
  flat_map g (updateFirst p f l) = flat_map g l.
Proof.
  induction l as [|x l IH]; cbn; auto.
  destruct (p x); cbn; [now rewrite Hg|now rewrite IH].
Qed.
End SameReferences.

Ltac same_references :=
  unfold references;
  repeat match goal with
         | |- context [match footerInfo ?d with _ => _ end] =>
             destruct (footerInfo d) eqn:?
         end;
  cbn [set_carousel set_about set_projectSummary set_education
       set_certificates set_gallery set_projects set_footerInfo
       carousel about projectSummary education certificates gallery
       projects footerInfo about_photoUrl ps_image];
  rewrite ?flat_map_updateNth_same, ?flat_map_updateFirst_same
    by reflexivity;
  rewrite ?flat_map_app; cbn [flat_map proj_images app];
  rewrite ?app_nil_r; reflexivity.

Ltac no_asset_entry :=
  intros o Ho; rewrite ?in_app_iff in Ho; cbn [In] in Ho;
  repeat match type of Ho with
         | _ \/ _ => destruct Ho as [Ho|Ho]
         end;
  first [ now left | contradiction | right; now subst o ].

Ltac report_assets :=
  unfold AssetsReport; cbn [keepsAssets snd portfolioData calls];
  intros Hkeep;
  first [ discriminate Hkeep
        | split; [same_references|no_asset_entry] ].

(** X24: a request that carries no accepted file and is not a deletion
    (the text updates, add-project, and the upload routes without a
    file or with a rejected one) leaves the asset references of the held
    document exactly as they were, and adds no entry of the asset
    deletion to the log. *)
Theorem text_requests_keep_assets (env : Env) (req : Request) (w : World) :
  keepsAssets req = true ->
  let w' := snd (run (handle env req) w) in
  references (portfolioData w') = references (portfolioData w)
  /\ forall o, In o (calls w') -> In o (calls w) \/ isAssetEntry o = false.
Proof.
  intros Hkeep. cbv zeta. revert Hkeep.
  change (AssetsReport req w (run (handle env req) w)).
  destruct (saveRejects env) eqn:Hs;
    destruct req; unfold_route; crunch_with Hs report_assets.
Qed.

Lemma text_requests_keep_assets_witness :
  let w := Sample.admin Sample2.oneProject in
  let w' := snd (run (handle Sample.saves
                        (UpdateProject "proj1" (Some "Renamed") None None)) w) in
  references (portfolioData w')
  = [Sample.hostUrl "Project/a.png"; Sample.hostUrl "Project/b.png"]
  /\ proj_title (hd Sample2.site (projects (portfolioData w')))
     = Some "Renamed".
Proof.
  intros w w'. split.
  - unfold w'.
    rewrite (proj1 (text_requests_keep_assets Sample.saves
                      (UpdateProject "proj1" (Some "Renamed") None None) w
                      eq_refl)).
    reflexivity.
  - vm_compute. reflexivity.
Defined.

(* ================================================================== *)
(** ** The logo of a deleted education entry *)
(* ================================================================== *)

(** X25: delete-education runs the asset deletion for the [imageUrl] of
    the entry it removes, on the held document that still has the entry
    and before the save, whether the entry was found by its [id] or by
    its position; it then saves and, when the save succeeds, reloads. *)
Theorem delete_education_deletes_logo (env : Env) (identifier : string)
    (w : World) :
  isLoggedIn w = true ->
  let d := portfolioData w in
  let matches := fun e => looseEq (edu_id e) identifier in
  let outcome := fun (i : nat) (e : Education) =>
    let d' := set_education (removeNth i (education d)) d in
    let log := (calls w ++ assetCalls (extractPublicId (edu_imageUrl e)) d
                ++ [mkObs Save d'])%list in
    if saveRejects env
    then (Thrown PersistError, mkWorld true d' (stored w) log)
    else (Returned (Redirect "/admin#general"),
          mkWorld true d' d' (log ++ [mkObs FindById d'])) in
  ((exists e, In e (education d) /\ matches e = true) ->
   exists i e,
     nth_error (education d) i = Some e /\ matches e = true
     /\ run (delete_education env identifier) w = outcome i e)
  /\ ((forall e, In e (education d) -> matches e = false) ->
      forall n e,
        Js.parseInt identifier = Some n -> 0 <= n ->
        nth_error (education d) (Z.to_nat n) = Some e ->
        run (delete_education env identifier) w = outcome (Z.to_nat n) e).
Proof.
  intros Hin d matches outcome. split.
  - intros Hex.
    destruct (findIndex_first matches (education d) Hex)
      as (i & e & Hi & Hn & He & _).
    exists i, e. repeat split; auto.
    apply (delete_education_run env identifier w i e Hin); [|exact Hn].
    fold d. fold matches. rewrite Hi.
    replace (Z.of_nat i =? -1) with false by (symmetry; apply Z.eqb_neq; lia).
    reflexivity.
  - intros Hnone n e Hparse Hn He.
    assert (Hlen : (Z.to_nat n < length (education d))%nat)
      by (apply nth_error_Some; congruence).
    apply (delete_education_run env identifier w (Z.to_nat n) e Hin);
      [|exact He].
    fold d. fold matches. rewrite (findIndex_none matches _ Hnone), Hparse.
    change (-1 =? -1) with true. cbn [withinBounds].
    replace (0 <=? n) with true by (symmetry; apply Z.leb_le; lia).
    replace (n <? Z.of_nat (length (education d))) with true
      by (symmetry; apply Z.ltb_lt; lia).
    cbn [andb]. lia.
Qed.

(** By position: "1" on two entries without [id].  By [id]: "1"
    followed by a no-break space equals the number 1 of the first of the
    old entries, and it is the logo of that entry that is deleted. *)
Lemma delete_education_deletes_logo_witness :
  let d := set_education [Sample.entry IdAbsent "first";
                          Sample.entry IdAbsent "second"] Sample.emptyDoc in
  let old := Sample.legacyEntries in
  calls (snd (run (delete_education Sample.saves "1") (Sample.admin d)))
  = [mkObs (DeleteAsset (Some "portfolio/Education/second")) d;
     mkObs (Destroy "portfolio/Education/second") d;
     mkObs Save (set_education [Sample.entry IdAbsent "first"] Sample.emptyDoc);
     mkObs FindById
           (set_education [Sample.entry IdAbsent "first"] Sample.emptyDoc)]
  /\ calls (snd (run (delete_education Sample.saves ("1" ++ Sample.nbsp))
                     (Sample.admin old)))
     = [mkObs (DeleteAsset (Some "portfolio/Education/first")) old;
        mkObs (Destroy "portfolio/Education/first") old;
        mkObs Save
              (set_education [Sample.entry IdAbsent "second"] Sample.emptyDoc);
        mkObs FindById
              (set_education [Sample.entry IdAbsent "second"] Sample.emptyDoc)].
Proof.
  intros d old. split.
  - rewrite (proj2 (delete_education_deletes_logo Sample.saves "1"
                      (Sample.admin d) eq_refl)
               ltac:(intros e [<-|[<-|[]]]; reflexivity)
               1 (Sample.entry IdAbsent "second") eq_refl ltac:(lia) eq_refl).
    vm_compute. reflexivity.
  - destruct (proj1 (delete_education_deletes_logo Sample.saves
                       ("1" ++ Sample.nbsp) (Sample.admin old) eq_refl))
      as (i & e & Hn & Hm & Hrun).
    + exists (Sample.entry (IdNumber 1) "first").
      split; [now left|vm_compute; reflexivity].
    + rewrite Hrun. destruct i as [|[|i]]; cbn in Hn.
      * injection Hn as <-. vm_compute. reflexivity.
      * injection Hn as <-. discriminate Hm.
      * destruct i; discriminate Hn.
Defined.
